(** * The Librarian Game: books and shelves

    A shallow embedding of the two game entities of the repository,
    [Book] (src/game/entities/Book.js) and [Shelf], and the properties of
    their slot allocator and per-frame physics.

    Conventions of the embedding.
    - JavaScript objects live in a store indexed by references; a field that
      holds an object ([book.shelf], [shelf.books[i]], [book.holder]) holds a
      reference.  [null] is [None].
    - JavaScript numbers are idealised as exact rationals in canonical form
      ([Qc]), so that equality of numbers is Leibniz equality.  Rounding,
      NaN and the infinities of IEEE doubles are outside the model.
    - [Math.random()] reads the next value of an explicit stream of draws.
    - Drawing on the canvas context is output only and is not modelled; the
      fields a render pass writes are. *)

From Stdlib Require Import ZArith QArith Qcanon Qcabs Qround Lia Lqa.
From stdpp Require Import base tactics option numbers list functions strings.

Local Open Scope Qc_scope.

(** ** Numbers *)

Module Num.

(** A decimal literal [n/d]. *)
Definition frac (n : Z) (d : positive) : Qc := Q2Qc (n # d).

Definition ofZ (n : Z) : Qc := Q2Qc (n # 1).
Definition ofNat (n : nat) : Qc := ofZ (Z.of_nat n).

(** [a < b], [a <= b], [a >= b] as the booleans the source branches on. *)
Definition ltb (a b : Qc) : bool :=
  match a ?= b with Lt => true | _ => false end.
Definition leb (a b : Qc) : bool :=
  match a ?= b with Gt => false | _ => true end.
Definition gtb (a b : Qc) : bool := ltb b a.
Definition geb (a b : Qc) : bool := leb b a.

(** [Math.abs] *)
Definition abs (a : Qc) : Qc := Qcabs a.

(** [Math.floor] *)
Definition floor (a : Qc) : Z := Qfloor a.

End Num.

(** ** The random source *)

Module Random.

(** The ambient generator: the values [Math.random()] will return, and how
    many of them have been consumed. *)
Record t := mk { draws : nat -> Qc; cursor : nat }.

(** [Math.random()] *)
Definition next (g : t) : Qc * t :=
  (draws g (cursor g), mk (draws g) (S (cursor g))).

(** [Math.random()] returns a number in [0, 1). *)
Definition ok (g : t) : Prop := forall n, 0 <= draws g n /\ draws g n < 1.

Definition const (r : Qc) : t := mk (fun _ => r) 0.

End Random.

(** References into the object store. *)
Definition BookRef := nat.
Definition ShelfRef := nat.
Definition HolderRef := nat.

(** ** Entity *)

Module Entity.

(** Modelled from the spec: the entity base class (Entity.js) is not among
    the sources.  It provides [x, y, width, height, vx, vy, visible] and
    [getCenterX/Y()]; [super(x, y, w, h)] is taken to start at rest and
    visible. *)
Record t := mk {
  x : Qc; y : Qc; width : Qc; height : Qc;
  vx : Qc; vy : Qc; visible : bool }.

Definition new (px py w h : Qc) : t := mk px py w h 0 0 true.

Definition set_x (v : Qc) (e : t) : t :=
  mk v (y e) (width e) (height e) (vx e) (vy e) (visible e).
Definition set_y (v : Qc) (e : t) : t :=
  mk (x e) v (width e) (height e) (vx e) (vy e) (visible e).
Definition set_vx (v : Qc) (e : t) : t :=
  mk (x e) (y e) (width e) (height e) v (vy e) (visible e).
Definition set_vy (v : Qc) (e : t) : t :=
  mk (x e) (y e) (width e) (height e) (vx e) v (visible e).

End Entity.

(** ** The state a frame is run against *)

(** [game.stateManager.currentState]: the play state exposes the player's
    carried books and the shelves.  [Book.update] reads only the entity part
    (bounding box) of each shelf, so the shelves are listed by it. *)
Record Player := { carriedBooks : list BookRef }.
Record PlayState := { player : option Player; shelves : option (list Entity.t) }.

(** ** Book *)

Module Book.

(** The fields of a [Book] that its methods read or write.  The bounding
    box, position and velocity are inherited from [Entity].  [glowCanvas]
    records whether the cached glow image exists. *)
Record t := mk {
  base : Entity.t;
  color : string;
  isHeld : bool;
  isShelved : bool;
  holder : option HolderRef;
  shelf : option ShelfRef;
  friction : Qc;
  bounceDecay : Qc;
  gravity : Qc;
  rotation : Qc;
  rotationSpeed : Qc;
  sparkleTimer : Qc;
  glowIntensity : Qc;
  glowDirection : Qc;
  glowCanvas : bool;
  glowNeedsUpdate : bool }.

(** [constructor(game, x, y, color)] *)
Definition new (px py : Qc) (c : string) : t :=
  {| base := Entity.new px py (Num.ofZ 16) (Num.ofZ 20);
     color := c;
     isHeld := false;
     isShelved := false;
     holder := None;
     shelf := None;
     friction := Num.frac 9 10;
     bounceDecay := Num.frac 7 10;
     gravity := 0;
     rotation := 0;
     rotationSpeed := 0;
     sparkleTimer := 0;
     glowIntensity := 0;
     glowDirection := 1;
     glowCanvas := false;
     glowNeedsUpdate := true |}.

Definition x (b : t) : Qc := Entity.x (base b).
Definition y (b : t) : Qc := Entity.y (base b).
Definition width (b : t) : Qc := Entity.width (base b).
Definition height (b : t) : Qc := Entity.height (base b).
Definition vx (b : t) : Qc := Entity.vx (base b).
Definition vy (b : t) : Qc := Entity.vy (base b).
Definition visible (b : t) : bool := Entity.visible (base b).

(** Field assignments [this.f = v]. *)
Definition set_base (e : Entity.t) (b : t) : t :=
  mk e (color b) (isHeld b) (isShelved b) (holder b) (shelf b)
     (friction b) (bounceDecay b) (gravity b) (rotation b) (rotationSpeed b)
     (sparkleTimer b) (glowIntensity b) (glowDirection b) (glowCanvas b)
     (glowNeedsUpdate b).
Definition set_x (v : Qc) (b : t) : t := set_base (Entity.set_x v (base b)) b.
Definition set_y (v : Qc) (b : t) : t := set_base (Entity.set_y v (base b)) b.
Definition set_vx (v : Qc) (b : t) : t := set_base (Entity.set_vx v (base b)) b.
Definition set_vy (v : Qc) (b : t) : t := set_base (Entity.set_vy v (base b)) b.
Definition set_isHeld (v : bool) (b : t) : t :=
  mk (base b) (color b) v (isShelved b) (holder b) (shelf b)
     (friction b) (bounceDecay b) (gravity b) (rotation b) (rotationSpeed b)
     (sparkleTimer b) (glowIntensity b) (glowDirection b) (glowCanvas b)
     (glowNeedsUpdate b).
Definition set_isShelved (v : bool) (b : t) : t :=
  mk (base b) (color b) (isHeld b) v (holder b) (shelf b)
     (friction b) (bounceDecay b) (gravity b) (rotation b) (rotationSpeed b)
     (sparkleTimer b) (glowIntensity b) (glowDirection b) (glowCanvas b)
     (glowNeedsUpdate b).
Definition set_holder (v : option HolderRef) (b : t) : t :=
  mk (base b) (color b) (isHeld b) (isShelved b) v (shelf b)
     (friction b) (bounceDecay b) (gravity b) (rotation b) (rotationSpeed b)
     (sparkleTimer b) (glowIntensity b) (glowDirection b) (glowCanvas b)
     (glowNeedsUpdate b).
Definition set_shelf (v : option ShelfRef) (b : t) : t :=
  mk (base b) (color b) (isHeld b) (isShelved b) (holder b) v
     (friction b) (bounceDecay b) (gravity b) (rotation b) (rotationSpeed b)
     (sparkleTimer b) (glowIntensity b) (glowDirection b) (glowCanvas b)
     (glowNeedsUpdate b).
Definition set_rotation (v : Qc) (b : t) : t :=
  mk (base b) (color b) (isHeld b) (isShelved b) (holder b) (shelf b)
     (friction b) (bounceDecay b) (gravity b) v (rotationSpeed b)
     (sparkleTimer b) (glowIntensity b) (glowDirection b) (glowCanvas b)
     (glowNeedsUpdate b).
Definition set_rotationSpeed (v : Qc) (b : t) : t :=
  mk (base b) (color b) (isHeld b) (isShelved b) (holder b) (shelf b)
     (friction b) (bounceDecay b) (gravity b) (rotation b) v
     (sparkleTimer b) (glowIntensity b) (glowDirection b) (glowCanvas b)
     (glowNeedsUpdate b).
Definition set_sparkleTimer (v : Qc) (b : t) : t :=
  mk (base b) (color b) (isHeld b) (isShelved b) (holder b) (shelf b)
     (friction b) (bounceDecay b) (gravity b) (rotation b) (rotationSpeed b)
     v (glowIntensity b) (glowDirection b) (glowCanvas b)
     (glowNeedsUpdate b).
Definition set_glowIntensity (v : Qc) (b : t) : t :=
  mk (base b) (color b) (isHeld b) (isShelved b) (holder b) (shelf b)
     (friction b) (bounceDecay b) (gravity b) (rotation b) (rotationSpeed b)
     (sparkleTimer b) v (glowDirection b) (glowCanvas b)
     (glowNeedsUpdate b).
Definition set_glowDirection (v : Qc) (b : t) : t :=
  mk (base b) (color b) (isHeld b) (isShelved b) (holder b) (shelf b)
     (friction b) (bounceDecay b) (gravity b) (rotation b) (rotationSpeed b)
     (sparkleTimer b) (glowIntensity b) v (glowCanvas b)
     (glowNeedsUpdate b).
Definition set_glowCanvas (v : bool) (b : t) : t :=
  mk (base b) (color b) (isHeld b) (isShelved b) (holder b) (shelf b)
     (friction b) (bounceDecay b) (gravity b) (rotation b) (rotationSpeed b)
     (sparkleTimer b) (glowIntensity b) (glowDirection b) v
     (glowNeedsUpdate b).
Definition set_glowNeedsUpdate (v : bool) (b : t) : t :=
  mk (base b) (color b) (isHeld b) (isShelved b) (holder b) (shelf b)
     (friction b) (bounceDecay b) (gravity b) (rotation b) (rotationSpeed b)
     (sparkleTimer b) (glowIntensity b) (glowDirection b) (glowCanvas b)
     v.

(** *** update(deltaTime) *)

(** The overlap test of the collision loop:
    [!(this.x + this.width < shelf.x || this.x > shelf.x + shelf.width ||
       this.y + this.height < shelf.y || this.y > shelf.y + shelf.height)] *)
Definition overlaps (this : t) (s : Entity.t) : bool :=
  negb (Num.ltb (x this + width this) (Entity.x s)
        || Num.gtb (x this) (Entity.x s + Entity.width s)
        || Num.ltb (y this + height this) (Entity.y s)
        || Num.gtb (y this) (Entity.y s + Entity.height s)).

(** The body of the [if] of the collision loop: back to the old position,
    velocity reversed and halved, then two random kicks. *)
Definition bounce (oldX oldY : Qc) (this : t) (g : Random.t) : t * Random.t :=
  let this := set_x oldX this in
  let this := set_y oldY this in
  let this := set_vx (- vx this * Num.frac 1 2) this in
  let this := set_vy (- vy this * Num.frac 1 2) this in
  let '(r1, g) := Random.next g in
  let this := set_vx (vx this + (r1 - Num.frac 1 2) * Num.ofZ 20) this in
  let '(r2, g) := Random.next g in
  let this := set_vy (vy this + (r2 - Num.frac 1 2) * Num.ofZ 20) this in
  (this, g).

(** [for (const shelf of state.shelves) { if (overlap) { ...; break; } }] *)
Fixpoint collide (shs : list Entity.t) (oldX oldY : Qc) (this : t)
    (g : Random.t) : t * Random.t :=
  match shs with
  | [] => (this, g)
  | s :: rest =>
      if overlaps this s then bounce oldX oldY this g
      else collide rest oldX oldY this g
  end.

(** [if (!this.isShelved) { const state = ...; if (state && state.shelves) ... }] *)
Definition checkShelves (state : option PlayState) (oldX oldY : Qc)
    (this : t) (g : Random.t) : t * Random.t :=
  if negb (isShelved this) then
    match state with
    | Some st =>
        match shelves st with
        | Some shs => collide shs oldX oldY this g
        | None => (this, g)
        end
    | None => (this, g)
    end
  else (this, g).

(** Glow pulsing. *)
Definition pulse (deltaTime : Qc) (this : t) : t :=
  let this :=
    set_glowIntensity
      (glowIntensity this + glowDirection this * deltaTime * Num.ofZ 2) this in
  if Num.geb (glowIntensity this) 1 then
    set_glowDirection (- (1)) (set_glowIntensity 1 this)
  else if Num.leb (glowIntensity this) (Num.frac 3 10) then
    set_glowDirection 1 (set_glowIntensity (Num.frac 3 10) this)
  else this.

(** Stop moving if the velocity is very small. *)
Definition rest (this : t) : t :=
  if Num.ltb (Num.abs (vx this)) (Num.ofZ 5)
     && Num.ltb (Num.abs (vy this)) (Num.ofZ 5)
  then set_vy 0 (set_vx 0 this)
  else this.

(** Apply friction to velocity. *)
Definition applyFriction (this : t) : t :=
  let this := set_vx (vx this * friction this) this in
  let this := set_vy (vy this * friction this) this in
  this.

(** Update position. *)
Definition move (deltaTime : Qc) (this : t) : t :=
  let this := set_x (x this + vx this * deltaTime) this in
  let this := set_y (y this + vy this * deltaTime) this in
  this.

(** Update rotation. *)
Definition spin (deltaTime : Qc) (this : t) : t :=
  let this := set_rotation (rotation this + rotationSpeed this * deltaTime) this in
  let this := set_rotationSpeed (rotationSpeed this * Num.frac 95 100) this in
  this.

Definition update (deltaTime : Qc) (state : option PlayState) (this : t)
    (g : Random.t) : t * Random.t :=
  if isHeld this then (this, g)
  else
    let this := applyFriction this in
    let oldX := x this in
    let oldY := y this in
    let this := move deltaTime this in
    let '(this, g) := checkShelves state oldX oldY this g in
    let this := spin deltaTime this in
    let this := set_sparkleTimer (sparkleTimer this + deltaTime) this in
    let this := pulse deltaTime this in
    (rest this, g).

(** Repeated frames, one [deltaTime] each. *)
Fixpoint updates (deltaTimes : list Qc) (state : option PlayState) (this : t)
    (g : Random.t) : t * Random.t :=
  match deltaTimes with
  | [] => (this, g)
  | dt :: rest =>
      let '(this, g) := update dt state this g in
      updates rest state this g
  end.

(** The position the frame tries: after friction and the move. *)
Definition tentative (deltaTime : Qc) (this : t) : t :=
  move deltaTime (applyFriction this).

(** Whether [this] overlaps the bounding box of some shelf of the state. *)
Definition hits (state : option PlayState) (this : t) : bool :=
  match state with
  | Some st =>
      match shelves st with
      | Some shs => existsb (overlaps this) shs
      | None => false
      end
  | None => false
  end.

(** *** render(ctx, interpolation)

    What a render pass writes to the book: the glow image is created on
    the first pass that draws the glow, which happens only for a visible
    book on the floor. *)
Definition renderOptimizedGlow (this : t) : t :=
  if negb (glowCanvas this) || glowNeedsUpdate this then
    set_glowNeedsUpdate false (set_glowCanvas true this)
  else this.

Definition render (this : t) : t :=
  if negb (visible this) then this
  else if negb (isHeld this) && negb (isShelved this) then
    renderOptimizedGlow this
  else this.

(** *** The glow images a render creates

    [createGlowCanvas()] makes a new image with [document.createElement]
    and stores it in [glowCanvas].  The functions below are the render pass
    again, returning next to the book the number of images created. *)
Definition createGlowCanvas (this : t) : t * nat :=
  (set_glowCanvas true this, 1%nat).

Definition renderOptimizedGlowCounted (this : t) : t * nat :=
  if negb (glowCanvas this) || glowNeedsUpdate this then
    let '(this, created) := createGlowCanvas this in
    (set_glowNeedsUpdate false this, created)
  else (this, 0%nat).

Definition renderCounted (this : t) : t * nat :=
  if negb (visible this) then (this, 0%nat)
  else if negb (isHeld this) && negb (isShelved this) then
    renderOptimizedGlowCounted this
  else (this, 0%nat).

(** *** State transitions *)

Definition pickup (h : HolderRef) (this : t) : t :=
  let this := set_isHeld true this in
  let this := set_holder (Some h) this in
  let this := set_vx 0 this in
  let this := set_vy 0 this in
  let this := set_rotation 0 this in
  let this := set_rotationSpeed 0 this in
  this.

(** [pickup(holder)] as JavaScript allows it to be called: the argument is
    stored as it comes, also when it is [null] or [undefined]. *)
Definition pickupBy (holder : option HolderRef) (this : t) : t :=
  let this := set_isHeld true this in
  let this := set_holder holder this in
  let this := set_vx 0 this in
  let this := set_vy 0 this in
  let this := set_rotation 0 this in
  let this := set_rotationSpeed 0 this in
  this.

(** [drop(x, y, throwVelocity = null)] *)
Definition drop (px py : Qc) (throwVelocity : option (Qc * Qc)) (this : t)
    (g : Random.t) : t * Random.t :=
  let this := set_isHeld false this in
  let this := set_holder None this in
  let this := set_x px this in
  let this := set_y py this in
  match throwVelocity with
  | Some (tx, ty) =>
      let this := set_vx tx this in
      let this := set_vy ty this in
      let '(r, g) := Random.next g in
      (set_rotationSpeed ((r - Num.frac 1 2) * Num.ofZ 10) this, g)
  | None => (this, g)
  end.

(** [shelve(shelf = null)] *)
Definition shelve (s : option ShelfRef) (this : t) : t :=
  let this := set_isShelved true this in
  let this := set_isHeld false this in
  let this := set_holder None this in
  let this := set_shelf s this in
  let this := set_vx 0 this in
  let this := set_vy 0 this in
  let this := set_rotation 0 this in
  let this := set_rotationSpeed 0 this in
  this.

Definition unshelve (this : t) : t :=
  let this := set_isShelved false this in
  let this := set_shelf None this in
  this.

(** The state model of the data model: held and shelved exclude each
    other. *)
Definition exclusive (this : t) : Prop :=
  ~ (isHeld this = true /\ isShelved this = true).

(** *** getStateString()

    [className] gives the name of the constructor of the object a holder
    reference denotes ([holder.constructor.name]); an empty name is falsy,
    like a missing holder. *)
Definition getStateString (className : HolderRef -> string) (this : t)
    : string :=
  if isShelved this then "shelved"
  else if isHeld this then
    String.append "held by "
      (match holder this with
       | Some o => if bool_decide (className o = "") then "unknown"
                   else className o
       | None => "unknown"
       end)
  else "on floor".

(** The fields that identify a book and its state, as opposed to its
    motion and its cosmetic timers. *)
Definition identity (this : t) :=
  (color this, isHeld this, isShelved this, holder this, shelf this,
   (friction this, bounceDecay this, gravity this),
   (width this, height this, visible this),
   (glowCanvas this, glowNeedsUpdate this)).

(** The farthest one frame of at most one second can carry a book that
    moves with the speed a bounce can leave it ([topSpeed] per axis, the
    fixed point of halving after friction and adding a kick of 10). *)
Definition topSpeed : Qc := Num.frac 200 11.
Definition reach : Qc := Num.frac 180 11.

(** The book overlaps the box [s] with a margin of [reach] on every side:
    moved by up to [reach] along each axis it still overlaps it. *)
Definition deepInside (this : t) (s : Entity.t) : Prop :=
  Entity.x s + reach <= x this + width this
  /\ x this + reach <= Entity.x s + Entity.width s
  /\ Entity.y s + reach <= y this + height this
  /\ y this + reach <= Entity.y s + Entity.height s.

End Book.

(** The store of books. *)
Abbreviation Heap := (BookRef -> Book.t).

(** ** Shelf *)

Module Shelf.

(** [self] is the identity of the shelf object (what a book's [shelf]
    field is compared with); [books] is the slot array, [None] for
    [null]. *)
Record t := mk {
  self : ShelfRef;
  base : Entity.t;
  color : string;
  capacity : nat;
  books : list (option BookRef);
  emptySlotGlow : Qc;
  emptySlotGlowDirection : Qc }.

(** [constructor(game, x, y, color, capacity = 6)] *)
Definition new (me : ShelfRef) (px py : Qc) (c : string) (cap : nat) : t :=
  {| self := me;
     base := Entity.new px py (Num.ofZ 64) (Num.ofZ 96);
     color := c;
     capacity := cap;
     books := replicate cap None;
     emptySlotGlow := 0;
     emptySlotGlowDirection := 1 |}.

Definition set_books (v : list (option BookRef)) (s : t) : t :=
  mk (self s) (base s) (color s) (capacity s) v (emptySlotGlow s)
     (emptySlotGlowDirection s).
Definition set_emptySlotGlow (v : Qc) (s : t) : t :=
  mk (self s) (base s) (color s) (capacity s) (books s) v
     (emptySlotGlowDirection s).
Definition set_emptySlotGlowDirection (v : Qc) (s : t) : t :=
  mk (self s) (base s) (color s) (capacity s) (books s) (emptySlotGlow s) v.

(** Reading [this.books[i]]: [None] out of range ([undefined]),
    [Some None] for [null]. *)
Definition slot (s : t) (i : nat) : option (option BookRef) := books s !! i.

(** Truthiness of what a slot read returns. *)
Definition truthy (v : option (option BookRef)) : bool :=
  match v with Some (Some _) => true | _ => false end.

(** The assignment [this.books[i] = v].  Writing at the length of the
    array appends; the allocator never writes further out. *)
Definition store (i : nat) (v : option BookRef) (l : list (option BookRef))
    : list (option BookRef) :=
  if decide (i < length l)%nat then <[i := v]> l
  else l ++ replicate (i - length l) None ++ [v].

(** [this.books.filter(book => book !== null).length] *)
Definition bookCount (s : t) : nat :=
  length (filter (fun b : option BookRef => b <> None) (books s)).

Definition hasEmptySlots (s : t) : bool :=
  bool_decide (bookCount s < capacity s)%nat.

Definition getEmptySlotCount (s : t) : Z :=
  (Z.of_nat (capacity s) - Z.of_nat (bookCount s))%Z.

(** The scan of [addBook]:
    [while (slotIndex < this.capacity && this.books[slotIndex]) slotIndex++].
    Each round moves [slotIndex] one step toward [capacity], so [capacity]
    rounds are enough. *)
Fixpoint scan (fuel : nat) (s : t) (slotIndex : nat) : nat :=
  match fuel with
  | O => slotIndex
  | S fuel' =>
      if bool_decide (slotIndex < capacity s)%nat && truthy (slot s slotIndex)
      then scan fuel' s (S slotIndex)
      else slotIndex
  end.

Definition addBook (book : BookRef) (this : t) (h : Heap) : bool * t * Heap :=
  if negb (hasEmptySlots this)
     || negb (bool_decide (Book.color (h book) = color this))
  then (false, this, h)
  else
    let slotIndex := scan (capacity this) this 0 in
    if bool_decide (slotIndex < capacity this)%nat then
      (true,
       set_books (store slotIndex (Some book) (books this)) this,
       <[book := Book.shelve (Some (self this)) (h book)]> h)
    else (false, this, h).

(** [removeBook(index)] for an integer index. *)
Definition removeBook (index : Z) (this : t) (h : Heap)
    : option BookRef * t * Heap :=
  if bool_decide (0 <= index)%Z
     && bool_decide (index < Z.of_nat (length (books this)))%Z
  then
    match slot this (Z.to_nat index) with
    | Some (Some book) =>
        (Some book,
         set_books (store (Z.to_nat index) None (books this)) this,
         <[book := Book.unshelve (h book)]> h)
    | _ => (None, this, h)
    end
  else (None, this, h).

(** The indices [removeRandomBook] collects: those of the occupied slots,
    in increasing order. *)
Fixpoint bookIndicesFrom (i : nat) (l : list (option BookRef)) : list nat :=
  match l with
  | [] => []
  | Some _ :: l' => i :: bookIndicesFrom (S i) l'
  | None :: l' => bookIndicesFrom (S i) l'
  end.

Definition bookIndices (this : t) : list nat := bookIndicesFrom 0 (books this).

Definition removeRandomBook (this : t) (h : Heap) (g : Random.t)
    : option BookRef * t * Heap * Random.t :=
  let ixs := bookIndices this in
  if bool_decide (length ixs = 0%nat) then (None, this, h, g)
  else
    let '(r, g) := Random.next g in
    let k := Num.floor (r * Num.ofNat (length ixs)) in
    (* [bookIndices[k]] is [undefined] outside the array, and
       [removeBook(undefined)] returns [null]. *)
    if bool_decide (0 <= k)%Z then
      match ixs !! Z.to_nat k with
      | Some randomIndex => (removeBook (Z.of_nat randomIndex) this h, g)
      | None => (None, this, h, g)
      end
    else (None, this, h, g).

(** [state && state.player && state.player.carriedBooks.some(...)] *)
Definition playerHasMatchingBook (state : option PlayState) (this : t)
    (h : Heap) : bool :=
  match state with
  | Some st =>
      match player st with
      | Some p =>
          existsb (fun book => bool_decide (Book.color (h book) = color this))
                  (carriedBooks p)
      | None => false
      end
  | None => false
  end.

Definition update (deltaTime : Qc) (state : option PlayState) (this : t)
    (h : Heap) : t :=
  if hasEmptySlots this then
    let p := playerHasMatchingBook state this h in
    let glowSpeed := if p then Num.ofZ 4 else Num.ofZ 2 in
    let maxGlow := if p then 1 else Num.frac 7 10 in
    let minGlow := if p then Num.frac 1 2 else Num.frac 3 10 in
    let this :=
      set_emptySlotGlow
        (emptySlotGlow this + emptySlotGlowDirection this * deltaTime * glowSpeed)
        this in
    if Num.geb (emptySlotGlow this) maxGlow then
      set_emptySlotGlowDirection (- (1)) (set_emptySlotGlow maxGlow this)
    else if Num.leb (emptySlotGlow this) minGlow then
      set_emptySlotGlowDirection 1 (set_emptySlotGlow minGlow this)
    else this
  else set_emptySlotGlow 0 this.

(** One call of the [forEach] callback of [renderBooks], at [index]. *)
Definition renderSlot (index : nat) (st : t * Heap) : t * Heap :=
  let '(this, h) := st in
  match slot this index with
  | Some (Some book) =>
      if negb (Book.isShelved (h book))
         || negb (bool_decide (Book.shelf (h book) = Some (self this)))
      then (set_books (store index None (books this)) this, h)
      else
        let slotWidth := Entity.width (base this) / Num.ofZ 3 in
        let row := Num.ofNat (index / 3) in
        let col := Num.ofNat (index mod 3) in
        let b := h book in
        let b :=
          Book.set_x (Entity.x (base this) + col * slotWidth
                      + (slotWidth - Book.width b) / Num.ofZ 2) b in
        let b :=
          Book.set_y (Entity.y (base this) + Num.ofZ 24 + row * Num.ofZ 24) b in
        (this, <[book := Book.render b]> h)
  | _ => (this, h)
  end.

(** [this.books.forEach((book, index) => ...)]: the callback runs at the
    indices below the length the array had when the pass began. *)
Definition renderBooks (this : t) (h : Heap) : t * Heap :=
  foldl (fun st index => renderSlot index st) (this, h)
        (seq 0 (length (books this))).

(** The check [renderBooks] makes on a slot's book, as a positive test: the
    book reports [isShelved] and references this shelf back. *)
Definition valid (this : t) (h : Heap) (book : BookRef) : bool :=
  Book.isShelved (h book)
  && bool_decide (Book.shelf (h book) = Some (self this)).

(** What a render pass leaves in a slot that read [v] before it. *)
Definition healed (this : t) (h : Heap) (v : option (option BookRef))
    : option (option BookRef) :=
  match v with
  | Some (Some book) => if valid this h book then v else Some None
  | _ => v
  end.

(** A shelf as the constructor builds it: one slot per unit of capacity. *)
Definition wf (s : t) : Prop := length (books s) = capacity s.

(** The position [renderBooks] gives the book of slot [index], followed
    by its [render]: the three statements that end the [forEach] callback. *)
Definition place (this : t) (index : nat) (b : Book.t) : Book.t :=
  let slotWidth := Entity.width (base this) / Num.ofZ 3 in
  let row := Num.ofNat (index / 3) in
  let col := Num.ofNat (index mod 3) in
  let b :=
    Book.set_x (Entity.x (base this) + col * slotWidth
                + (slotWidth - Book.width b) / Num.ofZ 2) b in
  let b :=
    Book.set_y (Entity.y (base this) + Num.ofZ 24 + row * Num.ofZ 24) b in
  Book.render b.

(** *** renderOptimizedEmptySlots(ctx)

    The outlines of the empty slots, as the rectangles handed to
    [ctx.strokeRect], in drawing order.  The loop walks a grid of
    [rows = 2] by [slotsPerRow = 3] cells with a running [slotIndex]. *)
Record Rect := { rx : Qc; ry : Qc; rw : Qc; rh : Qc }.

(** The body of the inner loop, at [row] and [col]. *)
Definition outlineCell (this : t) (row col : nat) (st : nat * list Rect)
    : nat * list Rect :=
  let '(slotIndex, out) := st in
  let slotWidth := Entity.width (base this) / Num.ofZ 3 in
  let slotHeight := Num.ofZ 20 in
  let out :=
    if bool_decide (slotIndex < capacity this)%nat
       && negb (truthy (slot this slotIndex))
    then
      let slotX := Entity.x (base this) + Num.ofNat col * slotWidth + Num.ofZ 4 in
      let slotY := Entity.y (base this) + Num.ofZ 24 + Num.ofNat row * Num.ofZ 24 in
      out ++ {| rx := slotX; ry := slotY;
                rw := slotWidth - Num.ofZ 8; rh := slotHeight |} :: nil
    else out in
  (S slotIndex, out).

Definition outlineRow (this : t) (st : nat * list Rect) (row : nat)
    : nat * list Rect :=
  foldl (fun st col => outlineCell this row col st) st (seq 0 3).

Definition emptySlotOutlines (this : t) : list Rect :=
  (foldl (outlineRow this) (0%nat, nil) (seq 0 2)).2.

(** The outline of grid cell [index]: column [index mod 3], row
    [index / 3]. *)
Definition cell (this : t) (index : nat) : Rect :=
  let slotWidth := Entity.width (base this) / Num.ofZ 3 in
  {| rx := Entity.x (base this) + Num.ofNat (index mod 3) * slotWidth
           + Num.ofZ 4;
     ry := Entity.y (base this) + Num.ofZ 24
           + Num.ofNat (index / 3) * Num.ofZ 24;
     rw := slotWidth - Num.ofZ 8;
     rh := Num.ofZ 20 |}.

(** Slot [index] exists and reads empty. *)
Definition emptyAt (this : t) (index : nat) : bool :=
  bool_decide (index < capacity this)%nat && negb (truthy (slot this index)).

End Shelf.

(** ** The life of a shelf *)

Module Life.

(** What can happen to a shelf after it is built: calls of its own
    methods, and the rest of the game acting on the books ([Elsewhere]:
    a player picking a book up, a book being dropped, ...). *)
Inductive call :=
| AddBook (book : BookRef)
| RemoveBook (index : Z)
| RemoveRandomBook
| Update (deltaTime : Qc) (state : option PlayState)
| RenderBooks
| Elsewhere (f : Heap -> Heap).

Record world := mk { shelf : Shelf.t; heap : Heap; random : Random.t }.

Definition step (w : world) (c : call) : world :=
  match c with
  | AddBook book =>
      let '(_, s, h) := Shelf.addBook book (shelf w) (heap w) in
      mk s h (random w)
  | RemoveBook index =>
      let '(_, s, h) := Shelf.removeBook index (shelf w) (heap w) in
      mk s h (random w)
  | RemoveRandomBook =>
      let '(_, s, h, g) := Shelf.removeRandomBook (shelf w) (heap w) (random w) in
      mk s h g
  | Update deltaTime state =>
      mk (Shelf.update deltaTime state (shelf w) (heap w)) (heap w) (random w)
  | RenderBooks =>
      let '(s, h) := Shelf.renderBooks (shelf w) (heap w) in
      mk s h (random w)
  | Elsewhere f => mk (shelf w) (f (heap w)) (random w)
  end.

Definition run (calls : list call) (w : world) : world := foldl step w calls.

End Life.

(** ** The life of a book *)

Module BookLife.

(** The calls a book receives after it is created.  The arguments of
    [pickup] and [shelve] are references that may be null: [shelve] has
    [null] as its default, and [pickup] stores whatever it is given.
    [Shelf.addBook] calls [shelve] with the shelf as argument. *)
Inductive call :=
| Pickup (holder : option HolderRef)
| Drop (x y : Qc) (throwVelocity : option (Qc * Qc))
| Shelve (shelf : option ShelfRef)
| Unshelve
| Update (deltaTime : Qc) (state : option PlayState).

Definition step (w : Book.t * Random.t) (c : call) : Book.t * Random.t :=
  match c with
  | Pickup holder => (Book.pickupBy holder w.1, w.2)
  | Drop x y throwVelocity => Book.drop x y throwVelocity w.1 w.2
  | Shelve shelf => (Book.shelve shelf w.1, w.2)
  | Unshelve => (Book.unshelve w.1, w.2)
  | Update deltaTime state => Book.update deltaTime state w.1 w.2
  end.

(** The one call the book does not guard itself: [pickup] does not clear the
    shelved state, so it is for books that are not shelved. *)
Definition allowed (b : Book.t) (c : call) : bool :=
  match c with
  | Pickup _ => negb (Book.isShelved b)
  | _ => true
  end.

(** A sequence of calls each of which is allowed when it is made. *)
Fixpoint legal (calls : list call) (w : Book.t * Random.t) : bool :=
  match calls with
  | [] => true
  | c :: rest => allowed w.1 c && legal rest (step w c)
  end.

(** A call that passes a reference wherever it can pass one. *)
Definition referenced (c : call) : bool :=
  match c with
  | Pickup None | Shelve None => false
  | _ => true
  end.

Definition run (calls : list call) (w : Book.t * Random.t)
    : Book.t * Random.t :=
  foldl step w calls.

(** The book's back-references are only set in the state they belong to. *)
Definition attached (b : Book.t) : Prop :=
  Book.exclusive b
  /\ (Book.holder b <> None -> Book.isHeld b = true)
  /\ (Book.shelf b <> None -> Book.isShelved b = true).

(** The book's state flags and back-references agree. *)
Definition linked (b : Book.t) : Prop :=
  Book.exclusive b
  /\ (Book.isHeld b = true <-> Book.holder b <> None)
  /\ (Book.isShelved b = true <-> Book.shelf b <> None).

(** What happens to a book while the game runs: calls, and render passes
    in between.  The last component of the state counts the glow images
    created so far. *)
Inductive event :=
| Call (c : call)
| Render.

Definition observe (w : Book.t * Random.t * nat) (e : event)
    : Book.t * Random.t * nat :=
  match e with
  | Call c => (step w.1 c, w.2)
  | Render =>
      let '(this, created) := Book.renderCounted w.1.1 in
      (this, w.1.2, (w.2 + created)%nat)
  end.

Definition watch (events : list event) (w : Book.t * Random.t * nat)
    : Book.t * Random.t * nat :=
  foldl observe w events.

(** The glow image exists exactly when one has been created, and it is
    then up to date. *)
Definition cached (w : Book.t * Random.t * nat) : Prop :=
  (w.2 = 0%nat /\ Book.glowCanvas w.1.1 = false
   /\ Book.glowNeedsUpdate w.1.1 = true)
  \/ (w.2 = 1%nat /\ Book.glowCanvas w.1.1 = true
      /\ Book.glowNeedsUpdate w.1.1 = false).

End BookLife.

(** ** Concrete books, shelves and states *)

Module Sample.

(** A book as the spawner creates it, lying on the floor. *)
Definition freshBook : Book.t := Book.new 0 0 "red".

Definition heldBook : Book.t := Book.pickup 1%nat freshBook.

Definition shelvedBook : Book.t := Book.shelve (Some 0%nat) freshBook.

(** A book thrown to the right at 100 units per second. *)
Definition flyingBook : Book.t := Book.set_vx (Num.ofZ 100) freshBook.

(** A play state whose only shelf stands at (20, 0). *)
Definition room : option PlayState :=
  Some {| player := None;
          shelves := Some (Entity.new (Num.ofZ 20) 0 (Num.ofZ 64) (Num.ofZ 96)
                           :: nil) |}.

(** A play state whose only shelf stands at the origin, and a book dropped
    at rest onto it. *)
Definition cornerRoom : option PlayState :=
  Some {| player := None;
          shelves := Some (Entity.new 0 0 (Num.ofZ 64) (Num.ofZ 96) :: nil) |}.

Definition droppedOnShelf : Book.t :=
  (Book.drop (Num.ofZ 10) (Num.ofZ 10) None heldBook (Random.const 0)).1.

(** A store in which book 7 is blue and every other book is red. *)
Definition library : Heap :=
  fun r => Book.new 0 0 (if decide (r = 7%nat) then "blue" else "red").

Definition redShelf : Shelf.t := Shelf.new 0%nat 0 0 "red" 6.

(** The red shelf after books 1 to 6 were added. *)
Definition fullShelf : Shelf.t * Heap :=
  foldl (fun '(s, h) book => let '(_, s, h) := Shelf.addBook book s h in (s, h))
        (redShelf, library) (seq 1 6).

(** The full shelf after book 4 was taken and unshelved behind the shelf's
    back: slot 3 still refers to it. *)
Definition staleLibrary : Heap :=
  <[4%nat := Book.unshelve (fullShelf.2 4%nat)]> (fullShelf.2).

(** A book on the floor after its first frame: its glow has entered the
    range, at the lower bound, rising. *)
Definition glowingBook : Book.t :=
  (Book.update (Num.frac 1 60) None freshBook (Random.const 0)).1.

(** The slots of the full shelf. *)
Definition sixBooks : list (option BookRef) :=
  (Some 1 :: Some 2 :: Some 3 :: Some 4 :: Some 5 :: Some 6 :: nil)%nat.

End Sample.

(** * Properties *)

(** ** Comparisons and arithmetic on numbers *)

Lemma ltb_lt a b : Num.ltb a b = true <-> a < b.
Proof.
  unfold Num.ltb. rewrite Qclt_alt.
  destruct (a ?= b); split; congruence.
Qed.

Lemma leb_le a b : Num.leb a b = true <-> a <= b.
Proof.
  unfold Num.leb. rewrite Qcle_alt.
  destruct (a ?= b); split; congruence.
Qed.

Lemma ltb_ge a b : Num.ltb a b = false <-> b <= a.
Proof.
  rewrite <- not_true_iff_false, ltb_lt. split.
  - apply Qcnot_lt_le.
  - apply Qcle_not_lt.
Qed.

Lemma leb_gt a b : Num.leb a b = false <-> b < a.
Proof.
  rewrite <- not_true_iff_false, leb_le. split.
  - apply Qcnot_le_lt.
  - apply Qclt_not_le.
Qed.

(** Goals on canonical rationals are sent to [Q], where [lra] decides
    them. *)
Ltac to_Q :=
  unfold Num.frac, Num.ofZ, Qcminus, Qcdiv in *;
  unfold Qcle, Qclt, Qcplus, Qcmult, Qcopp, Q2Qc in *;
  cbn [this] in *;
  rewrite ?Qred_correct in *.

Ltac qc_lra := to_Q; lra.

Lemma abs_friction (v : Qc) :
  Num.abs (v * Num.frac 9 10) <= Num.abs v.
Proof.
  unfold Num.abs. rewrite Qcabs_Qcmult.
  pose proof (Qcabs_nonneg v) as Hv.
  rewrite (Qcabs_pos (Num.frac 9 10)) by (to_Q; lra).
  revert Hv. generalize (Qcabs v). intros a Ha. qc_lra.
Qed.

Lemma abs_zero_small : Num.ltb (Num.abs 0) (Num.ofZ 5) = true.
Proof. reflexivity. Qed.

(** The kick [(Math.random() - 0.5) * 20] stays within ten units. *)
Lemma jitter_bound (r : Qc) :
  0 <= r -> r < 1 ->
  - Num.ofZ 10 <= (r - Num.frac 1 2) * Num.ofZ 20
  /\ (r - Num.frac 1 2) * Num.ofZ 20 < Num.ofZ 10.
Proof. intros H0 H1. split; qc_lra. Qed.

(** ** Book: projections through the phases of [update] *)

Section BookFrames.

Import Book.

Lemma overlaps_same_box (a b : t) (s : Entity.t) :
  x a = x b -> y a = y b -> width a = width b -> height a = height b ->
  overlaps a s = overlaps b s.
Proof. unfold overlaps. intros -> -> -> ->. reflexivity. Qed.

Lemma hits_same_box (state : option PlayState) (a b : t) :
  x a = x b -> y a = y b -> width a = width b -> height a = height b ->
  hits state a = hits state b.
Proof.
  intros Hx Hy Hw Hh. unfold hits.
  destruct state as [st|]; [|reflexivity].
  destruct (shelves st) as [shs|]; [|reflexivity].
  induction shs as [|s shs IH]; [reflexivity|].
  cbn. rewrite IH. f_equal. by apply overlaps_same_box.
Qed.

(** The loop over the shelves bounces exactly when some shelf is hit. *)
Lemma collide_hit shs oldX oldY this g :
  existsb (overlaps this) shs = true ->
  collide shs oldX oldY this g = bounce oldX oldY this g.
Proof.
  induction shs as [|s shs IH]; cbn; [discriminate|].
  destruct (overlaps this s); [reflexivity|]. exact IH.
Qed.

Lemma collide_miss shs oldX oldY this g :
  existsb (overlaps this) shs = false ->
  collide shs oldX oldY this g = (this, g).
Proof.
  induction shs as [|s shs IH]; cbn; [reflexivity|].
  destruct (overlaps this s); [discriminate|]. exact IH.
Qed.

Lemma checkShelves_hit state oldX oldY this g :
  isShelved this = false -> hits state this = true ->
  checkShelves state oldX oldY this g = bounce oldX oldY this g.
Proof.
  unfold checkShelves, hits. intros -> H. cbn.
  destruct state as [st|]; [|discriminate].
  destruct (shelves st) as [shs|]; [|discriminate].
  by apply collide_hit.
Qed.

Lemma checkShelves_miss state oldX oldY this g :
  hits state this = false ->
  checkShelves state oldX oldY this g = (this, g).
Proof.
  unfold checkShelves, hits. intros H.
  destruct (negb (isShelved this)); [|reflexivity].
  destruct state as [st|]; [|reflexivity].
  destruct (shelves st) as [shs|]; [|reflexivity].
  by apply collide_miss.
Qed.

(** The glow pulse and the rest clamp leave the box alone; the pulse also
    leaves the velocity alone. *)
Lemma pulse_base dt this : base (pulse dt this) = base this.
Proof.
  unfold pulse. cbn.
  destruct (Num.geb _ _); [reflexivity|].
  destruct (Num.leb _ _); reflexivity.
Qed.

Lemma rest_box this :
  x (rest this) = x this /\ y (rest this) = y this
  /\ width (rest this) = width this /\ height (rest this) = height this.
Proof. unfold rest. destruct (_ && _); repeat split. Qed.

Lemma rest_glow this :
  glowIntensity (rest this) = glowIntensity this
  /\ glowDirection (rest this) = glowDirection this.
Proof. unfold rest. destruct (_ && _); repeat split. Qed.

End BookFrames.

(** ** Book: the frame update *)

Section BookUpdate.

Import Book.

(** The collision check writes only inherited fields (position, velocity). *)
Lemma bounce_frame oldX oldY this g :
  exists e, (bounce oldX oldY this g).1 = set_base e this.
Proof. unfold bounce. cbn. eexists. reflexivity. Qed.

Lemma checkShelves_frame state oldX oldY this g :
  exists e, (checkShelves state oldX oldY this g).1 = set_base e this.
Proof.
  assert (Hid : exists e, this = set_base e this)
    by (exists (base this); by destruct this).
  unfold checkShelves.
  destruct (negb (isShelved this)); [|exact Hid].
  destruct state as [st|]; [|exact Hid].
  destruct (shelves st) as [shs|]; [|exact Hid].
  induction shs as [|s shs IH]; cbn; [exact Hid|].
  destruct (overlaps this s); [apply bounce_frame|exact IH].
Qed.

(** [update] on a book that is not held, phase by phase. *)
Lemma update_not_held dt state this g :
  isHeld this = false ->
  update dt state this g =
    let this0 := applyFriction this in
    let c := checkShelves state (x this0) (y this0) (tentative dt this) g in
    (rest (pulse dt (set_sparkleTimer (sparkleTimer (spin dt c.1) + dt)
                                      (spin dt c.1))), c.2).
Proof.
  intros Hh. unfold update, tentative. rewrite Hh. cbn zeta.
  destruct (checkShelves _ _ _ _ _) as [b g']. reflexivity.
Qed.

(** The pulse reads and writes the glow fields only. *)
Lemma pulse_glow dt a b :
  glowIntensity a = glowIntensity b -> glowDirection a = glowDirection b ->
  glowIntensity (pulse dt a) = glowIntensity (pulse dt b)
  /\ glowDirection (pulse dt a) = glowDirection (pulse dt b).
Proof.
  intros Hi Hd. unfold pulse. cbn. rewrite Hi, Hd.
  destruct (Num.geb _ _); [by split|].
  destruct (Num.leb _ _); by split.
Qed.

Lemma update_glow dt state this g :
  isHeld this = false ->
  glowIntensity (update dt state this g).1 = glowIntensity (pulse dt this)
  /\ glowDirection (update dt state this g).1 = glowDirection (pulse dt this).
Proof.
  intros Hh. rewrite (update_not_held _ _ _ _ Hh). cbn zeta. cbn [fst].
  destruct (rest_glow
    (pulse dt (set_sparkleTimer
      (sparkleTimer (spin dt (checkShelves state (x (applyFriction this))
         (y (applyFriction this)) (tentative dt this) g).1) + dt)
      (spin dt (checkShelves state (x (applyFriction this))
         (y (applyFriction this)) (tentative dt this) g).1)))) as [-> ->].
  destruct (checkShelves_frame state (x (applyFriction this))
    (y (applyFriction this)) (tentative dt this) g) as [e ->].
  apply pulse_glow; reflexivity.
Qed.

Lemma pulse_range dt this :
  Num.frac 3 10 <= glowIntensity (pulse dt this)
  /\ glowIntensity (pulse dt this) <= 1.
Proof.
  unfold pulse. cbn.
  destruct (Num.geb _ _) eqn:Hge; cbn; [split; qc_lra|].
  destruct (Num.leb _ _) eqn:Hle; cbn; [split; qc_lra|].
  apply leb_gt in Hge, Hle. split; apply Qclt_le_weak; assumption.
Qed.

Lemma pulse_turn dt this :
  glowDirection (pulse dt this) <> glowDirection this ->
  (glowIntensity (pulse dt this) = 1 /\ glowDirection (pulse dt this) = - (1))
  \/ (glowIntensity (pulse dt this) = Num.frac 3 10
      /\ glowDirection (pulse dt this) = 1).
Proof.
  unfold pulse. cbn.
  destruct (Num.geb _ _); cbn; [by left|].
  destruct (Num.leb _ _); cbn; [by right|]. intros H. by destruct H.
Qed.

Lemma Qc_neg_one_ne_one : - (1) <> (1 : Qc).
Proof. intros H. apply (f_equal this) in H. discriminate H. Qed.

Lemma pulse_reversal dt this :
  0 < dt ->
  Num.frac 3 10 <= glowIntensity this -> glowIntensity this <= 1 ->
  glowDirection this = 1 \/ glowDirection this = - (1) ->
  glowDirection (pulse dt this) = - glowDirection this
  <-> (glowIntensity (pulse dt this) = 1
       \/ glowIntensity (pulse dt this) = Num.frac 3 10).
Proof.
  intros Hdt Hlo Hhi Hdir. unfold pulse. cbn.
  destruct (Num.geb _ _) eqn:Hge; cbn.
  - (* clamped at the top *)
    split; [by left|]. intros _.
    destruct Hdir as [E|E]; rewrite E in *; [reflexivity|].
    apply leb_le in Hge. exfalso. revert Hge Hdt Hhi.
    generalize (glowIntensity this). intros a. qc_lra.
  - apply leb_gt in Hge.
    destruct (Num.leb _ _) eqn:Hle; cbn.
    + (* clamped at the bottom *)
      split; [by right|]. intros _.
      destruct Hdir as [E|E]; rewrite E in *; [|by rewrite Qcopp_involutive].
      apply leb_le in Hle. exfalso. revert Hle Hdt Hlo.
      generalize (glowIntensity this). intros a. qc_lra.
    + (* strictly inside: no bound reached, no turn *)
      apply leb_gt in Hle. split.
      * intros H. exfalso.
        destruct Hdir as [E|E]; rewrite E in H.
        -- by apply Qc_neg_one_ne_one.
        -- rewrite Qcopp_involutive in H. by apply Qc_neg_one_ne_one.
      * intros [H|H]; exfalso; rewrite H in *.
        -- by apply (Qclt_not_eq _ _ Hge).
        -- by apply (Qclt_not_eq _ _ Hle).
Qed.

(** The pulse is a linear step, clamped at the two bounds. *)
Lemma pulse_step dt this :
  let target := glowIntensity this + glowDirection this * dt * Num.ofZ 2 in
  (1 <= target ->
   glowIntensity (pulse dt this) = 1 /\ glowDirection (pulse dt this) = - (1))
  /\ (target <= Num.frac 3 10 ->
      glowIntensity (pulse dt this) = Num.frac 3 10
      /\ glowDirection (pulse dt this) = 1)
  /\ (Num.frac 3 10 < target -> target < 1 ->
      glowIntensity (pulse dt this) = target
      /\ glowDirection (pulse dt this) = glowDirection this).
Proof.
  cbn zeta. unfold pulse. cbn.
  set (target := glowIntensity this + glowDirection this * dt * Num.ofZ 2).
  destruct (Num.geb target 1) eqn:Hge; cbn.
  - apply leb_le in Hge. split; [done|]. split.
    + intros H. exfalso. revert Hge H. generalize target. intros t. qc_lra.
    + intros _ H. exfalso. by apply (Qcle_not_lt _ _ Hge).
  - apply leb_gt in Hge.
    split; [intros H; exfalso; by apply (Qcle_not_lt _ _ H)|].
    destruct (Num.leb target (Num.frac 3 10)) eqn:Hle; cbn.
    + apply leb_le in Hle. split; [done|].
      intros H. exfalso. by apply (Qcle_not_lt _ _ Hle).
    + apply leb_gt in Hle. split; [|done].
      intros H. exfalso. by apply (Qcle_not_lt _ _ H).
Qed.

End BookUpdate.

(** ** Book: held books, pickup, glow *)

(** C6: for a book with [isHeld] true, [update(deltaTime)] changes nothing:
    the book after the call is the book before it, field for field
    (position, velocity, rotation, rotation speed, sparkle timer, glow), and
    no random number is drawn. *)
Theorem update_held_is_noop (deltaTime : Qc) (state : option PlayState)
    (this : Book.t) (g : Random.t) :
  Book.isHeld this = true ->
  Book.update deltaTime state this g = (this, g).
Proof. intros Hh. unfold Book.update. by rewrite Hh. Qed.

Lemma update_held_is_noop_witness :
  Book.isHeld Sample.heldBook = true
  /\ Book.update (Num.frac 1 60) Sample.room Sample.heldBook (Random.const 0)
     = (Sample.heldBook, Random.const 0).
Proof.
  split; [reflexivity|].
  apply (update_held_is_noop (Num.frac 1 60) Sample.room Sample.heldBook).
  reflexivity.
Defined.

(** C4: [pickup(holder)] on a shelved book sets [isHeld] and [holder], zeroes
    velocity, rotation and rotation speed, and leaves [isShelved] true and
    the [shelf] reference as it was, so that the book is held and shelved
    at once, against the state model's mutual exclusion. *)
Theorem pickup_shelved_breaks_exclusion (h : HolderRef) (this : Book.t) :
  Book.isShelved this = true ->
  let this' := Book.pickup h this in
  Book.isHeld this' = true
  /\ Book.holder this' = Some h
  /\ Book.isShelved this' = true
  /\ Book.shelf this' = Book.shelf this
  /\ ~ Book.exclusive this'
  /\ Book.vx this' = 0 /\ Book.vy this' = 0
  /\ Book.rotation this' = 0 /\ Book.rotationSpeed this' = 0.
Proof.
  intros Hs this'. subst this'. cbn. rewrite Hs.
  repeat split; try reflexivity.
  unfold Book.exclusive. cbn. rewrite Hs. intros H. by apply H.
Qed.

Lemma pickup_shelved_breaks_exclusion_witness :
  Book.isShelved Sample.shelvedBook = true
  /\ Book.isHeld (Book.pickup 1%nat Sample.shelvedBook) = true
  /\ Book.isShelved (Book.pickup 1%nat Sample.shelvedBook) = true.
Proof.
  split; [reflexivity|].
  pose proof (pickup_shelved_breaks_exclusion 1%nat Sample.shelvedBook
                eq_refl) as H.
  split; [exact (proj1 H)|exact (proj1 (proj2 (proj2 H)))].
Defined.

(** C8 as stated fails: the first frame of a newly created book lifts its
    glow from 0 to the lower bound 0.3, and the direction, already +1, does
    not reverse. *)
Lemma fresh_book_reaches_bound_without_turning :
  let this := Sample.freshBook in
  let this' := (Book.update (Num.frac 1 60) None this (Random.const 0)).1 in
  Book.isHeld this = false
  /\ Book.glowIntensity this' = Num.frac 3 10
  /\ Book.glowDirection this = 1
  /\ Book.glowDirection this' = 1.
Proof. repeat split. Qed.

(** C8, amended: the glow of a book that is not held follows a triangle
    wave confined to [0.3, 1.0].  Each [update] moves the intensity in a
    straight line, by direction * [deltaTime] * 2; when that reaches 1.0 or
    more the intensity is set to 1.0 and the direction to -1, when it
    reaches 0.3 or less the intensity is set to 0.3 and the direction to +1,
    and strictly in between the direction is kept.  So after any [update]
    the intensity lies in [0.3, 1.0], and the direction changes only when
    the intensity has been set to a bound.  For a positive [deltaTime] and a
    book whose intensity is already within [0.3, 1.0] with direction +1 or
    -1 (which an [update] preserves), the direction reverses exactly when
    the intensity reaches a bound. *)
Theorem update_glow_triangle (deltaTime : Qc) (state : option PlayState)
    (this : Book.t) (g : Random.t) :
  Book.isHeld this = false ->
  let this' := (Book.update deltaTime state this g).1 in
  let target :=
    Book.glowIntensity this
    + Book.glowDirection this * deltaTime * Num.ofZ 2 in
  ((1 <= target ->
    Book.glowIntensity this' = 1 /\ Book.glowDirection this' = - (1))
   /\ (target <= Num.frac 3 10 ->
       Book.glowIntensity this' = Num.frac 3 10
       /\ Book.glowDirection this' = 1)
   /\ (Num.frac 3 10 < target -> target < 1 ->
       Book.glowIntensity this' = target
       /\ Book.glowDirection this' = Book.glowDirection this))
  /\ (Num.frac 3 10 <= Book.glowIntensity this'
      /\ Book.glowIntensity this' <= 1)
  /\ (Book.glowDirection this' <> Book.glowDirection this ->
      (Book.glowIntensity this' = 1 /\ Book.glowDirection this' = - (1))
      \/ (Book.glowIntensity this' = Num.frac 3 10
          /\ Book.glowDirection this' = 1))
  /\ (Book.glowDirection this = 1 \/ Book.glowDirection this = - (1) ->
      Book.glowDirection this' = 1 \/ Book.glowDirection this' = - (1))
  /\ (0 < deltaTime ->
      Num.frac 3 10 <= Book.glowIntensity this ->
      Book.glowIntensity this <= 1 ->
      Book.glowDirection this = 1 \/ Book.glowDirection this = - (1) ->
      (Book.glowDirection this' = - Book.glowDirection this
       <-> (Book.glowIntensity this' = 1
            \/ Book.glowIntensity this' = Num.frac 3 10))
      /\ (Book.glowDirection this' = Book.glowDirection this
          \/ Book.glowDirection this' = - Book.glowDirection this)).
Proof.
  intros Hh this' target. subst this' target.
  destruct (update_glow deltaTime state this g Hh) as [-> ->].
  split; [apply pulse_step|].
  split; [apply pulse_range|]. split; [apply pulse_turn|].
  assert (Hkeep : Book.glowDirection this = 1
                  \/ Book.glowDirection this = - (1) ->
                  Book.glowDirection (Book.pulse deltaTime this) = 1
                  \/ Book.glowDirection (Book.pulse deltaTime this) = - (1)).
  { intros Hdir.
    destruct (decide (Book.glowDirection (Book.pulse deltaTime this)
                      = Book.glowDirection this)) as [E|N]; [by rewrite E|].
    destruct (pulse_turn deltaTime this N) as [[_ E]|[_ E]];
      rewrite E; [by right|by left]. }
  split; [exact Hkeep|].
  intros Hdt Hlo Hhi Hdir. split; [by apply pulse_reversal|].
  destruct (decide (Book.glowDirection (Book.pulse deltaTime this)
                    = Book.glowDirection this)) as [E|N]; [by left|right].
  destruct (pulse_turn deltaTime this N) as [[_ E]|[_ E]];
    destruct Hdir as [D|D]; rewrite E, D in *;
    try reflexivity; try (by rewrite Qcopp_involutive); by destruct N.
Qed.

Lemma update_glow_triangle_witness :
  let this := Sample.glowingBook in
  let dt := Num.frac 1 60 in
  let this' := (Book.update dt Sample.room this (Random.const 0)).1 in
  let target :=
    Book.glowIntensity this + Book.glowDirection this * dt * Num.ofZ 2 in
  (Book.isHeld this = false /\ 0 < dt
   /\ Num.frac 3 10 <= Book.glowIntensity this
   /\ Book.glowIntensity this <= 1
   /\ Book.glowDirection this = 1
   /\ Num.frac 3 10 < target /\ target < 1)
  /\ (Book.glowIntensity this' = target
      /\ Book.glowDirection this' = Book.glowDirection this)
  /\ (Book.glowDirection this' = - Book.glowDirection this
      <-> (Book.glowIntensity this' = 1
           \/ Book.glowIntensity this' = Num.frac 3 10)).
Proof.
  cbn zeta.
  assert (Hdt : 0 < Num.frac 1 60) by (by vm_compute).
  assert (Hlo : Num.frac 3 10 <= Book.glowIntensity Sample.glowingBook)
    by (by vm_compute).
  assert (Hhi : Book.glowIntensity Sample.glowingBook <= 1)
    by (by vm_compute).
  assert (Hdir : Book.glowDirection Sample.glowingBook = 1) by reflexivity.
  assert (Tlo : Num.frac 3 10
                < Book.glowIntensity Sample.glowingBook
                  + Book.glowDirection Sample.glowingBook * Num.frac 1 60
                    * Num.ofZ 2) by (by vm_compute).
  assert (Thi : Book.glowIntensity Sample.glowingBook
                + Book.glowDirection Sample.glowingBook * Num.frac 1 60
                  * Num.ofZ 2 < 1) by (by vm_compute).
  pose proof (update_glow_triangle (Num.frac 1 60) Sample.room
                Sample.glowingBook (Random.const 0) eq_refl) as H.
  cbn zeta in H. destruct H as ((_ & _ & Hstep) & _ & _ & _ & Hrev).
  split;
    [exact (conj eq_refl (conj Hdt (conj Hlo (conj Hhi
              (conj Hdir (conj Tlo Thi))))))|].
  split; [exact (Hstep Tlo Thi)|].
  exact (proj1 (Hrev Hdt Hlo Hhi (or_introl Hdir))).
Defined.

(** ** Book: collisions and decay *)

Section BookPhysics.

Import Book.

(** What the tail of [update] (rotation, sparkle, glow) keeps. *)
Lemma tail_base dt b :
  base (pulse dt (set_sparkleTimer (sparkleTimer (spin dt b) + dt) (spin dt b)))
  = base b.
Proof. by rewrite pulse_base. Qed.

Lemma rest_velocity b :
  (vx (rest b), vy (rest b))
  = if Num.ltb (Num.abs (vx b)) (Num.ofZ 5)
       && Num.ltb (Num.abs (vy b)) (Num.ofZ 5)
    then (0, 0) else (vx b, vy b).
Proof. unfold rest. by destruct (_ && _). Qed.

Lemma rest_base_box b :
  Entity.x (base (rest b)) = Entity.x (base b)
  /\ Entity.y (base (rest b)) = Entity.y (base b)
  /\ Entity.width (base (rest b)) = Entity.width (base b)
  /\ Entity.height (base (rest b)) = Entity.height (base b).
Proof. unfold rest. destruct (_ && _); repeat split. Qed.

(** A frame of a book that is not held and meets no shelf. *)
Lemma update_miss dt state this g :
  isHeld this = false ->
  hits state (tentative dt this) = false ->
  update dt state this g =
    (rest (pulse dt (set_sparkleTimer
                       (sparkleTimer (spin dt (tentative dt this)) + dt)
                       (spin dt (tentative dt this)))), g).
Proof.
  intros Hh Hm. rewrite (update_not_held _ _ _ _ Hh). cbn zeta.
  by rewrite (checkShelves_miss _ _ _ _ _ Hm).
Qed.

(** A frame of a free book that meets a shelf. *)
Lemma update_hit dt state this g :
  isHeld this = false -> isShelved this = false ->
  hits state (tentative dt this) = true ->
  update dt state this g =
    let b := (bounce (x this) (y this) (tentative dt this) g).1 in
    (rest (pulse dt (set_sparkleTimer (sparkleTimer (spin dt b) + dt)
                                      (spin dt b))),
     Random.mk (Random.draws g) (S (S (Random.cursor g)))).
Proof.
  intros Hh Hs Hm. rewrite (update_not_held _ _ _ _ Hh). cbn zeta.
  rewrite (checkShelves_hit state _ _ (tentative dt this) g Hs Hm).
  reflexivity.
Qed.

End BookPhysics.

(** C3 as stated fails: a book lying at rest on top of a shelf (dropped
    there) collides in its frame, is put back where it was, and so still
    overlaps the shelf after [update]. *)
Lemma bounced_book_can_still_overlap :
  let this := Sample.droppedOnShelf in
  let dt := Num.frac 1 60 in
  let this' := (Book.update dt Sample.cornerRoom this (Random.const 0)).1 in
  Book.isHeld this = false /\ Book.isShelved this = false
  /\ Book.hits Sample.cornerRoom (Book.tentative dt this) = true
  /\ Book.hits Sample.cornerRoom this' = true.
Proof. repeat split. Qed.

(** C3, amended: when the tentatively moved position of a free book overlaps
    some shelf of the state, the frame ends with the book at its pre-move
    position; one bounce is performed whatever the number of overlapping
    shelves (exactly two random numbers are drawn); the velocity after
    friction is reversed and halved and a kick [(r - 0.5) * 20], which lies
    in [-10, 10) for a draw [r] in [0, 1), is added per axis, after which
    the rest clamp applies; and the book overlaps no shelf after the frame
    provided its pre-move position overlapped none. *)
Theorem update_collision (deltaTime : Qc) (state : option PlayState)
    (this : Book.t) (g : Random.t) :
  Book.isHeld this = false -> Book.isShelved this = false ->
  Book.hits state (Book.tentative deltaTime this) = true ->
  let this' := (Book.update deltaTime state this g).1 in
  let g' := (Book.update deltaTime state this g).2 in
  let kickX :=
    (Random.draws g (Random.cursor g) - Num.frac 1 2) * Num.ofZ 20 in
  let kickY :=
    (Random.draws g (S (Random.cursor g)) - Num.frac 1 2) * Num.ofZ 20 in
  let bx := - (Book.vx this * Book.friction this) * Num.frac 1 2 + kickX in
  let by' := - (Book.vy this * Book.friction this) * Num.frac 1 2 + kickY in
  Book.x this' = Book.x this /\ Book.y this' = Book.y this
  /\ g' = Random.mk (Random.draws g) (S (S (Random.cursor g)))
  /\ (Book.vx this', Book.vy this')
     = (if Num.ltb (Num.abs bx) (Num.ofZ 5) && Num.ltb (Num.abs by') (Num.ofZ 5)
        then (0, 0) else (bx, by'))
  /\ (Random.ok g ->
      (- Num.ofZ 10 <= kickX /\ kickX < Num.ofZ 10)
      /\ (- Num.ofZ 10 <= kickY /\ kickY < Num.ofZ 10))
  /\ (Book.hits state this = false -> Book.hits state this' = false).
Proof.
  intros Hh Hs Hm. cbn zeta.
  rewrite (update_hit _ _ _ _ Hh Hs Hm). cbn zeta. cbn [fst snd].
  set (b := (Book.bounce (Book.x this) (Book.y this)
               (Book.tentative deltaTime this) g).1).
  set (tl := Book.pulse deltaTime _).
  assert (Hb : Book.base tl = Book.base b) by apply tail_base.
  destruct (rest_base_box tl) as (Hx & Hy & Hw & Hht).
  assert (Ex : Book.x (Book.rest tl) = Book.x this)
    by (unfold Book.x; rewrite Hx, Hb; reflexivity).
  assert (Ey : Book.y (Book.rest tl) = Book.y this)
    by (unfold Book.y; rewrite Hy, Hb; reflexivity).
  split; [exact Ex|]. split; [exact Ey|]. split; [reflexivity|].
  split.
  { rewrite rest_velocity. unfold Book.vx, Book.vy. rewrite Hb. reflexivity. }
  split.
  { intros Hok. split; apply jitter_bound; apply Hok. }
  intros Hclear. rewrite <- Hclear. apply hits_same_box; try assumption.
  - unfold Book.width. rewrite Hw, Hb. reflexivity.
  - unfold Book.height. rewrite Hht, Hb. reflexivity.
Qed.

Lemma update_collision_witness :
  Book.isHeld Sample.flyingBook = false
  /\ Book.isShelved Sample.flyingBook = false
  /\ Book.hits Sample.room (Book.tentative (Num.frac 1 10) Sample.flyingBook)
     = true
  /\ Book.x (Book.update (Num.frac 1 10) Sample.room Sample.flyingBook
               (Random.const (Num.frac 9 10))).1
     = Book.x Sample.flyingBook.
Proof.
  repeat (split; [reflexivity|]).
  exact (proj1 (update_collision (Num.frac 1 10) Sample.room Sample.flyingBook
                  (Random.const (Num.frac 9 10)) eq_refl eq_refl eq_refl)).
Defined.

(** C5 as stated fails: a free book that overlaps no shelf flies into one;
    the bounce adds a random kick, and the vertical speed rises from 0
    to 8. *)
Lemma bounce_can_speed_up :
  let this := Sample.flyingBook in
  let this' :=
    (Book.update (Num.frac 1 10) Sample.room this
       (Random.const (Num.frac 9 10))).1 in
  Book.isHeld this = false /\ Book.isShelved this = false
  /\ Book.hits Sample.room this = false
  /\ Num.abs (Book.vy this) = 0
  /\ Num.abs (Book.vy this') = Num.ofZ 8.
Proof.
  repeat split; try reflexivity; apply Qc_is_canon; reflexivity.
Qed.

(** With velocity (0,0) the tentative move goes nowhere. *)
Lemma tentative_at_rest dt this :
  Book.vx this = 0 -> Book.vy this = 0 ->
  Book.base (Book.tentative dt this) = Book.base this.
Proof.
  unfold Book.vx, Book.vy, Book.tentative, Book.move, Book.applyFriction.
  unfold Book.set_x, Book.set_y, Book.set_vx, Book.set_vy, Book.x, Book.y,
    Book.vx, Book.vy.
  destruct this as [[px py w hh vx0 vy0 vis] ? ? ? ? ? fr ? ? ? ? ? ? ? ? ?].
  cbn. intros -> ->.
  unfold Entity.set_x, Entity.set_y, Entity.set_vx, Entity.set_vy. cbn.
  f_equal; ring.
Qed.

Lemma rest_at_rest b :
  Book.vx b = 0 -> Book.vy b = 0 -> Book.base (Book.rest b) = Book.base b.
Proof.
  unfold Book.rest, Book.vx, Book.vy.
  destruct b as [[px py w hh vx0 vy0 vis] ? ? ? ? ? fr ? ? ? ? ? ? ? ? ?].
  cbn. intros -> ->. reflexivity.
Qed.

Lemma pulse_isHeld dt b : Book.isHeld (Book.pulse dt b) = Book.isHeld b.
Proof.
  unfold Book.pulse. cbn.
  destruct (Num.geb _ _); [reflexivity|].
  destruct (Num.leb _ _); reflexivity.
Qed.

Lemma rest_isHeld b : Book.isHeld (Book.rest b) = Book.isHeld b.
Proof. unfold Book.rest. destruct (_ && _); reflexivity. Qed.

Lemma hits_same_base state a b :
  Book.base a = Book.base b -> Book.hits state a = Book.hits state b.
Proof.
  intros E. apply hits_same_box;
    unfold Book.x, Book.y, Book.width, Book.height; by rewrite E.
Qed.

(** A book at rest, clear of the shelves, stays as it is through a frame. *)
Lemma update_at_rest dt state this g :
  Book.isHeld this = false ->
  Book.vx this = 0 -> Book.vy this = 0 ->
  Book.hits state this = false ->
  let this' := (Book.update dt state this g).1 in
  (Book.update dt state this g).2 = g
  /\ Book.isHeld this' = false
  /\ Book.base this' = Book.base this.
Proof.
  intros Hh Hvx Hvy Hclear. cbn zeta.
  pose proof (tentative_at_rest dt this Hvx Hvy) as Ht.
  assert (Hm : Book.hits state (Book.tentative dt this) = false)
    by (rewrite <- Hclear; by apply hits_same_base).
  rewrite (update_miss _ _ _ _ Hh Hm). cbn [fst snd].
  split; [reflexivity|]. split.
  - rewrite rest_isHeld, pulse_isHeld. exact Hh.
  - rewrite rest_at_rest.
    + by rewrite tail_base.
    + unfold Book.vx. rewrite tail_base, Ht. exact Hvx.
    + unfold Book.vy. rewrite tail_base, Ht. exact Hvy.
Qed.

Lemma updates_at_rest dts state : forall this g,
  Book.isHeld this = false ->
  Book.vx this = 0 -> Book.vy this = 0 ->
  Book.hits state this = false ->
  Book.base (Book.updates dts state this g).1 = Book.base this.
Proof.
  induction dts as [|dt dts IH]; intros this g Hh Hvx Hvy Hclear.
  - reflexivity.
  - cbn [Book.updates].
    destruct (update_at_rest dt state this g Hh Hvx Hvy Hclear)
      as (Hg & Hh' & Hb).
    destruct (Book.update dt state this g) as [this1 g1]. cbn [fst snd] in *.
    rewrite <- Hb. apply IH; try assumption.
    + unfold Book.vx. by rewrite Hb.
    + unfold Book.vy. by rewrite Hb.
    + rewrite <- Hclear. by apply hits_same_base.
Qed.

(** C5, amended: for a free book (not held, not shelved, friction 0.9 as the
    constructor sets it) and a frame in which the tentatively moved position
    overlaps no shelf (so no bounce happens), the magnitude of each velocity
    component does not increase, no random number is drawn, and if both
    magnitudes are below 5 the velocity becomes exactly (0,0); and a free
    book with velocity (0,0) that overlaps no shelf keeps velocity (0,0)
    and its position through any sequence of frames. *)
Theorem free_book_slows_to_rest (state : option PlayState) (this : Book.t)
    (g : Random.t) :
  Book.isHeld this = false -> Book.isShelved this = false ->
  Book.friction this = Num.frac 9 10 ->
  (forall deltaTime,
     Book.hits state (Book.tentative deltaTime this) = false ->
     let this' := (Book.update deltaTime state this g).1 in
     Num.abs (Book.vx this') <= Num.abs (Book.vx this)
     /\ Num.abs (Book.vy this') <= Num.abs (Book.vy this)
     /\ (Book.update deltaTime state this g).2 = g
     /\ (Num.abs (Book.vx this) < Num.ofZ 5 ->
         Num.abs (Book.vy this) < Num.ofZ 5 ->
         Book.vx this' = 0 /\ Book.vy this' = 0))
  /\ (Book.vx this = 0 -> Book.vy this = 0 ->
      Book.hits state this = false ->
      forall deltaTimes,
        let this' := (Book.updates deltaTimes state this g).1 in
        Book.vx this' = 0 /\ Book.vy this' = 0
        /\ Book.x this' = Book.x this /\ Book.y this' = Book.y this).
Proof.
  intros Hh Hs Hf. split.
  - intros dt Hm. cbn zeta.
    rewrite (update_miss _ _ _ _ Hh Hm). cbn [fst snd].
    set (tl := Book.pulse dt _).
    assert (Hb : Book.base tl = Book.base (Book.tentative dt this))
      by apply tail_base.
    assert (Fx : Book.vx tl = Book.vx this * Num.frac 9 10)
      by (unfold Book.vx at 1; rewrite Hb, <- Hf; reflexivity).
    assert (Fy : Book.vy tl = Book.vy this * Num.frac 9 10)
      by (unfold Book.vy at 1; rewrite Hb, <- Hf; reflexivity).
    pose proof (rest_velocity tl) as Hv. rewrite Fx, Fy in Hv.
    pose proof (abs_friction (Book.vx this)) as Ax.
    pose proof (abs_friction (Book.vy this)) as Ay.
    destruct (Num.ltb (Num.abs (Book.vx this * Num.frac 9 10)) (Num.ofZ 5)
              && Num.ltb (Num.abs (Book.vy this * Num.frac 9 10)) (Num.ofZ 5))
      eqn:Hsmall; injection Hv as -> ->.
    + split; [apply Qcabs_nonneg|]. split; [apply Qcabs_nonneg|]. done.
    + split; [exact Ax|]. split; [exact Ay|]. split; [reflexivity|].
      intros Sx Sy. exfalso.
      apply andb_false_iff in Hsmall as [N|N]; apply ltb_ge in N.
      * exact (Qcle_not_lt _ _ N (Qcle_lt_trans _ _ _ Ax Sx)).
      * exact (Qcle_not_lt _ _ N (Qcle_lt_trans _ _ _ Ay Sy)).
  - intros Hvx Hvy Hclear dts. cbn zeta.
    pose proof (updates_at_rest dts state this g Hh Hvx Hvy Hclear) as Hb.
    unfold Book.vx, Book.vy, Book.x, Book.y. rewrite Hb. done.
Qed.

Lemma free_book_slows_to_rest_witness :
  Book.isHeld Sample.flyingBook = false
  /\ Book.isShelved Sample.flyingBook = false
  /\ Book.friction Sample.flyingBook = Num.frac 9 10
  /\ Book.hits None (Book.tentative (Num.frac 1 60) Sample.flyingBook) = false
  /\ Num.abs (Book.vx (Book.update (Num.frac 1 60) None Sample.flyingBook
                         (Random.const 0)).1)
     <= Num.abs (Book.vx Sample.flyingBook).
Proof.
  repeat (split; [reflexivity|]).
  exact (proj1 (proj1 (free_book_slows_to_rest None Sample.flyingBook
                         (Random.const 0) eq_refl eq_refl eq_refl)
                  (Num.frac 1 60) eq_refl)).
Defined.

Local Close Scope Qc_scope.

(** ** Shelf: the slot array *)

Section ShelfSlots.

Import Shelf.

Implicit Types (l : list (option BookRef)) (s this : Shelf.t).

(** Writing inside the array replaces one slot; writing at its end appends
    one. *)
Lemma store_inside i v l : i < length l -> store i v l = <[i := v]> l.
Proof. intros H. unfold store. by rewrite decide_True. Qed.

Lemma store_lookup i v l : i <= length l -> store i v l !! i = Some v.
Proof.
  intros H. unfold store. case_decide.
  - by apply list_lookup_insert_eq.
  - assert (i = length l) as -> by lia.
    rewrite Nat.sub_diag. cbn. by rewrite list_lookup_middle.
Qed.

Lemma store_lookup_ne i j v l :
  i <= length l -> j <> i -> store i v l !! j = l !! j.
Proof.
  intros H Hne. unfold store. case_decide.
  - by apply list_lookup_insert_ne.
  - assert (i = length l) as -> by lia.
    rewrite Nat.sub_diag. cbn.
    destruct (decide (j < length l)).
    + by rewrite lookup_app_l.
    + rewrite (lookup_ge_None_2 l j) by lia.
      apply lookup_ge_None_2. rewrite length_app. cbn. lia.
Qed.

(** The scan stops at the first slot that reads falsy, or at [capacity]. *)
Lemma scan_spec s fuel : forall i,
  capacity s - i <= fuel ->
  i <= scan fuel s i
  /\ (forall k, i <= k < scan fuel s i ->
        k < capacity s /\ truthy (slot s k) = true)
  /\ (scan fuel s i < capacity s -> truthy (slot s (scan fuel s i)) = false).
Proof.
  induction fuel as [|fuel IH]; intros i Hf; cbn.
  - split; [lia|]. split; [intros k Hk; lia|]. intros H. lia.
  - destruct (bool_decide (i < capacity s)) eqn:Hlt; cbn.
    + apply bool_decide_eq_true in Hlt.
      destruct (truthy (slot s i)) eqn:Ht.
      * destruct (IH (S i) ltac:(lia)) as (A & B & C).
        split; [lia|]. split; [|exact C].
        intros k Hk. destruct (decide (k = i)) as [->|Hne]; [done|].
        apply B. lia.
      * split; [lia|]. split; [intros k Hk; lia|]. done.
    + apply bool_decide_eq_false in Hlt.
      split; [lia|]. split; [intros k Hk; lia|]. intros H. lia.
Qed.

(** Slots that all read truthy are all counted as books. *)
Lemma truthy_prefix_counted l : forall c,
  (forall k, k < c -> truthy (l !! k) = true) ->
  c <= length (filter (fun b : option BookRef => b <> None) l).
Proof.
  induction l as [|a l IH]; intros c Hc.
  - destruct c; [lia|]. specialize (Hc 0 ltac:(lia)). discriminate.
  - destruct c as [|c]; [lia|].
    pose proof (Hc 0 ltac:(lia)) as H0. cbn in H0.
    destruct a as [b|]; [|discriminate].
    rewrite filter_cons_True by done. cbn.
    apply le_n_S, IH. intros k Hk. apply (Hc (S k)). lia.
Qed.

(** With a free slot counted, the scan ends below [capacity]. *)
Lemma scan_finds s :
  hasEmptySlots s = true -> scan (capacity s) s 0 < capacity s.
Proof.
  intros He. apply bool_decide_eq_true in He.
  destruct (scan_spec s (capacity s) 0 ltac:(lia)) as (_ & B & _).
  destruct (decide (scan (capacity s) s 0 < capacity s)) as [|N]; [done|].
  exfalso.
  assert (capacity s <= bookCount s); [|lia].
  apply truthy_prefix_counted. intros k Hk. apply B. lia.
Qed.

Lemma scan_bounded s : scan (capacity s) s 0 <= length (books s).
Proof.
  destruct (scan_spec s (capacity s) 0 ltac:(lia)) as (_ & B & _).
  destruct (decide (scan (capacity s) s 0 <= length (books s))) as [|N];
    [done|exfalso].
  destruct (B (length (books s)) ltac:(lia)) as [_ Ht].
  unfold slot in Ht. by rewrite lookup_ge_None_2 in Ht.
Qed.

(** Null and non-null slots partition the array. *)
Lemma slots_partition l :
  length (filter (fun b : option BookRef => b <> None) l)
  + length (filter (fun b : option BookRef => b = None) l) = length l.
Proof.
  induction l as [|a l IH]; [reflexivity|].
  destruct a as [b|].
  - rewrite filter_cons_True, filter_cons_False by (try done; naive_solver).
    cbn. lia.
  - rewrite filter_cons_False, filter_cons_True by (try done; naive_solver).
    cbn. lia.
Qed.

End ShelfSlots.

(** ** Shelf: adding and removing books *)

(** C10: a failed [addBook] is atomic: whenever it returns false, the shelf
    (its slot array and every other field) and the store of books (hence
    every field of the book) are as they were before the call. *)
Theorem addBook_failure_atomic (book : BookRef) (this this' : Shelf.t)
    (h h' : Heap) :
  Shelf.addBook book this h = (false, this', h') ->
  this' = this /\ h' = h.
Proof.
  unfold Shelf.addBook. intros H.
  destruct (negb (Shelf.hasEmptySlots this) || _); [by inversion H|].
  destruct (bool_decide _); by inversion H.
Qed.

Lemma addBook_failure_atomic_witness :
  exists this' h',
    Shelf.addBook 8 Sample.fullShelf.1 Sample.fullShelf.2 = (false, this', h')
    /\ this' = Sample.fullShelf.1 /\ h' = Sample.fullShelf.2.
Proof.
  exists Sample.fullShelf.1, Sample.fullShelf.2.
  assert (E : Shelf.addBook 8 Sample.fullShelf.1 Sample.fullShelf.2
              = (false, Sample.fullShelf.1, Sample.fullShelf.2))
    by (vm_compute; reflexivity).
  split; [exact E|].
  exact (addBook_failure_atomic 8 Sample.fullShelf.1 _ Sample.fullShelf.2 _ E).
Defined.

(** C2: for an integer index [i], if [i] is in range and slot [i] holds a
    book, [removeBook(i)] returns that book, sets slot [i] to null leaving
    the other slots and fields of the shelf alone, and calls the book's
    [unshelve()], so that its [isShelved] is false and its [shelf] reference
    cleared, no other book being touched; otherwise (slot empty or index
    out of range) it returns null and changes neither shelf nor books. *)
Theorem removeBook_spec (index : Z) (this : Shelf.t) (h : Heap) :
  (forall book,
     (0 <= index < Z.of_nat (length (Shelf.books this)))%Z ->
     Shelf.slot this (Z.to_nat index) = Some (Some book) ->
     let '(r, this', h') := Shelf.removeBook index this h in
     r = Some book
     /\ Shelf.slot this' (Z.to_nat index) = Some None
     /\ (forall j, j <> Z.to_nat index -> Shelf.slot this' j = Shelf.slot this j)
     /\ this' = Shelf.set_books (Shelf.books this') this
     /\ h' book = Book.unshelve (h book)
     /\ Book.isShelved (h' book) = false
     /\ Book.shelf (h' book) = None
     /\ (forall other, other <> book -> h' other = h other))
  /\ ((index < 0)%Z \/ (Z.of_nat (length (Shelf.books this)) <= index)%Z
      \/ Shelf.slot this (Z.to_nat index) = Some None ->
      Shelf.removeBook index this h = (None, this, h)).
Proof.
  split.
  - intros book [Hlo Hhi] Hs. unfold Shelf.removeBook.
    rewrite !bool_decide_eq_true_2 by done. cbn [andb]. rewrite Hs.
    lazy beta iota.
    assert (Hin : Z.to_nat index < length (Shelf.books this)) by lia.
    split; [reflexivity|]. split.
    { unfold Shelf.slot. cbn. apply store_lookup. lia. }
    split.
    { intros j Hj. unfold Shelf.slot. cbn. apply store_lookup_ne; [lia|done]. }
    split; [reflexivity|].
    rewrite fn_lookup_insert. repeat split.
    intros other Hne. by apply fn_lookup_insert_ne.
  - intros H. unfold Shelf.removeBook.
    destruct (bool_decide (0 <= index)%Z) eqn:Hlo; [|reflexivity].
    destruct (bool_decide (index < _)%Z) eqn:Hhi; [|reflexivity].
    apply bool_decide_eq_true in Hlo, Hhi. cbn [andb].
    destruct H as [H|[H|H]]; [lia|lia|]. by rewrite H.
Qed.

Lemma removeBook_spec_witness :
  (0 <= 3 < Z.of_nat (length (Shelf.books Sample.fullShelf.1)))%Z
  /\ Shelf.slot Sample.fullShelf.1 (Z.to_nat 3) = Some (Some 4)
  /\ (Shelf.removeBook 3 Sample.fullShelf.1 Sample.fullShelf.2).1.1 = Some 4
  /\ (Z.of_nat (length (Shelf.books Sample.fullShelf.1)) <= 6)%Z
  /\ Shelf.removeBook 6 Sample.fullShelf.1 Sample.fullShelf.2
     = (None, Sample.fullShelf.1, Sample.fullShelf.2).
Proof.
  assert (R : (0 <= 3 < Z.of_nat (length (Shelf.books Sample.fullShelf.1)))%Z)
    by (vm_compute; split; [discriminate|reflexivity]).
  assert (U : (Z.of_nat (length (Shelf.books Sample.fullShelf.1)) <= 6)%Z)
    by (vm_compute; discriminate).
  split; [exact R|]. split; [reflexivity|]. split.
  - pose proof (proj1 (removeBook_spec 3 Sample.fullShelf.1 Sample.fullShelf.2)
                  4 R eq_refl) as H.
    destruct (Shelf.removeBook 3 Sample.fullShelf.1 Sample.fullShelf.2)
      as [[r s] hh].
    exact (proj1 H).
  - split; [exact U|].
    exact (proj2 (removeBook_spec 6 Sample.fullShelf.1 Sample.fullShelf.2)
             (or_intror (or_introl U))).
Defined.

(** C1: [addBook(b)] returns false, changing nothing, when [hasEmptySlots()]
    is false or the colours differ; otherwise it returns true, the book is
    stored at the lowest index whose slot is empty (every slot below it
    holds a book), every other slot and field of the shelf is unchanged, and
    [b.shelve(S)] has run: [b.isShelved] is true, [b.shelf] references the
    shelf, and no other book is touched. *)
Theorem addBook_first_fit (book : BookRef) (this : Shelf.t) (h : Heap) :
  (Shelf.hasEmptySlots this = false
   \/ Book.color (h book) <> Shelf.color this ->
   Shelf.addBook book this h = (false, this, h))
  /\ (Shelf.hasEmptySlots this = true ->
      Book.color (h book) = Shelf.color this ->
      exists slotIndex,
        slotIndex < Shelf.capacity this
        /\ Shelf.truthy (Shelf.slot this slotIndex) = false
        /\ (Shelf.wf this -> Shelf.slot this slotIndex = Some None)
        /\ (forall j, j < slotIndex ->
              Shelf.truthy (Shelf.slot this j) = true)
        /\ let '(ok, this', h') := Shelf.addBook book this h in
           ok = true
           /\ Shelf.slot this' slotIndex = Some (Some book)
           /\ (forall j, j <> slotIndex ->
                 Shelf.slot this' j = Shelf.slot this j)
           /\ this' = Shelf.set_books (Shelf.books this') this
           /\ h' book = Book.shelve (Some (Shelf.self this)) (h book)
           /\ Book.isShelved (h' book) = true
           /\ Book.shelf (h' book) = Some (Shelf.self this)
           /\ (forall other, other <> book -> h' other = h other)).
Proof.
  split.
  - intros H. unfold Shelf.addBook.
    destruct H as [H|H].
    + by rewrite H.
    + rewrite (bool_decide_eq_false_2 _ H). by rewrite orb_true_r.
  - intros He Hc.
    pose proof (scan_finds this He) as Hlt.
    pose proof (scan_bounded this) as Hle.
    destruct (scan_spec this (Shelf.capacity this) 0 ltac:(lia))
      as (_ & Hbelow & Hstop).
    exists (Shelf.scan (Shelf.capacity this) this 0).
    split; [exact Hlt|]. split; [by apply Hstop|]. split.
    { intros Hwf. specialize (Hstop Hlt). unfold Shelf.wf in Hwf.
      unfold Shelf.slot in *.
      destruct (lookup_lt_is_Some_2 (Shelf.books this)
                  (Shelf.scan (Shelf.capacity this) this 0) ltac:(lia))
        as [v Hv].
      rewrite Hv in *. by destruct v. }
    split; [intros j Hj; apply Hbelow; lia|].
    unfold Shelf.addBook. rewrite He, (bool_decide_eq_true_2 _ Hc).
    cbn [negb orb]. cbn zeta. rewrite (bool_decide_eq_true_2 _ Hlt).
    split; [reflexivity|]. split.
    { unfold Shelf.slot. cbn. by apply store_lookup. }
    split.
    { intros j Hj. unfold Shelf.slot. cbn. by apply store_lookup_ne. }
    split; [reflexivity|].
    rewrite fn_lookup_insert. repeat split.
    intros other Hne. by apply fn_lookup_insert_ne.
Qed.

Lemma addBook_first_fit_witness :
  Shelf.hasEmptySlots Sample.redShelf = true
  /\ Book.color (Sample.library 1) = Shelf.color Sample.redShelf
  /\ exists slotIndex,
       slotIndex < Shelf.capacity Sample.redShelf
       /\ Shelf.truthy (Shelf.slot Sample.redShelf slotIndex) = false.
Proof.
  split; [reflexivity|]. split; [reflexivity|].
  destruct (proj2 (addBook_first_fit 1 Sample.redShelf Sample.library)
              eq_refl eq_refl) as (i & Hi & Hf & _).
  exists i. split; [exact Hi|exact Hf].
Defined.

(** ** Shelf: the render pass *)

Section ShelfRender.

Import Shelf.

(** Rendering and positioning a book leave its shelving alone. *)
Lemma render_shelving b :
  Book.isShelved (Book.render b) = Book.isShelved b
  /\ Book.shelf (Book.render b) = Book.shelf b.
Proof.
  unfold Book.render, Book.renderOptimizedGlow.
  destruct (negb (Book.visible b)); [done|].
  destruct (negb (Book.isHeld b) && negb (Book.isShelved b)); [|done].
  destruct (negb (Book.glowCanvas b) || Book.glowNeedsUpdate b); done.
Qed.

(** The state of the pass after the callback ran at the indices below [k]:
    slots below [k] are healed, the others are as before, and no book
    changed its shelving. *)
Lemma renderBooks_prefix (this : t) (h : Heap) (k : nat) :
  k <= length (books this) ->
  let st := foldl (fun st index => renderSlot index st) (this, h) (seq 0 k) in
  st.1 = set_books (books st.1) this
  /\ length (books st.1) = length (books this)
  /\ (forall i, i < k -> slot st.1 i = healed this h (slot this i))
  /\ (forall i, k <= i -> slot st.1 i = slot this i)
  /\ (forall r, Book.isShelved (st.2 r) = Book.isShelved (h r)
                /\ Book.shelf (st.2 r) = Book.shelf (h r)).
Proof.
  induction k as [|k IH]; intros Hk; cbn zeta.
  - cbn. split; [by destruct this|]. split; [done|].
    split; [intros i Hi; lia|]. done.
  - rewrite seq_S, foldl_app. cbn [foldl Nat.add].
    destruct (IH ltac:(lia)) as (Hset & Hlen & Hlow & Hhigh & Hheap).
    destruct (foldl _ _ (seq 0 k)) as [s1 h1]. cbn [fst snd] in *.
    assert (Hself : self s1 = self this) by (by rewrite Hset).
    unfold renderSlot. rewrite (Hhigh k ltac:(lia)).
    destruct (slot this k) as [[book|]|] eqn:Hs; cbn [fst snd].
    + destruct (Hheap book) as [Hsh Hrf].
      rewrite Hsh, Hrf, Hself.
      destruct (negb (Book.isShelved (h book))
                || negb (bool_decide (Book.shelf (h book) = Some (self this))))
        eqn:Hbad; cbn [fst snd].
      * (* stale: the slot is nulled *)
        assert (Hv : valid this h book = false).
        { unfold valid. destruct (Book.isShelved (h book)); [|done].
          destruct (bool_decide _); done. }
        split; [by rewrite Hset|].
        split; [cbn; rewrite store_inside, length_insert by lia; done|].
        split; [|split; [|exact Hheap]].
        -- intros i Hi. unfold slot at 1. cbn.
           destruct (decide (i = k)) as [->|Hne].
           ++ rewrite store_lookup by lia. by rewrite Hs; cbn; rewrite Hv.
           ++ rewrite store_lookup_ne by lia. apply Hlow. lia.
        -- intros i Hi. unfold slot at 1. cbn.
           rewrite store_lookup_ne by lia. apply Hhigh. lia.
      * (* valid: the book is positioned and drawn *)
        assert (Hv : valid this h book = true).
        { unfold valid. destruct (Book.isShelved (h book)); [|done].
          destruct (bool_decide _); done. }
        split; [exact Hset|]. split; [exact Hlen|].
        split; [|split; [intros i Hi; apply Hhigh; lia|]].
        -- intros i Hi. destruct (decide (i = k)) as [->|Hne].
           ++ rewrite (Hhigh k ltac:(lia)), Hs. cbn. by rewrite Hv.
           ++ apply Hlow. lia.
        -- intros r. destruct (decide (book = r)) as [<-|Hne].
           ++ rewrite fn_lookup_insert.
              destruct (render_shelving
                (Book.set_y
                   (Entity.y (base s1) + Num.ofZ 24
                    + Num.ofNat (k / 3) * Num.ofZ 24)%Qc
                   (Book.set_x
                      (Entity.x (base s1)
                       + Num.ofNat (k mod 3) * (Entity.width (base s1) / Num.ofZ 3)
                       + (Entity.width (base s1) / Num.ofZ 3
                          - Book.width (h1 book)) / Num.ofZ 2)%Qc
                      (h1 book)))) as [-> ->].
              cbn. done.
           ++ rewrite fn_lookup_insert_ne by done. apply Hheap.
    + split; [exact Hset|]. split; [exact Hlen|].
      split; [|split; [intros i Hi; apply Hhigh; lia|exact Hheap]].
      intros i Hi. destruct (decide (i = k)) as [->|Hne].
      * by rewrite (Hhigh k ltac:(lia)), Hs.
      * apply Hlow. lia.
    + split; [exact Hset|]. split; [exact Hlen|].
      split; [|split; [intros i Hi; apply Hhigh; lia|exact Hheap]].
      intros i Hi. destruct (decide (i = k)) as [->|Hne].
      * by rewrite (Hhigh k ltac:(lia)), Hs.
      * apply Hlow. lia.
Qed.

End ShelfRender.

(** C9: a render pass heals stale slots.  After [renderBooks], which always
    completes, every non-null slot holds a book that reports [isShelved]
    and references this shelf; a slot whose book did not is null; every
    other slot, and every other field of the shelf, is as before. *)
Theorem renderBooks_self_heals (this : Shelf.t) (h : Heap) :
  let this' := (Shelf.renderBooks this h).1 in
  let h' := (Shelf.renderBooks this h).2 in
  (forall i book,
     Shelf.slot this' i = Some (Some book) ->
     Book.isShelved (h' book) = true
     /\ Book.shelf (h' book) = Some (Shelf.self this'))
  /\ (forall i book,
        Shelf.slot this i = Some (Some book) ->
        Book.isShelved (h book) = false
        \/ Book.shelf (h book) <> Some (Shelf.self this) ->
        Shelf.slot this' i = Some None)
  /\ (forall i book,
        Shelf.slot this i = Some (Some book) ->
        Book.isShelved (h book) = true ->
        Book.shelf (h book) = Some (Shelf.self this) ->
        Shelf.slot this' i = Some (Some book))
  /\ (forall i,
        Shelf.truthy (Shelf.slot this i) = false ->
        Shelf.slot this' i = Shelf.slot this i)
  /\ this' = Shelf.set_books (Shelf.books this') this.
Proof.
  cbn zeta. unfold Shelf.renderBooks.
  destruct (renderBooks_prefix this h (length (Shelf.books this)) ltac:(lia))
    as (Hset & Hlen & Hlow & _ & Hheap).
  destruct (foldl _ _ _) as [s1 h1]. cbn [fst snd] in *.
  assert (Hslot : forall i, Shelf.slot s1 i
                            = Shelf.healed this h (Shelf.slot this i)).
  { intros i. destruct (decide (i < length (Shelf.books this))) as [Hi|Hi].
    - by apply Hlow.
    - unfold Shelf.slot.
      rewrite !lookup_ge_None_2 by lia. reflexivity. }
  assert (Hself : Shelf.self s1 = Shelf.self this) by (by rewrite Hset).
  split; [|split; [|split; [|split]]].
  - intros i book Hs. rewrite Hslot in Hs. rewrite Hself.
    destruct (Hheap book) as [-> ->].
    destruct (Shelf.slot this i) as [[b|]|]; cbn in Hs; try discriminate.
    destruct (Shelf.valid this h b) eqn:Hv; [|discriminate].
    injection Hs as ->. unfold Shelf.valid in Hv.
    apply andb_true_iff in Hv as [Hv1 Hv2].
    by apply bool_decide_eq_true in Hv2.
  - intros i book Hs Hbad. rewrite Hslot, Hs. cbn.
    assert (Hv : Shelf.valid this h book = false).
    { unfold Shelf.valid. destruct Hbad as [->|Hne]; [done|].
      rewrite (bool_decide_eq_false_2 _ Hne). apply andb_false_r. }
    by rewrite Hv.
  - intros i book Hs Hsh Hrf. rewrite Hslot, Hs. cbn.
    unfold Shelf.valid. by rewrite Hsh, (bool_decide_eq_true_2 _ Hrf).
  - intros i Ht. rewrite Hslot.
    by destruct (Shelf.slot this i) as [[b|]|].
  - exact Hset.
Qed.

Lemma renderBooks_self_heals_witness :
  Shelf.slot Sample.fullShelf.1 3 = Some (Some 4)
  /\ Book.isShelved (Sample.staleLibrary 4) = false
  /\ Shelf.slot (Shelf.renderBooks Sample.fullShelf.1 Sample.staleLibrary).1 3
     = Some None.
Proof.
  split; [reflexivity|]. split; [reflexivity|].
  exact (proj1 (proj2 (renderBooks_self_heals Sample.fullShelf.1
                         Sample.staleLibrary))
           3 4 eq_refl (or_introl eq_refl)).
Defined.

(** ** Shelf: the slot count through its life *)

Section ShelfLife.

Import Shelf.

(** The class invariant: the array has [capacity] slots.  Every method
    keeps it, and [capacity] itself. *)
Lemma new_wf me px py c cap : wf (new me px py c cap).
Proof. unfold wf. cbn. apply length_replicate. Qed.

Lemma addBook_keeps book this h :
  wf this ->
  wf (addBook book this h).1.2
  /\ capacity (addBook book this h).1.2 = capacity this.
Proof.
  unfold wf, addBook. intros Hwf.
  destruct (negb (hasEmptySlots this) || _); [done|]. cbn zeta.
  destruct (bool_decide _) eqn:Hlt; [|done].
  apply bool_decide_eq_true in Hlt. cbn.
  rewrite store_inside, length_insert by lia. done.
Qed.

Lemma removeBook_keeps index this h :
  wf this ->
  wf (removeBook index this h).1.2
  /\ capacity (removeBook index this h).1.2 = capacity this.
Proof.
  unfold wf, removeBook. intros Hwf.
  destruct (bool_decide (0 <= index)%Z) eqn:Hlo; [|done].
  destruct (bool_decide (index < _)%Z) eqn:Hhi; [|done].
  apply bool_decide_eq_true in Hlo, Hhi. cbn [andb].
  destruct (slot this (Z.to_nat index)) as [[book|]|]; [|done..].
  cbn. rewrite store_inside, length_insert by lia. done.
Qed.

Lemma removeRandomBook_keeps this h g :
  wf this ->
  wf (removeRandomBook this h g).1.1.2
  /\ capacity (removeRandomBook this h g).1.1.2 = capacity this.
Proof.
  unfold removeRandomBook. intros Hwf.
  destruct (bool_decide (length (bookIndices this) = 0)); [done|].
  cbn -[removeBook].
  destruct (bool_decide _); [|done].
  destruct (bookIndices this !! _) as [randomIndex|]; [|done].
  cbn -[removeBook]. by apply removeBook_keeps.
Qed.

Lemma update_keeps dt state this h :
  books (update dt state this h) = books this
  /\ capacity (update dt state this h) = capacity this.
Proof.
  unfold update. destruct (hasEmptySlots this); [|done]. cbn.
  destruct (Num.geb _ _); [done|]. destruct (Num.leb _ _); done.
Qed.

Lemma renderBooks_keeps this h :
  wf this ->
  wf (renderBooks this h).1
  /\ capacity (renderBooks this h).1 = capacity this.
Proof.
  unfold wf, renderBooks. intros Hwf.
  destruct (renderBooks_prefix this h (length (books this)) ltac:(lia))
    as (Hset & Hlen & _).
  destruct (foldl _ _ _) as [s1 h1]. cbn [fst snd] in *.
  rewrite Hset. cbn. by rewrite Hlen.
Qed.

Lemma step_keeps w c :
  wf (Life.shelf w) ->
  wf (Life.shelf (Life.step w c))
  /\ capacity (Life.shelf (Life.step w c)) = capacity (Life.shelf w).
Proof.
  intros Hwf. destruct c as [book|index| |dt state| |f]; cbn -[removeBook].
  - pose proof (addBook_keeps book (Life.shelf w) (Life.heap w) Hwf) as H.
    by destruct (addBook _ _ _) as [[ok s] hh].
  - pose proof (removeBook_keeps index (Life.shelf w) (Life.heap w) Hwf) as H.
    by destruct (removeBook _ _ _) as [[r s] hh].
  - pose proof (removeRandomBook_keeps (Life.shelf w) (Life.heap w)
                  (Life.random w) Hwf) as H.
    by destruct (removeRandomBook _ _ _) as [[[r s] hh] gg].
  - destruct (update_keeps dt state (Life.shelf w) (Life.heap w)) as [Hb Hc].
    unfold wf in *. by rewrite Hb, Hc.
  - pose proof (renderBooks_keeps (Life.shelf w) (Life.heap w) Hwf) as H.
    by destruct (renderBooks _ _) as [s hh].
  - done.
Qed.

Lemma run_keeps calls : forall w,
  wf (Life.shelf w) ->
  wf (Life.shelf (Life.run calls w))
  /\ capacity (Life.shelf (Life.run calls w)) = capacity (Life.shelf w).
Proof.
  induction calls as [|c calls IH]; intros w Hwf; [done|].
  change (Life.run (c :: calls) w) with (Life.run calls (Life.step w c)).
  destruct (step_keeps w c Hwf) as [Hwf' Hc].
  destruct (IH _ Hwf') as [A B]. split; [exact A|]. by rewrite B.
Qed.

End ShelfLife.

(** C7: at every point of a shelf's life (after any sequence of [addBook],
    [removeBook], [removeRandomBook], [update] and render calls, whatever the
    rest of the game does to the books in between) the number of non-null
    slots plus [getEmptySlotCount()] equals the capacity, and
    [hasEmptySlots()] is true exactly when the number of non-null slots is
    below the capacity.  Moreover the capacity is the one the shelf was
    built with, the array has that many slots, and [getEmptySlotCount()] is
    the number of null slots. *)
Theorem slots_accounted (me : ShelfRef) (px py : Qc) (c : string) (cap : nat)
    (h : Heap) (g : Random.t) (calls : list Life.call) :
  let this :=
    Life.shelf (Life.run calls (Life.mk (Shelf.new me px py c cap) h g)) in
  (Z.of_nat (Shelf.bookCount this) + Shelf.getEmptySlotCount this
   = Z.of_nat (Shelf.capacity this))%Z
  /\ (Shelf.hasEmptySlots this = true
      <-> Shelf.bookCount this < Shelf.capacity this)
  /\ Shelf.capacity this = cap
  /\ length (Shelf.books this) = cap
  /\ Shelf.getEmptySlotCount this
     = Z.of_nat (length (filter (fun b : option BookRef => b = None)
                                (Shelf.books this))).
Proof.
  cbn zeta.
  destruct (run_keeps calls (Life.mk (Shelf.new me px py c cap) h g)
              (new_wf me px py c cap)) as [Hwf Hcap].
  set (this := Life.shelf _) in *. cbn in Hcap. unfold Shelf.wf in Hwf.
  split; [unfold Shelf.getEmptySlotCount; lia|].
  split; [unfold Shelf.hasEmptySlots; apply bool_decide_eq_true|].
  split; [exact Hcap|]. split; [lia|].
  unfold Shelf.getEmptySlotCount, Shelf.bookCount.
  pose proof (slots_partition (Shelf.books this)). lia.
Qed.

(** ** The scenario of the specification

    A red shelf of capacity 6 takes six red books and refuses a seventh;
    [removeBook(3)] returns the fourth book and leaves one empty slot; a
    blue book is then refused and a red one fills the shelf again, at the
    slot that was freed. *)
Example shelf_scenario :
  let '(full, lib) := Sample.fullShelf in
  Shelf.books full = [Some 1; Some 2; Some 3; Some 4; Some 5; Some 6]
  /\ Shelf.hasEmptySlots full = false
  /\ (Shelf.addBook 8 full lib).1.1 = false
  /\ let '(removed, s, h) := Shelf.removeBook 3 full lib in
     removed = Some 4
     /\ Shelf.getEmptySlotCount s = 1%Z
     /\ (Shelf.addBook 7 s h).1.1 = false
     /\ let '(ok, s', _) := Shelf.addBook 9 s h in
        ok = true
        /\ Shelf.books s' = [Some 1; Some 2; Some 3; Some 9; Some 5; Some 6]
        /\ Shelf.hasEmptySlots s' = false.
Proof. vm_compute. repeat split. Qed.

(** * Further properties of the code *)

Local Open Scope Qc_scope.

(** ** Book: what a frame never writes *)

Section BookIdentity.

Import Book.

Lemma bounce_identity oldX oldY this g :
  identity (bounce oldX oldY this g).1 = identity this.
Proof. reflexivity. Qed.

Lemma checkShelves_identity state oldX oldY this g :
  identity (checkShelves state oldX oldY this g).1 = identity this.
Proof.
  unfold checkShelves.
  destruct (negb (isShelved this)); [|reflexivity].
  destruct state as [st|]; [|reflexivity].
  destruct (shelves st) as [shs|]; [|reflexivity].
  induction shs as [|s shs IH]; cbn; [reflexivity|].
  destruct (overlaps this s); [apply bounce_identity|exact IH].
Qed.

Lemma pulse_identity dt this : identity (pulse dt this) = identity this.
Proof.
  unfold pulse. cbn.
  destruct (Num.geb _ _); [reflexivity|].
  destruct (Num.leb _ _); reflexivity.
Qed.

Lemma rest_identity this : identity (rest this) = identity this.
Proof. unfold rest. destruct (_ && _); reflexivity. Qed.

Lemma tail_identity dt b :
  identity (pulse dt (set_sparkleTimer (sparkleTimer (spin dt b) + dt)
                                       (spin dt b)))
  = identity b.
Proof. by rewrite pulse_identity. Qed.

Lemma tentative_identity dt this : identity (tentative dt this) = identity this.
Proof. reflexivity. Qed.

End BookIdentity.

Lemma update_identity (deltaTime : Qc) (state : option PlayState)
    (this : Book.t) (g : Random.t) :
  Book.identity (Book.update deltaTime state this g).1 = Book.identity this.
Proof.
  destruct (Book.isHeld this) eqn:Hh.
  - unfold Book.update. by rewrite Hh.
  - rewrite (update_not_held _ _ _ _ Hh). cbn zeta. cbn [fst].
    rewrite rest_identity, tail_identity, checkShelves_identity.
    apply tentative_identity.
Qed.

(** X1: [update] never changes what identifies a book or its state: colour,
    [isHeld], [isShelved], [holder], [shelf], the physics constants, the
    size, the visibility and the glow cache are the same after any frame,
    held or not, bounced or not. *)
Theorem update_keeps_identity (deltaTime : Qc) (state : option PlayState)
    (this : Book.t) (g : Random.t) :
  Book.identity (Book.update deltaTime state this g).1 = Book.identity this.
Proof. apply update_identity. Qed.

(** ** Book: shelved books and dropped books *)

Section BookStill.

Import Book.

Lemma checkShelves_shelved state oldX oldY this g :
  isShelved this = true -> checkShelves state oldX oldY this g = (this, g).
Proof. unfold checkShelves. by intros ->. Qed.

(** A frame on a book at rest that does not bounce. *)
Lemma update_still dt state this g :
  isHeld this = false ->
  vx this = 0 -> vy this = 0 ->
  isShelved this = true \/ hits state this = false ->
  (update dt state this g).2 = g
  /\ base (update dt state this g).1 = base this.
Proof.
  intros Hh Hvx Hvy Hfree.
  pose proof (tentative_at_rest dt this Hvx Hvy) as Ht.
  rewrite (update_not_held _ _ _ _ Hh). cbn zeta. cbn [fst snd].
  assert (Hc : checkShelves state (x (applyFriction this))
                 (y (applyFriction this)) (tentative dt this) g
               = (tentative dt this, g)).
  { destruct Hfree as [Hs|Hm].
    - by apply checkShelves_shelved.
    - apply checkShelves_miss. rewrite <- Hm. by apply hits_same_base. }
  rewrite Hc. cbn [fst snd]. split; [reflexivity|].
  rewrite rest_at_rest.
  - by rewrite tail_base.
  - unfold vx. rewrite tail_base, Ht. exact Hvx.
  - unfold vy. rewrite tail_base, Ht. exact Hvy.
Qed.

Lemma identity_flags a b :
  identity a = identity b ->
  isHeld a = isHeld b /\ isShelved a = isShelved b
  /\ holder a = holder b /\ shelf a = shelf b.
Proof. unfold identity. intros H. by inversion H. Qed.

Lemma updates_still dts state : forall this g,
  isHeld this = false ->
  vx this = 0 -> vy this = 0 ->
  isShelved this = true \/ hits state this = false ->
  (updates dts state this g).2 = g
  /\ base (updates dts state this g).1 = base this
  /\ identity (updates dts state this g).1 = identity this.
Proof.
  induction dts as [|dt dts IH]; intros this g Hh Hvx Hvy Hfree; [done|].
  cbn [updates].
  destruct (update_still dt state this g Hh Hvx Hvy Hfree) as [Hg Hb].
  pose proof (update_identity dt state this g) as Hi.
  destruct (identity_flags _ _ Hi) as (Hh' & Hs' & _).
  destruct (update dt state this g) as [this1 g1]. cbn [fst snd] in *.
  subst g1.
  destruct (IH this1 g) as (A & B & C).
  - congruence.
  - unfold vx. by rewrite Hb.
  - unfold vy. by rewrite Hb.
  - destruct Hfree as [Hs|Hm]; [left; congruence|right].
    rewrite <- Hm. by apply hits_same_base.
  - split; [exact A|]. split; congruence.
Qed.

End BookStill.

(** X2: a shelved book's frame never looks at the shelves and never draws a
    random number: [update] gives what it gives with no play state at all.
    In particular a book that [shelve] has just placed (velocity zeroed)
    keeps its position, velocity and shelving through any sequence of
    frames, although it overlaps the shelf it stands on. *)
Theorem shelved_book_ignores_shelves (state : option PlayState)
    (this : Book.t) (g : Random.t) :
  (forall deltaTime,
     Book.isShelved this = true ->
     Book.update deltaTime state this g = Book.update deltaTime None this g
     /\ (Book.update deltaTime state this g).2 = g)
  /\ (forall s deltaTimes,
        let placed := Book.shelve s this in
        let r := Book.updates deltaTimes state placed g in
        r.2 = g
        /\ Book.base r.1 = Book.base placed
        /\ Book.isShelved r.1 = true /\ Book.shelf r.1 = s
        /\ Book.isHeld r.1 = false).
Proof.
  split.
  - intros dt Hs. unfold Book.update.
    destruct (Book.isHeld this); [done|]. cbn zeta.
    rewrite !checkShelves_shelved by exact Hs. done.
  - intros s dts. cbn zeta.
    destruct (updates_still dts state (Book.shelve s this) g)
      as (A & B & C); try reflexivity; [by left|].
    destruct (identity_flags _ _ C) as (Hh & Hs & _ & Hf).
    rewrite A, B, Hh, Hs, Hf. done.
Qed.

Lemma shelved_book_ignores_shelves_witness :
  Book.isShelved Sample.shelvedBook = true
  /\ Book.update (Num.frac 1 60) Sample.cornerRoom Sample.shelvedBook
       (Random.const 0)
     = Book.update (Num.frac 1 60) None Sample.shelvedBook (Random.const 0).
Proof.
  split; [reflexivity|].
  exact (proj1 (proj1 (shelved_book_ignores_shelves Sample.cornerRoom
                         Sample.shelvedBook (Random.const 0))
                  (Num.frac 1 60) eq_refl)).
Defined.

(** X3: a book that is picked up and then dropped without a throw, at a
    place that overlaps no shelf, lies still: through any sequence of frames
    it stays at the drop point with velocity (0,0), it is not held, and no
    random number is drawn. *)
Theorem dropped_book_lies_still (holder : HolderRef) (px py : Qc)
    (state : option PlayState) (this : Book.t) (g : Random.t)
    (deltaTimes : list Qc) :
  let dropped := (Book.drop px py None (Book.pickup holder this) g).1 in
  Book.hits state dropped = false ->
  let r := Book.updates deltaTimes state dropped g in
  r.2 = g
  /\ Book.x r.1 = px /\ Book.y r.1 = py
  /\ Book.vx r.1 = 0 /\ Book.vy r.1 = 0
  /\ Book.isHeld r.1 = false /\ Book.holder r.1 = None.
Proof.
  cbn zeta. intros Hclear.
  destruct (updates_still deltaTimes state
              (Book.drop px py None (Book.pickup holder this) g).1 g)
    as (A & B & C); try reflexivity; [by right|].
  destruct (identity_flags _ _ C) as (Hh & _ & Ho & _).
  unfold Book.x, Book.y, Book.vx, Book.vy. rewrite A, B, Hh, Ho. done.
Qed.

Lemma dropped_book_lies_still_witness :
  Book.hits Sample.room
    (Book.drop 0 0 None (Book.pickup 1%nat Sample.flyingBook)
       (Random.const 0)).1 = false
  /\ Book.vx (Book.updates (Num.frac 1 60 :: Num.frac 1 30 :: nil) Sample.room
                (Book.drop 0 0 None (Book.pickup 1%nat Sample.flyingBook)
                   (Random.const 0)).1 (Random.const 0)).1 = 0.
Proof.
  split; [reflexivity|].
  pose proof (dropped_book_lies_still 1%nat 0 0 Sample.room Sample.flyingBook
                (Random.const 0) (Num.frac 1 60 :: Num.frac 1 30 :: nil)
                eq_refl) as H.
  exact (proj1 (proj2 (proj2 (proj2 H)))).
Defined.

(** X4: a throw.  [drop(x, y, throwVelocity)] with a throw velocity releases
    the book at (x, y) with exactly that velocity and draws exactly one
    random number, from which the rotation speed [(r - 0.5) * 10] lies in
    [-5, 5) whenever the draw is in [0, 1); shelving is not touched. *)
Theorem drop_with_throw (px py tx ty : Qc) (this : Book.t) (g : Random.t) :
  let r := Book.drop px py (Some (tx, ty)) this g in
  Book.isHeld r.1 = false /\ Book.holder r.1 = None
  /\ Book.x r.1 = px /\ Book.y r.1 = py
  /\ Book.vx r.1 = tx /\ Book.vy r.1 = ty
  /\ Book.isShelved r.1 = Book.isShelved this
  /\ Book.shelf r.1 = Book.shelf this
  /\ r.2 = Random.mk (Random.draws g) (S (Random.cursor g))
  /\ (Random.ok g ->
      - Num.ofZ 5 <= Book.rotationSpeed r.1
      /\ Book.rotationSpeed r.1 < Num.ofZ 5).
Proof.
  cbn. repeat (split; [reflexivity|]). intros Hok.
  destruct (Hok (Random.cursor g)) as [H0 H1].
  revert H0 H1. generalize (Random.draws g (Random.cursor g)). intros r H0 H1.
  split; qc_lra.
Qed.

Lemma drop_with_throw_witness :
  Random.ok (Random.const (Num.frac 9 10))
  /\ Book.rotationSpeed
       (Book.drop 0 0 (Some (Num.ofZ 30, 0)) Sample.heldBook
          (Random.const (Num.frac 9 10))).1 < Num.ofZ 5.
Proof.
  assert (Hok : Random.ok (Random.const (Num.frac 9 10)))
    by (intros n; split; by vm_compute).
  split; [exact Hok|].
  pose proof (drop_with_throw 0 0 (Num.ofZ 30) 0 Sample.heldBook
                (Random.const (Num.frac 9 10))) as H.
  exact (proj2 ((proj2 (proj2 (proj2 (proj2 (proj2 (proj2 (proj2
           (proj2 (proj2 H))))))))) Hok)).
Defined.

(** X5: [getStateString()] says "shelved" exactly for the shelved books
    (also when such a book is held as well), "on floor" exactly for the
    books that are neither held nor shelved, and a string that starts with
    "held by " exactly for the books held and not shelved; the holder's
    name falls back to "unknown" when there is no holder or its
    constructor's name is empty. *)
Theorem getStateString_cases (className : HolderRef -> string)
    (this : Book.t) :
  (Book.getStateString className this = "shelved"%string
   <-> Book.isShelved this = true)
  /\ (Book.getStateString className this = "on floor"%string
      <-> Book.isHeld this = false /\ Book.isShelved this = false)
  /\ ((exists name, name <> ""%string
                    /\ Book.getStateString className this
                       = String.append "held by " name)
      <-> Book.isHeld this = true /\ Book.isShelved this = false)
  /\ (Book.isShelved this = false -> Book.isHeld this = true ->
      (Book.holder this = None
       \/ exists o, Book.holder this = Some o /\ className o = ""%string) ->
      Book.getStateString className this = "held by unknown"%string).
Proof.
  unfold Book.getStateString.
  destruct (Book.isShelved this), (Book.isHeld this); cbn.
  - split; [done|]. split; [split; [discriminate|intros [? ?]; done]|].
    split; [|done]. split; [intros (n & _ & H); discriminate|intros [? ?]; done].
  - split; [done|]. split; [split; [discriminate|intros [? ?]; done]|].
    split; [|done]. split; [intros (n & _ & H); discriminate|intros [? ?]; done].
  - split; [split; discriminate|].
    split; [split; [discriminate|intros [? ?]; done]|].
    split.
    + split; [done|]. intros _.
      destruct (Book.holder this) as [o|].
      * case_bool_decide as Hn; [by exists "unknown"%string|].
        by exists (className o).
      * by exists "unknown"%string.
    + intros _ _ [->|(o & -> & Ho)]; [done|].
      by rewrite bool_decide_eq_true_2.
  - split; [split; discriminate|]. split; [done|].
    split; [|done]. split; [intros (n & _ & H); discriminate|intros [? ?]; done].
Qed.

Lemma getStateString_cases_witness :
  Book.isShelved Sample.heldBook = false
  /\ Book.isHeld Sample.heldBook = true
  /\ Book.getStateString (fun _ => ""%string) Sample.heldBook
     = "held by unknown"%string.
Proof.
  split; [reflexivity|]. split; [reflexivity|].
  exact (proj2 (proj2 (proj2 (getStateString_cases (fun _ => ""%string)
                                Sample.heldBook)))
           eq_refl eq_refl
           (or_intror (ex_intro _ 1%nat (conj eq_refl eq_refl)))).
Defined.

(** ** Book: its state through its life *)

Section BookLinked.

Import Book.

Lemma pickupBy_Some h this : pickupBy (Some h) this = pickup h this.
Proof. reflexivity. Qed.

Lemma linked_attached b : BookLife.linked b -> BookLife.attached b.
Proof.
  intros (Hex & Hheld & Hshelved).
  split; [exact Hex|]. split; [apply Hheld|apply Hshelved].
Qed.

Lemma attached_congr a b :
  identity a = identity b -> BookLife.attached b -> BookLife.attached a.
Proof.
  intros H. destruct (identity_flags _ _ H) as (Hh & Hs & Ho & Hf).
  unfold BookLife.attached, exclusive. by rewrite Hh, Hs, Ho, Hf.
Qed.

Lemma linked_congr a b :
  identity a = identity b -> BookLife.linked b -> BookLife.linked a.
Proof.
  intros H. destruct (identity_flags _ _ H) as (Hh & Hs & Ho & Hf).
  unfold BookLife.linked, exclusive. by rewrite Hh, Hs, Ho, Hf.
Qed.

Lemma step_attached b g c :
  BookLife.attached b -> BookLife.allowed b c = true ->
  BookLife.attached (BookLife.step (b, g) c).1.
Proof.
  intros (Hex & Hheld & Hshelved) Hal.
  destruct c as [o|px py tv|s| |dt state]; cbn [BookLife.step fst snd].
  - (* pickup, on a book that is not shelved *)
    cbn in Hal. apply negb_true_iff in Hal.
    unfold BookLife.attached, exclusive. cbn. rewrite Hal in *.
    split; [intros [_ ?]; done|]. split; [done|]. exact Hshelved.
  - (* drop *)
    assert (L : BookLife.attached
                  (set_y py (set_x px (set_holder None (set_isHeld false b))))).
    { unfold BookLife.attached, exclusive. cbn.
      split; [intros [? _]; done|]. split; [done|]. exact Hshelved. }
    unfold drop. destruct tv as [[tx ty]|]; [|exact L].
    cbn. revert L. apply attached_congr. reflexivity.
  - (* shelve *)
    unfold BookLife.attached, exclusive. cbn.
    split; [intros [? _]; done|]. done.
  - (* unshelve *)
    unfold BookLife.attached, exclusive. cbn.
    split; [intros [_ ?]; done|]. split; [exact Hheld|]. done.
  - (* update *)
    apply (attached_congr _ b); [apply update_identity|done].
Qed.

Lemma step_linked b g c :
  BookLife.linked b -> BookLife.allowed b c = true ->
  BookLife.referenced c = true ->
  BookLife.linked (BookLife.step (b, g) c).1.
Proof.
  intros (Hex & Hheld & Hshelved) Hal Href.
  destruct c as [o|px py tv|s| |dt state]; cbn [BookLife.step fst snd].
  - (* pickup with a holder, on a book that is not shelved *)
    destruct o as [h|]; [|discriminate Href].
    cbn in Hal. apply negb_true_iff in Hal.
    unfold BookLife.linked, exclusive. cbn. rewrite Hal in *.
    split; [intros [_ ?]; done|]. split; [done|]. exact Hshelved.
  - (* drop *)
    assert (L : BookLife.linked
                  (set_y py (set_x px (set_holder None (set_isHeld false b))))).
    { unfold BookLife.linked, exclusive. cbn.
      split; [intros [? _]; done|]. split; [done|]. exact Hshelved. }
    unfold drop. destruct tv as [[tx ty]|]; [|exact L].
    cbn. revert L. apply linked_congr. reflexivity.
  - (* shelve on a shelf *)
    destruct s as [s|]; [|discriminate Href].
    unfold BookLife.linked, exclusive. cbn.
    split; [intros [? _]; done|]. done.
  - (* unshelve *)
    unfold BookLife.linked, exclusive. cbn.
    split; [intros [_ ?]; done|]. split; [exact Hheld|]. done.
  - (* update *)
    apply (linked_congr _ b); [apply update_identity|done].
Qed.

Lemma run_attached calls : forall b g,
  BookLife.attached b -> BookLife.legal calls (b, g) = true ->
  BookLife.attached (BookLife.run calls (b, g)).1.
Proof.
  induction calls as [|c calls IH]; intros b g Hl Hlegal; [exact Hl|].
  cbn [BookLife.legal fst] in Hlegal.
  apply andb_true_iff in Hlegal as [Hal Hrest].
  change (BookLife.run (c :: calls) (b, g))
    with (BookLife.run calls (BookLife.step (b, g) c)).
  pose proof (step_attached b g c Hl Hal) as Hl'.
  destruct (BookLife.step (b, g) c) as [b1 g1]. by apply IH.
Qed.

Lemma run_linked calls : forall b g,
  BookLife.linked b -> BookLife.legal calls (b, g) = true ->
  forallb BookLife.referenced calls = true ->
  BookLife.linked (BookLife.run calls (b, g)).1.
Proof.
  induction calls as [|c calls IH]; intros b g Hl Hlegal Hrefs; [exact Hl|].
  cbn [BookLife.legal fst] in Hlegal.
  apply andb_true_iff in Hlegal as [Hal Hrest].
  cbn [forallb] in Hrefs. apply andb_true_iff in Hrefs as [Href Hrefs].
  change (BookLife.run (c :: calls) (b, g))
    with (BookLife.run calls (BookLife.step (b, g) c)).
  pose proof (step_linked b g c Hl Hal Href) as Hl'.
  destruct (BookLife.step (b, g) c) as [b1 g1]. by apply IH.
Qed.

Lemma new_linked px py c : BookLife.linked (new px py c).
Proof.
  unfold BookLife.linked, exclusive. cbn.
  split; [intros [? _]; done|]. done.
Qed.

End BookLinked.

(** X6: the state model holds along the life of a book.  From its
    construction on, through any sequence of [pickup], [drop], [shelve],
    [unshelve] and [update] calls, with any arguments ([pickup(null)] and
    [shelve()] without a shelf included), in which [pickup] is only called
    on a book that is not shelved: the book is never held and shelved at
    once, [holder] is only set while it is held, and [shelf] is only set
    while it is shelved.  When moreover every [pickup] is given a holder and
    every [shelve] a shelf, [holder] is set exactly while the book is held
    and [shelf] exactly while it is shelved. *)
Theorem book_state_stays_linked (px py : Qc) (c : string) (g : Random.t)
    (calls : list BookLife.call) :
  BookLife.legal calls (Book.new px py c, g) = true ->
  let this := (BookLife.run calls (Book.new px py c, g)).1 in
  (Book.exclusive this
   /\ (Book.holder this <> None -> Book.isHeld this = true)
   /\ (Book.shelf this <> None -> Book.isShelved this = true))
  /\ (forallb BookLife.referenced calls = true ->
      (Book.isHeld this = true <-> Book.holder this <> None)
      /\ (Book.isShelved this = true <-> Book.shelf this <> None)).
Proof.
  intros Hlegal this. subst this. split.
  - apply (run_attached calls _ g); [|exact Hlegal].
    apply linked_attached, new_linked.
  - intros Hrefs.
    apply (run_linked calls _ g (new_linked px py c) Hlegal Hrefs).
Qed.

Lemma book_state_stays_linked_witness :
  let calls :=
    BookLife.Pickup (Some 1%nat) :: BookLife.Shelve (Some 0%nat)
    :: BookLife.Update (Num.frac 1 60) Sample.room
    :: BookLife.Unshelve :: BookLife.Pickup (Some 2%nat)
    :: BookLife.Drop 0 0 (Some (Num.ofZ 30, 0)) :: nil in
  let start := (Book.new 0 0 "red", Random.const 0) in
  let this := (BookLife.run calls start).1 in
  let bare := (BookLife.run (calls ++ BookLife.Shelve None :: nil) start).1 in
  (BookLife.legal calls start = true
   /\ forallb BookLife.referenced calls = true
   /\ (Book.isHeld this = true <-> Book.holder this <> None)
   /\ (Book.isShelved this = true <-> Book.shelf this <> None))
  /\ (BookLife.legal (calls ++ BookLife.Shelve None :: nil) start = true
      /\ Book.exclusive bare
      /\ (Book.holder bare <> None -> Book.isHeld bare = true)
      /\ (Book.shelf bare <> None -> Book.isShelved bare = true)
      /\ Book.isShelved bare = true /\ Book.shelf bare = None).
Proof.
  cbn zeta. split.
  - split; [reflexivity|]. split; [reflexivity|].
    exact (proj2 (book_state_stays_linked 0 0 "red" (Random.const 0)
                    (BookLife.Pickup (Some 1%nat)
                     :: BookLife.Shelve (Some 0%nat)
                     :: BookLife.Update (Num.frac 1 60) Sample.room
                     :: BookLife.Unshelve :: BookLife.Pickup (Some 2%nat)
                     :: BookLife.Drop 0 0 (Some (Num.ofZ 30, 0)) :: nil)
                    eq_refl) eq_refl).
  - split; [reflexivity|].
    destruct (book_state_stays_linked 0 0 "red" (Random.const 0)
                ((BookLife.Pickup (Some 1%nat)
                  :: BookLife.Shelve (Some 0%nat)
                  :: BookLife.Update (Num.frac 1 60) Sample.room
                  :: BookLife.Unshelve :: BookLife.Pickup (Some 2%nat)
                  :: BookLife.Drop 0 0 (Some (Num.ofZ 30, 0)) :: nil)
                 ++ BookLife.Shelve None :: nil) eq_refl)
      as ((Hex & Hheld & Hshelved) & _).
    split; [exact Hex|]. split; [exact Hheld|]. split; [exact Hshelved|].
    split; reflexivity.
Defined.

(** ** Book: coming to rest *)

Section BookRest.

Import Book.

Lemma ofNat_S n : Num.ofNat (S n) = Num.ofNat n + 1.
Proof.
  apply Qc_is_canon. unfold Num.ofNat, Num.ofZ, Qcplus, Q2Qc. cbn [this].
  rewrite !Qred_correct. unfold Qeq, Qplus. cbn. lia.
Qed.

Lemma identity_friction a b :
  identity a = identity b -> friction a = friction b.
Proof. unfold identity. intros H. by inversion H. Qed.

(** A frame without a bounce: friction, then the rest clamp. *)
Lemma update_glide dt state this g :
  isHeld this = false -> friction this = Num.frac 9 10 ->
  isShelved this = true \/ (forall b, hits state b = false) ->
  (update dt state this g).2 = g
  /\ (vx (update dt state this g).1, vy (update dt state this g).1)
     = if Num.ltb (Num.abs (vx this * Num.frac 9 10)) (Num.ofZ 5)
          && Num.ltb (Num.abs (vy this * Num.frac 9 10)) (Num.ofZ 5)
       then (0, 0)
       else (vx this * Num.frac 9 10, vy this * Num.frac 9 10).
Proof.
  intros Hh Hf Hfree.
  rewrite (update_not_held _ _ _ _ Hh). cbn zeta. cbn [fst snd].
  assert (Hc : checkShelves state (x (applyFriction this))
                 (y (applyFriction this)) (tentative dt this) g
               = (tentative dt this, g)).
  { destruct Hfree as [Hs|Hm].
    - by apply checkShelves_shelved.
    - apply checkShelves_miss, Hm. }
  rewrite Hc. cbn [fst snd]. split; [reflexivity|].
  rewrite rest_velocity. unfold vx at 1 2 3, vy at 1 2 3.
  rewrite tail_base, <- Hf. reflexivity.
Qed.

Lemma speed_shrinks (a b : Qc) (n : nat) :
  0 <= a -> 0 <= b ->
  Num.ofZ 5 <= a * Num.frac 9 10 \/ Num.ofZ 5 <= b * Num.frac 9 10 ->
  (a + b) * Num.ofZ 2 <= Num.ofNat n + 1 ->
  (a * Num.frac 9 10 + b * Num.frac 9 10) * Num.ofZ 2 <= Num.ofNat n.
Proof.
  intros Ha Hb Hbig Hn. revert Hn. generalize (Num.ofNat n). intros m Hn.
  destruct Hbig as [H|H]; qc_lra.
Qed.

Lemma abs_scaled (v : Qc) :
  Num.abs (v * Num.frac 9 10) = Num.abs v * Num.frac 9 10.
Proof.
  unfold Num.abs. rewrite Qcabs_Qcmult.
  rewrite (Qcabs_pos (Num.frac 9 10)) by qc_lra. reflexivity.
Qed.

Lemma rest_within state n : forall this g,
  isHeld this = false -> friction this = Num.frac 9 10 ->
  isShelved this = true \/ (forall b, hits state b = false) ->
  (Num.abs (vx this) + Num.abs (vy this)) * Num.ofZ 2 <= Num.ofNat n ->
  forall dts, (n <= length dts)%nat ->
    vx (updates dts state this g).1 = 0 /\ vy (updates dts state this g).1 = 0.
Proof.
  induction n as [|n IH]; intros this g Hh Hf Hfree Hn dts Hlen.
  - (* no speed at all *)
    pose proof (Qcabs_nonneg (vx this)) as Ax.
    pose proof (Qcabs_nonneg (vy this)) as Ay.
    assert (Zx : Num.abs (vx this) = 0).
    { apply Qcle_antisym; [|exact Ax]. revert Hn Ax Ay. unfold Num.abs.
      generalize (Qcabs (vx this)) (Qcabs (vy this)). intros a b.
      change (Num.ofNat 0) with (Num.ofZ 0). qc_lra. }
    assert (Zy : Num.abs (vy this) = 0).
    { apply Qcle_antisym; [|exact Ay]. revert Hn Ax Ay. unfold Num.abs.
      generalize (Qcabs (vx this)) (Qcabs (vy this)). intros a b.
      change (Num.ofNat 0) with (Num.ofZ 0). qc_lra. }
    apply Qcabs_null in Zx, Zy.
    destruct (updates_still dts state this g Hh Zx Zy) as (_ & B & _).
    { destruct Hfree as [?|Hm]; [by left|right; apply Hm]. }
    unfold vx, vy. by rewrite B.
  - destruct dts as [|dt dts]; [cbn in Hlen; lia|].
    cbn in Hlen. cbn [updates].
    destruct (update_glide dt state this g Hh Hf Hfree) as [Hg Hv].
    pose proof (update_identity dt state this g) as Hi.
    destruct (identity_flags _ _ Hi) as (Hh' & Hs' & _).
    pose proof (identity_friction _ _ Hi) as Hf'.
    destruct (update dt state this g) as [this1 g1]. cbn [fst snd] in *.
    subst g1.
    assert (Hfree1 : isShelved this1 = true \/ (forall b, hits state b = false))
      by (destruct Hfree as [?|?]; [left; congruence|by right]).
    destruct (Num.ltb (Num.abs (vx this * Num.frac 9 10)) (Num.ofZ 5)
              && Num.ltb (Num.abs (vy this * Num.frac 9 10)) (Num.ofZ 5))
      eqn:Hsmall; injection Hv as Hvx Hvy.
    + (* clamped to rest in this frame *)
      destruct (updates_still dts state this1 g) as (_ & B & _);
        try congruence.
      { destruct Hfree1 as [?|Hm]; [by left|right; apply Hm]. }
      unfold vx, vy in *. by rewrite B.
    + (* slower by a tenth, which is at least half a unit *)
      apply IH; try congruence; [|lia].
      rewrite Hvx, Hvy, !abs_scaled.
      apply speed_shrinks; try apply Qcabs_nonneg.
      * apply andb_false_iff in Hsmall as [N|N]; apply ltb_ge in N;
          rewrite abs_scaled in N; [by left|by right].
      * by rewrite <- ofNat_S.
Qed.

End BookRest.

(** X7: friction brings a book to rest.  A book that is not held, has the
    constructor's friction 0.9, and cannot bounce (it is shelved, or the
    play state has no shelf to hit) reaches velocity exactly (0,0): there is
    a number of frames, the same for all frame times, from which on every
    run of updates leaves it with velocity (0,0). *)
Theorem book_comes_to_rest (state : option PlayState) (this : Book.t)
    (g : Random.t) :
  Book.isHeld this = false -> Book.friction this = Num.frac 9 10 ->
  Book.isShelved this = true \/ (forall b, Book.hits state b = false) ->
  exists n, forall deltaTimes,
    (n <= length deltaTimes)%nat ->
    Book.vx (Book.updates deltaTimes state this g).1 = 0
    /\ Book.vy (Book.updates deltaTimes state this g).1 = 0.
Proof.
  intros Hh Hf Hfree.
  set (speed := (Num.abs (Book.vx this) + Num.abs (Book.vy this)) * Num.ofZ 2).
  exists (Z.to_nat (Qceiling speed)).
  apply rest_within; try assumption.
  fold speed.
  assert (Hpos : 0 <= speed).
  { subst speed.
    pose proof (Qcabs_nonneg (Book.vx this)) as Ax.
    pose proof (Qcabs_nonneg (Book.vy this)) as Ay.
    revert Ax Ay. unfold Num.abs.
    generalize (Qcabs (Book.vx this)) (Qcabs (Book.vy this)). intros a b.
    qc_lra. }
  generalize dependent speed. intros speed Hpos.
  unfold Num.ofNat, Num.ofZ, Qcle, Q2Qc in *. cbn [Qcanon.this] in *.
  rewrite Qred_correct in *.
  pose proof (Qle_ceiling speed) as Hc.
  assert (0 <= Qceiling speed)%Z.
  { apply Qceiling_resp_le in Hpos. exact Hpos. }
  rewrite Z2Nat.id by lia. exact Hc.
Qed.

Lemma book_comes_to_rest_witness :
  Book.isHeld Sample.flyingBook = false
  /\ Book.friction Sample.flyingBook = Num.frac 9 10
  /\ exists n, forall deltaTimes,
       (n <= length deltaTimes)%nat ->
       Book.vx (Book.updates deltaTimes None Sample.flyingBook
                  (Random.const 0)).1 = 0
       /\ Book.vy (Book.updates deltaTimes None Sample.flyingBook
                     (Random.const 0)).1 = 0.
Proof.
  split; [reflexivity|]. split; [reflexivity|].
  exact (book_comes_to_rest None Sample.flyingBook (Random.const 0)
           eq_refl eq_refl (or_intror (fun _ => eq_refl))).
Defined.

Local Close Scope Qc_scope.

(** ** Shelf: counting and the allocator *)

Section ShelfCount.

Import Shelf.

Implicit Types (l : list (option BookRef)) (this : Shelf.t).

(** Filling a null slot adds one to the count of books; nulling a filled
    slot takes one away. *)
Lemma count_fill l : forall i b,
  l !! i = Some None ->
  length (filter (fun v : option BookRef => v <> None) (<[i := Some b]> l))
  = S (length (filter (fun v : option BookRef => v <> None) l)).
Proof.
  induction l as [|a l IH]; intros i b Hi; [done|].
  destruct i as [|i]; cbn in Hi.
  - injection Hi as ->.
    change (<[0 := Some b]> (None :: l)) with (Some b :: l).
    rewrite filter_cons_True, filter_cons_False by (try done; naive_solver).
    done.
  - change (<[S i := Some b]> (a :: l)) with (a :: <[i := Some b]> l).
    destruct a as [a|].
    + rewrite !filter_cons_True by done. cbn. by rewrite (IH i b).
    + rewrite !filter_cons_False by naive_solver. by apply IH.
Qed.

Lemma count_clear l : forall i b,
  l !! i = Some (Some b) ->
  S (length (filter (fun v : option BookRef => v <> None) (<[i := None]> l)))
  = length (filter (fun v : option BookRef => v <> None) l).
Proof.
  induction l as [|a l IH]; intros i b Hi; [done|].
  destruct i as [|i]; cbn in Hi.
  - injection Hi as ->.
    change (<[0 := None]> (Some b :: l)) with (None :: l).
    rewrite filter_cons_False by naive_solver.
    rewrite filter_cons_True by done.
    done.
  - change (<[S i := None]> (a :: l)) with (a :: <[i := None]> l).
    destruct a as [a|].
    + rewrite !filter_cons_True by done. cbn. by rewrite (IH i b).
    + rewrite !filter_cons_False by naive_solver. by apply (IH i b).
Qed.

(** The path [addBook] takes when it succeeds. *)
Lemma addBook_success book this h :
  hasEmptySlots this = true ->
  Book.color (h book) = color this ->
  let i := scan (capacity this) this 0 in
  i < capacity this /\ i <= length (books this)
  /\ truthy (slot this i) = false
  /\ (forall j, j < i -> truthy (slot this j) = true)
  /\ addBook book this h
     = (true, set_books (store i (Some book) (books this)) this,
        <[book := Book.shelve (Some (self this)) (h book)]> h).
Proof.
  intros He Hc. cbn zeta.
  pose proof (scan_finds this He) as Hlt.
  pose proof (scan_bounded this) as Hle.
  destruct (scan_spec this (capacity this) 0 ltac:(lia)) as (_ & Hbelow & Hstop).
  split; [exact Hlt|]. split; [exact Hle|]. split; [by apply Hstop|].
  split; [intros j Hj; apply Hbelow; lia|].
  unfold addBook. rewrite He, (bool_decide_eq_true_2 _ Hc).
  cbn [negb orb]. cbn zeta. by rewrite (bool_decide_eq_true_2 _ Hlt).
Qed.

(** In an array of [capacity] slots the slot found is a null one. *)
Lemma found_slot_null this :
  wf this -> hasEmptySlots this = true ->
  slot this (scan (capacity this) this 0) = Some None.
Proof.
  intros Hwf He. unfold wf in Hwf.
  pose proof (scan_finds this He) as Hlt.
  destruct (scan_spec this (capacity this) 0 ltac:(lia)) as (_ & _ & Hstop).
  specialize (Hstop Hlt). unfold slot in *.
  destruct (lookup_lt_is_Some_2 (books this) (scan (capacity this) this 0)
              ltac:(lia)) as [v Hv].
  rewrite Hv in *. by destruct v.
Qed.

Lemma set_books_twice v w this :
  set_books v (set_books w this) = set_books v this.
Proof. reflexivity. Qed.

Lemma set_books_id this : set_books (books this) this = this.
Proof. by destruct this. Qed.

End ShelfCount.

(** X8: counting.  On a shelf whose array has [capacity] slots, a successful
    [addBook] raises the number of books by exactly one and lowers
    [getEmptySlotCount()] by one, and a failed one changes neither; a
    [removeBook] that returns a book lowers the number of books by exactly
    one, and one that returns null changes nothing. *)
Theorem add_remove_count (this : Shelf.t) (h : Heap) :
  Shelf.wf this ->
  (forall book,
     let r := Shelf.addBook book this h in
     if r.1.1
     then Shelf.bookCount r.1.2 = S (Shelf.bookCount this)
          /\ Shelf.getEmptySlotCount r.1.2
             = (Shelf.getEmptySlotCount this - 1)%Z
          /\ (0 <= Shelf.getEmptySlotCount r.1.2)%Z
     else Shelf.bookCount r.1.2 = Shelf.bookCount this)
  /\ (forall index,
        let r := Shelf.removeBook index this h in
        match r.1.1 with
        | Some _ => S (Shelf.bookCount r.1.2) = Shelf.bookCount this
        | None => r.1.2 = this
        end).
Proof.
  intros Hwf. split.
  - intros book. cbn zeta.
    destruct (Shelf.hasEmptySlots this) eqn:He;
      [destruct (decide (Book.color (h book) = Shelf.color this)) as [Hc|Hc]|].
    + destruct (addBook_success book this h He Hc) as (Hlt & Hle & _ & _ & ->).
      cbn [fst snd].
      pose proof (found_slot_null this Hwf He) as Hn.
      assert (Hin : Shelf.scan (Shelf.capacity this) this 0
                    < length (Shelf.books this))
        by (unfold Shelf.wf in Hwf; lia).
      unfold Shelf.bookCount, Shelf.getEmptySlotCount, Shelf.bookCount. cbn.
      rewrite store_inside by exact Hin.
      rewrite (count_fill _ _ _ Hn).
      apply bool_decide_eq_true in He. unfold Shelf.bookCount in He.
      split; [done|]. split; lia.
    + unfold Shelf.addBook. rewrite He, (bool_decide_eq_false_2 _ Hc). done.
    + unfold Shelf.addBook. rewrite He. done.
  - intros index. cbn zeta. unfold Shelf.removeBook.
    destruct (bool_decide (0 <= index)%Z) eqn:Hlo; [|done].
    destruct (bool_decide (index < _)%Z) eqn:Hhi; [|done].
    apply bool_decide_eq_true in Hlo, Hhi. cbn [andb].
    destruct (Shelf.slot this (Z.to_nat index)) as [[book|]|] eqn:Hs; [|done..].
    cbn [fst snd]. unfold Shelf.bookCount. cbn.
    rewrite store_inside by lia. by apply (count_clear _ _ book).
Qed.

Lemma add_remove_count_witness :
  Shelf.wf Sample.redShelf
  /\ Shelf.bookCount (Shelf.addBook 1 Sample.redShelf Sample.library).1.2
     = S (Shelf.bookCount Sample.redShelf).
Proof.
  assert (Hwf : Shelf.wf Sample.redShelf) by reflexivity.
  split; [exact Hwf|].
  exact (proj1 (proj1 (add_remove_count Sample.redShelf Sample.library Hwf) 1)).
Defined.

(** X9: adding and then removing is a round trip on the slots.  When
    [addBook] succeeds on a shelf whose array has [capacity] slots, there is
    a slot index at which [removeBook] returns that very book, gives back
    the slot array the shelf had before the two calls, and leaves the book
    not shelved, with no shelf reference and not held. *)
Theorem add_then_remove (book : BookRef) (this : Shelf.t) (h : Heap) :
  Shelf.wf this ->
  (Shelf.addBook book this h).1.1 = true ->
  exists index : nat,
    Shelf.slot (Shelf.addBook book this h).1.2 index = Some (Some book)
    /\ let r := Shelf.removeBook (Z.of_nat index)
                  (Shelf.addBook book this h).1.2
                  (Shelf.addBook book this h).2 in
       r.1.1 = Some book
       /\ r.1.2 = this
       /\ Book.isShelved (r.2 book) = false
       /\ Book.shelf (r.2 book) = None
       /\ Book.isHeld (r.2 book) = false
       /\ (forall other, other <> book -> r.2 other = h other).
Proof.
  intros Hwf Hok.
  assert (He : Shelf.hasEmptySlots this = true).
  { destruct (Shelf.hasEmptySlots this) eqn:He; [done|].
    unfold Shelf.addBook in Hok. by rewrite He in Hok. }
  assert (Hc : Book.color (h book) = Shelf.color this).
  { destruct (decide (Book.color (h book) = Shelf.color this)) as [|Hc]; [done|].
    unfold Shelf.addBook in Hok.
    rewrite He, (bool_decide_eq_false_2 _ Hc) in Hok. done. }
  destruct (addBook_success book this h He Hc) as (Hlt & Hle & _ & _ & Heq).
  pose proof (found_slot_null this Hwf He) as Hn.
  set (i := Shelf.scan (Shelf.capacity this) this 0) in *.
  assert (Hin : i < length (Shelf.books this))
    by (unfold Shelf.wf in Hwf; lia).
  exists i. rewrite Heq. cbn [fst snd].
  assert (Hs : Shelf.slot
                 (Shelf.set_books
                    (Shelf.store i (Some book) (Shelf.books this)) this) i
               = Some (Some book)).
  { unfold Shelf.slot. cbn. by apply store_lookup. }
  split; [exact Hs|]. cbn zeta.
  unfold Shelf.removeBook. rewrite Nat2Z.id, Hs.
  assert (Hlen : length (Shelf.books
                           (Shelf.set_books
                              (Shelf.store i (Some book) (Shelf.books this))
                              this))
                 = length (Shelf.books this))
    by (cbn; by rewrite store_inside, length_insert).
  rewrite Hlen.
  rewrite (bool_decide_eq_true_2 (0 <= Z.of_nat i)%Z) by lia.
  rewrite (bool_decide_eq_true_2 (Z.of_nat i < _)%Z) by lia.
  cbn [andb fst snd].
  split; [reflexivity|]. split.
  { rewrite set_books_twice.
    change (Shelf.books (Shelf.set_books ?v this)) with v.
    rewrite (store_inside i (Some book)) by done.
    rewrite store_inside by (by rewrite length_insert).
    rewrite list_insert_insert_eq, list_insert_id by exact Hn.
    apply set_books_id. }
  rewrite !fn_lookup_insert. do 3 (split; [reflexivity|]).
  intros other Hne. rewrite !fn_lookup_insert_ne by done. reflexivity.
Qed.

Lemma add_then_remove_witness :
  Shelf.wf Sample.redShelf
  /\ (Shelf.addBook 1 Sample.redShelf Sample.library).1.1 = true
  /\ exists index : nat,
       Shelf.slot (Shelf.addBook 1 Sample.redShelf Sample.library).1.2 index
       = Some (Some 1).
Proof.
  assert (Hwf : Shelf.wf Sample.redShelf) by reflexivity.
  split; [exact Hwf|]. split; [reflexivity|].
  destruct (add_then_remove 1 Sample.redShelf Sample.library Hwf eq_refl)
    as (i & Hi & _).
  by exists i.
Defined.

(** ** Shelf: removing a random book *)

Section ShelfRandom.

Import Shelf.

Implicit Types (l : list (option BookRef)) (this : Shelf.t).

(** The collected indices are as many as the books, and each is the index
    of an occupied slot. *)
Lemma bookIndicesFrom_length l : forall i,
  length (bookIndicesFrom i l)
  = length (filter (fun v : option BookRef => v <> None) l).
Proof.
  induction l as [|a l IH]; intros i; [done|].
  destruct a as [b|]; cbn [bookIndicesFrom].
  - rewrite filter_cons_True by done. cbn. by rewrite IH.
  - rewrite filter_cons_False by naive_solver. apply IH.
Qed.

Lemma bookIndicesFrom_lookup l : forall i n k,
  bookIndicesFrom i l !! n = Some k ->
  i <= k /\ exists b, l !! (k - i) = Some (Some b).
Proof.
  induction l as [|a l IH]; intros i n k Hk; [done|].
  destruct a as [b|]; cbn [bookIndicesFrom] in Hk.
  - destruct n as [|n]; cbn in Hk.
    + injection Hk as <-. split; [lia|]. exists b. by rewrite Nat.sub_diag.
    + destruct (IH _ _ _ Hk) as (Hle & b' & Hb').
      split; [lia|]. exists b'.
      replace (k - i) with (S (k - S i)) by lia. exact Hb'.
  - destruct (IH _ _ _ Hk) as (Hle & b' & Hb').
    split; [lia|]. exists b'.
    replace (k - i) with (S (k - S i)) by lia. exact Hb'.
Qed.

(** [Math.floor(Math.random() * n)] is an index below [n]. *)
Lemma random_index (r : Qc) (n : nat) :
  (0 <= r)%Qc -> (r < 1)%Qc -> 0 < n ->
  (0 <= Num.floor (r * Num.ofNat n)%Qc < Z.of_nat n)%Z.
Proof.
  intros H0 H1 Hn.
  unfold Num.floor, Num.ofNat, Num.ofZ, Qcmult, Q2Qc, Qcle, Qclt in *.
  cbn [Qcanon.this] in *. rewrite !Qred_correct in *.
  assert (Hpos : (0 < Z.of_nat n # 1)%Q) by (unfold Qlt; cbn; lia).
  split.
  - change 0%Z with (Qfloor 0). apply Qfloor_resp_le.
    apply Qmult_le_0_compat; [exact H0|]. by apply Qlt_le_weak.
  - rewrite Zlt_Qlt.
    apply Qle_lt_trans with (r * (Z.of_nat n # 1))%Q; [apply Qfloor_le|].
    apply Qlt_le_trans with (1 * (Z.of_nat n # 1))%Q.
    + by apply Qmult_lt_compat_r.
    + rewrite Qmult_1_l. apply Qle_refl.
Qed.

End ShelfRandom.

(** X10: [removeRandomBook()] on a shelf without books returns null,
    changes nothing and draws no random number.  On a shelf with books, for
    a draw in [0, 1), it returns a book that occupied some slot, nulls
    exactly that slot, unshelves that book only, lowers the number of books
    by exactly one and draws exactly one random number. *)
Theorem removeRandomBook_spec (this : Shelf.t) (h : Heap) (g : Random.t) :
  (Shelf.bookCount this = 0 ->
   Shelf.removeRandomBook this h g = (None, this, h, g))
  /\ (0 < Shelf.bookCount this ->
      (0 <= Random.draws g (Random.cursor g))%Qc ->
      (Random.draws g (Random.cursor g) < 1)%Qc ->
      exists index book,
        Shelf.slot this index = Some (Some book)
        /\ Shelf.removeRandomBook this h g
           = (Some book,
              Shelf.set_books (<[index := None]> (Shelf.books this)) this,
              <[book := Book.unshelve (h book)]> h,
              Random.mk (Random.draws g) (S (Random.cursor g)))
        /\ S (Shelf.bookCount
                (Shelf.set_books (<[index := None]> (Shelf.books this)) this))
           = Shelf.bookCount this).
Proof.
  pose proof (bookIndicesFrom_length (Shelf.books this) 0) as Hlen.
  fold (Shelf.bookIndices this) in Hlen. fold (Shelf.bookCount this) in Hlen.
  split.
  - intros H0. unfold Shelf.removeRandomBook. cbn zeta.
    rewrite bool_decide_eq_true_2 by lia. reflexivity.
  - intros Hpos Hr0 Hr1.
    destruct (random_index _ (length (Shelf.bookIndices this)) Hr0 Hr1
                ltac:(lia)) as [Hk0 Hk1].
    set (k := Num.floor _) in *.
    destruct (lookup_lt_is_Some_2 (Shelf.bookIndices this) (Z.to_nat k)
                ltac:(lia)) as [index Hix].
    destruct (bookIndicesFrom_lookup _ _ _ _ Hix) as (_ & book & Hb).
    rewrite Nat.sub_0_r in Hb.
    exists index, book. split; [exact Hb|].
    pose proof (lookup_lt_Some _ _ _ Hb) as Hin.
    split.
    + unfold Shelf.removeRandomBook. cbn zeta.
      rewrite bool_decide_eq_false_2 by lia. cbn [Random.next].
      fold k. rewrite (bool_decide_eq_true_2 _ Hk0), Hix.
      unfold Shelf.removeBook, Shelf.slot. rewrite Nat2Z.id, Hb.
      rewrite (bool_decide_eq_true_2 (0 <= Z.of_nat index)%Z) by lia.
      rewrite (bool_decide_eq_true_2 (Z.of_nat index < _)%Z) by lia.
      cbn [andb]. by rewrite store_inside.
    + unfold Shelf.bookCount. cbn. by apply (count_clear _ _ book).
Qed.

Lemma removeRandomBook_spec_witness :
  0 < Shelf.bookCount Sample.fullShelf.1
  /\ exists index book,
       Shelf.slot Sample.fullShelf.1 index = Some (Some book)
       /\ (Shelf.removeRandomBook Sample.fullShelf.1 Sample.fullShelf.2
             (Random.const (Num.frac 1 2))).1.1.1 = Some book.
Proof.
  assert (Hpos : 0 < Shelf.bookCount Sample.fullShelf.1)
    by (vm_compute; lia).
  split; [exact Hpos|].
  destruct (proj2 (removeRandomBook_spec Sample.fullShelf.1 Sample.fullShelf.2
                     (Random.const (Num.frac 1 2)))
              Hpos ltac:(by vm_compute) ltac:(by vm_compute))
    as (index & book & Hs & Heq & _).
  exists index, book. split; [exact Hs|]. by rewrite Heq.
Defined.

(** ** Shelf: filling in order *)

Section ShelfFill.

Import Shelf.

Implicit Types (l bs : list BookRef) (this : Shelf.t).

(** A shelf whose first slots hold the books [l] and whose [m] other slots
    are null. *)
Lemma packed_count l m :
  length (filter (fun v : option BookRef => v <> None)
                 ((Some <$> l) ++ replicate m None))
  = length l.
Proof.
  rewrite filter_app, length_app.
  assert (A : forall l, filter (fun v : option BookRef => v <> None)
                               (Some <$> l) = Some <$> l).
  { clear. induction l as [|b l IH]; [done|].
    rewrite fmap_cons, filter_cons_True by done. by rewrite IH. }
  assert (B : forall m, filter (fun v : option BookRef => v <> None)
                               (replicate m None) = []).
  { clear. induction m as [|m IH]; [done|].
    change (replicate (S m) (@None BookRef))
      with (@None BookRef :: replicate m None).
    by rewrite filter_cons_False by naive_solver. }
  rewrite A, B, length_fmap. cbn. lia.
Qed.

Lemma packed_scan this l m :
  books this = (Some <$> l) ++ replicate (S m) None ->
  capacity this = length l + S m ->
  hasEmptySlots this = true /\ scan (capacity this) this 0 = length l.
Proof.
  intros Hb Hc.
  assert (He : hasEmptySlots this = true).
  { apply bool_decide_eq_true. unfold bookCount.
    rewrite Hb, packed_count. lia. }
  split; [exact He|].
  pose proof (scan_finds this He) as Hlt.
  destruct (scan_spec this (capacity this) 0 ltac:(lia)) as (_ & Hbelow & Hstop).
  specialize (Hstop Hlt).
  set (i := scan (capacity this) this 0) in *.
  destruct (Nat.lt_trichotomy i (length l)) as [Hi|[Hi|Hi]]; [|done|]; exfalso.
  - unfold slot in Hstop. rewrite Hb, lookup_app_l in Hstop
      by (by rewrite length_fmap).
    rewrite list_lookup_fmap in Hstop.
    destruct (lookup_lt_is_Some_2 l i Hi) as [b Hl]. by rewrite Hl in Hstop.
  - destruct (Hbelow (length l) ltac:(lia)) as [_ Ht].
    unfold slot in Ht. rewrite Hb, lookup_app_r in Ht
      by (by rewrite length_fmap).
    by rewrite length_fmap, Nat.sub_diag in Ht.
Qed.

Lemma addBook_packed book this h l m :
  books this = (Some <$> l) ++ replicate (S m) None ->
  capacity this = length l + S m ->
  Book.color (h book) = color this ->
  addBook book this h
  = (true,
     set_books ((Some <$> (l ++ [book])) ++ replicate m None) this,
     <[book := Book.shelve (Some (self this)) (h book)]> h).
Proof.
  intros Hb Hcap Hc.
  destruct (packed_scan this l m Hb Hcap) as [He Hi].
  destruct (addBook_success book this h He Hc) as (_ & _ & _ & _ & ->).
  rewrite Hi, Hb. f_equal. f_equal. f_equal.
  rewrite store_inside
    by (rewrite length_app, length_fmap, length_replicate; lia).
  rewrite insert_app_r_alt by (by rewrite length_fmap).
  rewrite length_fmap, Nat.sub_diag. cbn.
  by rewrite fmap_app, <- app_assoc.
Qed.

(** Adding a run of books of the shelf's colour, one after the other. *)
Lemma addBooks_packed bs : forall this h l m,
  books this = (Some <$> l) ++ replicate m None ->
  capacity this = length l + m ->
  length bs <= m ->
  (forall b, b ∈ bs -> Book.color (h b) = color this) ->
  let r := foldl (fun '(s, h) book =>
                    let '(_, s, h) := addBook book s h in (s, h))
                 (this, h) bs in
  r.1 = set_books ((Some <$> (l ++ bs)) ++ replicate (m - length bs) None) this.
Proof.
  induction bs as [|b bs IH]; intros this h l m Hb Hcap Hlen Hcol; cbn zeta.
  - cbn. rewrite app_nil_r, Nat.sub_0_r, <- Hb. symmetry. apply set_books_id.
  - cbn in Hlen. destruct m as [|m]; [lia|].
    cbn [foldl].
    rewrite (addBook_packed b this h l m Hb Hcap)
      by (apply Hcol; left).
    rewrite IH with (l := l ++ [b]) (m := m).
    + rewrite set_books_twice, <- app_assoc. reflexivity.
    + reflexivity.
    + cbn. rewrite length_app. cbn. lia.
    + lia.
    + intros b' Hb'. cbn.
      destruct (decide (b = b')) as [<-|Hne].
      * rewrite fn_lookup_insert. cbn. apply Hcol. left.
      * rewrite fn_lookup_insert_ne by done. apply Hcol. by right.
Qed.

End ShelfFill.

(** X11: first-fit fills a new shelf in order.  Adding, one after the other,
    at most [capacity] books of the shelf's colour to a newly built shelf
    puts them in slots 0, 1, 2, ... in the order of the calls and leaves
    the remaining slots null; the shelf then has empty slots exactly when
    fewer than [capacity] books were added. *)
Theorem new_shelf_fills_in_order (me : ShelfRef) (px py : Qc) (c : string)
    (cap : nat) (h : Heap) (bs : list BookRef) :
  length bs <= cap ->
  (forall b, b ∈ bs -> Book.color (h b) = c) ->
  let filled :=
    (foldl (fun '(s, h) book =>
              let '(_, s, h) := Shelf.addBook book s h in (s, h))
           (Shelf.new me px py c cap, h) bs).1 in
  Shelf.books filled = (Some <$> bs) ++ replicate (cap - length bs) None
  /\ (Shelf.hasEmptySlots filled = true <-> length bs < cap).
Proof.
  intros Hlen Hcol. cbn zeta.
  rewrite (addBooks_packed bs (Shelf.new me px py c cap) h [] cap);
    try done.
  cbn [app]. split; [reflexivity|].
  unfold Shelf.hasEmptySlots, Shelf.bookCount. cbn.
  rewrite packed_count. apply bool_decide_eq_true.
Qed.

Lemma new_shelf_fills_in_order_witness :
  length (3 :: 1 :: 2 :: nil) <= 6
  /\ Shelf.books
       (foldl (fun '(s, h) book =>
                 let '(_, s, h) := Shelf.addBook book s h in (s, h))
              (Shelf.new 0 0%Qc 0%Qc "red" 6, Sample.library)
              (3 :: 1 :: 2 :: nil)).1
     = (Some <$> (3 :: 1 :: 2 :: nil)) ++ replicate (6 - 3) None.
Proof.
  assert (Hlen : length (3 :: 1 :: 2 :: nil) <= 6) by (cbn; lia).
  split; [exact Hlen|].
  refine (proj1 (new_shelf_fills_in_order 0 0%Qc 0%Qc "red" 6 Sample.library
                   (3 :: 1 :: 2 :: nil) Hlen _)).
  intros b Hb. unfold Sample.library. cbn.
  destruct (decide (b = 7)) as [->|]; [|reflexivity].
  exfalso. rewrite !elem_of_cons, elem_of_nil in Hb. lia.
Defined.

Local Open Scope Qc_scope.

(** ** Shelf: the empty-slot glow *)

(** X12: [Shelf.update] writes the two glow fields only.  On a full shelf
    the glow is reset to 0 and the direction kept.  On a shelf with an
    empty slot the glow ends within [0.5, 1.0] when the play state has a
    player who carries a book of the shelf's colour, and within [0.3, 0.7]
    otherwise (no state, no player, or no carried book of that colour);
    the direction changes only to -1 at the upper bound or to +1 at the
    lower one. *)
Theorem shelf_update_glow (deltaTime : Qc) (state : option PlayState)
    (this : Shelf.t) (h : Heap) :
  let this' := Shelf.update deltaTime state this h in
  this' = Shelf.set_emptySlotGlowDirection (Shelf.emptySlotGlowDirection this')
            (Shelf.set_emptySlotGlow (Shelf.emptySlotGlow this') this)
  /\ (Shelf.playerHasMatchingBook state this h = true
      <-> exists st p book,
            state = Some st /\ player st = Some p
            /\ book ∈ carriedBooks p
            /\ Book.color (h book) = Shelf.color this)
  /\ (Shelf.hasEmptySlots this = false ->
      Shelf.emptySlotGlow this' = 0
      /\ Shelf.emptySlotGlowDirection this'
         = Shelf.emptySlotGlowDirection this)
  /\ (Shelf.hasEmptySlots this = true ->
      let lo := if Shelf.playerHasMatchingBook state this h
                then Num.frac 1 2 else Num.frac 3 10 in
      let hi := if Shelf.playerHasMatchingBook state this h
                then 1 else Num.frac 7 10 in
      lo <= Shelf.emptySlotGlow this' /\ Shelf.emptySlotGlow this' <= hi
      /\ (Shelf.emptySlotGlowDirection this'
          <> Shelf.emptySlotGlowDirection this ->
          (Shelf.emptySlotGlow this' = hi
           /\ Shelf.emptySlotGlowDirection this' = - (1))
          \/ (Shelf.emptySlotGlow this' = lo
              /\ Shelf.emptySlotGlowDirection this' = 1))).
Proof.
  cbn zeta. split; [|split; [|split]].
  - unfold Shelf.update. destruct (Shelf.hasEmptySlots this); cbn.
    + destruct (Num.geb _ _); [by destruct this|].
      destruct (Num.leb _ _); by destruct this.
    + by destruct this.
  - unfold Shelf.playerHasMatchingBook. split.
    + destruct state as [st|]; [|done].
      destruct (player st) as [p|] eqn:Hp; [|done].
      intros H. apply existsb_exists in H as (book & Hin & Hc).
      apply bool_decide_eq_true in Hc.
      exists st, p, book. repeat split; try done.
      by apply list_elem_of_In.
    + intros (st & p & book & -> & -> & Hin & Hc).
      apply existsb_exists. exists book. split.
      * by apply list_elem_of_In.
      * by apply bool_decide_eq_true.
  - intros He. unfold Shelf.update. by rewrite He.
  - intros He. unfold Shelf.update. rewrite He. cbn.
    destruct (Shelf.playerHasMatchingBook state this h); cbn.
    + destruct (Num.geb _ _) eqn:Hge; cbn.
      { split; [qc_lra|]. split; [qc_lra|]. intros _. by left. }
      destruct (Num.leb _ _) eqn:Hle; cbn.
      { split; [qc_lra|]. split; [qc_lra|]. intros _. by right. }
      apply leb_gt in Hge, Hle.
      split; [by apply Qclt_le_weak|]. split; [by apply Qclt_le_weak|].
      intros N. by destruct N.
    + destruct (Num.geb _ _) eqn:Hge; cbn.
      { split; [qc_lra|]. split; [qc_lra|]. intros _. by left. }
      destruct (Num.leb _ _) eqn:Hle; cbn.
      { split; [qc_lra|]. split; [qc_lra|]. intros _. by right. }
      apply leb_gt in Hge, Hle.
      split; [by apply Qclt_le_weak|]. split; [by apply Qclt_le_weak|].
      intros N. by destruct N.
Qed.

Lemma shelf_update_glow_witness :
  Shelf.hasEmptySlots Sample.redShelf = true
  /\ Num.frac 3 10
     <= Shelf.emptySlotGlow
          (Shelf.update (Num.frac 1 60) Sample.room Sample.redShelf
             Sample.library).
Proof.
  split; [reflexivity|].
  exact (proj1 (proj2 (proj2 (proj2 (shelf_update_glow (Num.frac 1 60)
                  Sample.room Sample.redShelf Sample.library))) eq_refl)).
Defined.

Local Close Scope Qc_scope.

(** ** Shelf: the outlines of the empty slots *)

Section ShelfOutlines.

Import Shelf.

Lemma outlines_closed_form this :
  emptySlotOutlines this
  = cell this <$> filter (fun i => emptyAt this i = true) (seq 0 6).
Proof.
  unfold emptySlotOutlines, outlineRow, outlineCell.
  cbn [seq foldl fst snd].
  rewrite !filter_cons, filter_nil.
  fold (emptyAt this 0) (emptyAt this 1) (emptyAt this 2)
       (emptyAt this 3) (emptyAt this 4) (emptyAt this 5).
  destruct (emptyAt this 0), (emptyAt this 1), (emptyAt this 2),
           (emptyAt this 3), (emptyAt this 4), (emptyAt this 5);
    reflexivity.
Qed.

Lemma filter_local {A} (P Q : A -> Prop) `{!forall x, Decision (P x)}
    `{!forall x, Decision (Q x)} (l : list A) :
  (forall x, x ∈ l -> P x <-> Q x) -> filter P l = filter Q l.
Proof.
  induction l as [|a l IH]; intros Hext; [done|].
  rewrite !filter_cons.
  assert (Ha : P a <-> Q a) by (apply Hext; left).
  rewrite IH by (intros x Hx; apply Hext; by right).
  destruct (decide (P a)), (decide (Q a)); [done|tauto|tauto|done].
Qed.

(** Counting the null slots by their indices. *)
Lemma count_null_indices (l : list (option BookRef)) : forall start n,
  length l <= n ->
  length (filter (fun i => l !! (i - start) = Some None) (seq start n))
  = length (filter (fun v : option BookRef => v = None) l).
Proof.
  induction l as [|a l IH]; intros start n Hlen.
  - rewrite (filter_local _ (fun _ => False)) by done.
    clear. generalize start. induction n as [|n IHn]; intros s; [done|].
    cbn [seq]. rewrite filter_cons_False by tauto. apply IHn.
  - cbn in Hlen. destruct n as [|n]; [lia|]. cbn [seq].
    rewrite (filter_cons _ start), Nat.sub_diag.
    rewrite (filter_cons _ a).
    rewrite (filter_local _ (fun i => l !! (i - S start) = Some None)).
    2:{ intros i Hi. apply elem_of_seq in Hi.
        replace (i - start) with (S (i - S start)) by lia. done. }
    specialize (IH (S start) n ltac:(lia)).
    destruct a as [b|]; cbn [lookup list_lookup].
    + rewrite decide_False by naive_solver.
      rewrite (decide_False (P := Some b = None)) by done. exact IH.
    + rewrite decide_True by done.
      rewrite (decide_True (P := @None BookRef = None)) by done.
      cbn. by rewrite IH.
Qed.

Lemma render_base b : Book.base (Book.render b) = Book.base b.
Proof.
  unfold Book.render, Book.renderOptimizedGlow.
  destruct (negb (Book.visible b)); [done|].
  destruct (negb (Book.isHeld b) && negb (Book.isShelved b)); [|done].
  destruct (negb (Book.glowCanvas b) || Book.glowNeedsUpdate b); done.
Qed.

End ShelfOutlines.

(** X13: the outlines [renderOptimizedEmptySlots] draws.  Walking its 2 by 3
    grid, it outlines exactly the slots with index below 6 that exist
    (index below [capacity]) and read empty, in index order, slot [i] at
    column [i mod 3] and row [i / 3]; so never more than 6, and an empty
    slot with index 6 or more gets none.  On a shelf whose array has
    [capacity] slots, with [capacity] at most 6, the number of outlines is
    [getEmptySlotCount()].  The outline of a slot is at the height at which
    [renderBooks] draws that slot's book. *)
Theorem emptySlotOutlines_grid (this : Shelf.t) :
  Shelf.emptySlotOutlines this
  = Shelf.cell this
    <$> filter (fun i => Shelf.emptyAt this i = true) (seq 0 6)
  /\ length (Shelf.emptySlotOutlines this) <= 6
  /\ (Shelf.wf this -> Shelf.capacity this <= 6 ->
      Z.of_nat (length (Shelf.emptySlotOutlines this))
      = Shelf.getEmptySlotCount this)
  /\ (forall i b,
        Book.y (Shelf.place this i b) = Shelf.ry (Shelf.cell this i)).
Proof.
  rewrite outlines_closed_form. split; [reflexivity|].
  rewrite length_fmap. split; [|split].
  - etrans; [apply length_filter|]. done.
  - intros Hwf Hcap. unfold Shelf.wf in Hwf.
    rewrite (list_filter_iff _
               (fun i => Shelf.books this !! (i - 0) = Some None)).
    2:{ intros i. rewrite Nat.sub_0_r.
        unfold Shelf.emptyAt, Shelf.slot. split.
        - intros H. apply andb_true_iff in H as [Hlt Ht].
          apply bool_decide_eq_true in Hlt.
          destruct (lookup_lt_is_Some_2 (Shelf.books this) i ltac:(lia))
            as [v Hv].
          rewrite Hv in *. by destruct v.
        - intros Hv. apply andb_true_iff. split.
          + apply bool_decide_eq_true.
            apply lookup_lt_Some in Hv. lia.
          + by rewrite Hv. }
    rewrite count_null_indices by lia.
    unfold Shelf.getEmptySlotCount, Shelf.bookCount.
    pose proof (slots_partition (Shelf.books this)). lia.
  - intros i b. unfold Shelf.place, Book.y. cbn zeta.
    by rewrite render_base.
Qed.

Lemma emptySlotOutlines_grid_witness :
  Shelf.wf Sample.redShelf /\ Shelf.capacity Sample.redShelf <= 6
  /\ Z.of_nat (length (Shelf.emptySlotOutlines Sample.redShelf))
     = Shelf.getEmptySlotCount Sample.redShelf.
Proof.
  assert (Hwf : Shelf.wf Sample.redShelf) by reflexivity.
  assert (Hcap : Shelf.capacity Sample.redShelf <= 6) by (cbn; lia).
  split; [exact Hwf|]. split; [exact Hcap|].
  exact (proj1 (proj2 (proj2 (emptySlotOutlines_grid Sample.redShelf)))
           Hwf Hcap).
Defined.

(** ** Shelf: what a render pass does to slots and books *)

Section ShelfPass.

Import Shelf.

(** The slots and the shelving flags after a whole pass. *)
Lemma renderBooks_slots this h :
  (renderBooks this h).1 = set_books (books (renderBooks this h).1) this
  /\ length (books (renderBooks this h).1) = length (books this)
  /\ (forall i, slot (renderBooks this h).1 i = healed this h (slot this i))
  /\ (forall r, Book.isShelved ((renderBooks this h).2 r)
                = Book.isShelved (h r)
                /\ Book.shelf ((renderBooks this h).2 r) = Book.shelf (h r)).
Proof.
  unfold renderBooks.
  destruct (renderBooks_prefix this h (length (books this)) ltac:(lia))
    as (Hset & Hlen & Hlow & _ & Hheap).
  destruct (foldl _ _ _) as [s1 h1]. cbn [fst snd] in *.
  split; [exact Hset|]. split; [exact Hlen|]. split; [|exact Hheap].
  intros i. destruct (decide (i < length (books this))) as [Hi|Hi].
  - by apply Hlow.
  - unfold slot. rewrite !lookup_ge_None_2 by lia. reflexivity.
Qed.

(** A valid book is shelved, so its [render] draws no glow and writes
    nothing. *)
Lemma place_shelved this i b :
  Book.isShelved b = true ->
  place this i b
  = Book.set_y (Entity.y (base this) + Num.ofZ 24
                + Num.ofNat (i / 3) * Num.ofZ 24)%Qc
      (Book.set_x (Entity.x (base this)
                   + Num.ofNat (i mod 3) * (Entity.width (base this) / Num.ofZ 3)
                   + (Entity.width (base this) / Num.ofZ 3 - Book.width b)
                     / Num.ofZ 2)%Qc b).
Proof.
  intros Hs. unfold place. cbn zeta. unfold Book.render.
  destruct (negb (Book.visible _)); [reflexivity|].
  replace (Book.isShelved (Book.set_y _ (Book.set_x _ b))) with true
    by (by rewrite <- Hs).
  by rewrite andb_false_r.
Qed.

(** The books after the callback ran at the indices below [k]: a book
    that no valid slot below [k] refers to is untouched, and a valid book
    with a single slot is placed once that slot has been visited. *)
Lemma renderBooks_heap_prefix (this : t) (h : Heap) (k : nat) :
  k <= length (books this) ->
  let st := foldl (fun st index => renderSlot index st) (this, h) (seq 0 k) in
  (forall r,
     (forall j, j < k -> slot this j = Some (Some r) -> valid this h r = false) ->
     st.2 r = h r)
  /\ (forall r i,
        i < k -> slot this i = Some (Some r) -> valid this h r = true ->
        (forall j, j <> i -> slot this j <> Some (Some r)) ->
        st.2 r = place this i (h r)).
Proof.
  induction k as [|k IH]; intros Hk; cbn zeta.
  - split; [done|]. intros r i Hi. lia.
  - rewrite seq_S, foldl_app. cbn [foldl Nat.add].
    destruct (IH ltac:(lia)) as (HA & HB).
    destruct (renderBooks_prefix this h k ltac:(lia))
      as (Hset & _ & _ & Hhigh & Hheap).
    destruct (foldl _ _ (seq 0 k)) as [s1 h1]. cbn [fst snd] in *.
    assert (Hself : self s1 = self this) by (by rewrite Hset).
    assert (Hbase : base s1 = base this) by (by rewrite Hset).
    unfold renderSlot. rewrite (Hhigh k ltac:(lia)).
    destruct (slot this k) as [[book|]|] eqn:Hs; cbn [fst snd].
    + destruct (Hheap book) as [Hsh Hrf]. rewrite Hsh, Hrf, Hself.
      fold (valid this h book). 
      destruct (valid this h book) eqn:Hv.
      * (* the slot is valid: its book is placed *)
        replace (negb (Book.isShelved (h book))
                 || negb (bool_decide (Book.shelf (h book) = Some (self this))))
          with false
          by (unfold valid in Hv; apply andb_true_iff in Hv as [-> ->]; done).
        cbn [fst snd]. split.
        -- intros r Hr. destruct (decide (book = r)) as [<-|Hne].
           ++ rewrite (Hr k ltac:(lia) Hs) in Hv. done.
           ++ rewrite fn_lookup_insert_ne by done.
              apply HA. intros j Hj. apply Hr. lia.
        -- intros r i Hi Hsi Hvi Huniq.
           destruct (decide (i = k)) as [->|Hik].
           ++ assert (r = book) as -> by congruence.
              rewrite fn_lookup_insert.
              rewrite (HA book).
              ** unfold place. by rewrite Hbase.
              ** intros j Hj Hsj. exfalso. apply (Huniq j); [lia|done].
           ++ assert (book <> r)
                by (intros ->; apply (Huniq k); [lia|done]).
              rewrite fn_lookup_insert_ne by done.
              apply HB; [lia|done..].
      * (* the slot is stale: no book is touched *)
        replace (negb (Book.isShelved (h book))
                 || negb (bool_decide (Book.shelf (h book) = Some (self this))))
          with true
          by (unfold valid in Hv; destruct (Book.isShelved (h book));
              destruct (bool_decide _); done).
        cbn [fst snd]. split.
        -- intros r Hr. apply HA. intros j Hj. apply Hr. lia.
        -- intros r i Hi Hsi Hvi Huniq.
           destruct (decide (i = k)) as [->|Hik]; [congruence|].
           apply HB; [lia|done..].
    + split.
      * intros r Hr. apply HA. intros j Hj. apply Hr. lia.
      * intros r i Hi Hsi Hvi Huniq.
        destruct (decide (i = k)) as [->|Hik]; [congruence|].
        apply HB; [lia|done..].
    + split.
      * intros r Hr. apply HA. intros j Hj. apply Hr. lia.
      * intros r i Hi Hsi Hvi Huniq.
        destruct (decide (i = k)) as [->|Hik]; [congruence|].
        apply HB; [lia|done..].
Qed.

Lemma renderBooks_heap this h :
  (forall r,
     (forall j, slot this j = Some (Some r) -> valid this h r = false) ->
     (renderBooks this h).2 r = h r)
  /\ (forall r i,
        slot this i = Some (Some r) -> valid this h r = true ->
        (forall j, j <> i -> slot this j <> Some (Some r)) ->
        (renderBooks this h).2 r = place this i (h r)).
Proof.
  unfold renderBooks.
  destruct (renderBooks_heap_prefix this h (length (books this)) ltac:(lia))
    as [HA HB].
  split.
  - intros r Hr. apply HA. intros j _. apply Hr.
  - intros r i Hs Hv Hu. apply HB; [|done..].
    unfold slot in Hs. by apply lookup_lt_Some in Hs.
Qed.

End ShelfPass.

(** X14: what a render pass writes to the books.  A book that sits in
    exactly one slot, and is valid there (shelved, referring back to this
    shelf), ends the pass with its position set to the grid cell of that
    slot (column [i mod 3], row [i / 3], centred in the column) and
    nothing else changed, and stays in its slot; a book that no slot holds,
    or that is stale wherever it is held, is not touched at all. *)
Theorem renderBooks_places (this : Shelf.t) (h : Heap) :
  (forall book i,
     Shelf.slot this i = Some (Some book) ->
     Shelf.valid this h book = true ->
     (forall j, j <> i -> Shelf.slot this j <> Some (Some book)) ->
     (Shelf.renderBooks this h).2 book
     = Book.set_y (Entity.y (Shelf.base this) + Num.ofZ 24
                   + Num.ofNat (i / 3) * Num.ofZ 24)%Qc
         (Book.set_x (Entity.x (Shelf.base this)
                      + Num.ofNat (i mod 3)
                        * (Entity.width (Shelf.base this) / Num.ofZ 3)
                      + (Entity.width (Shelf.base this) / Num.ofZ 3
                         - Book.width (h book)) / Num.ofZ 2)%Qc
            (h book))
     /\ Shelf.slot (Shelf.renderBooks this h).1 i = Some (Some book))
  /\ (forall r,
        (forall j, Shelf.slot this j = Some (Some r) ->
                   Shelf.valid this h r = false) ->
        (Shelf.renderBooks this h).2 r = h r).
Proof.
  destruct (renderBooks_heap this h) as [HA HB].
  destruct (renderBooks_slots this h) as (_ & _ & Hslot & _).
  split; [|exact HA].
  intros book i Hs Hv Hu. split.
  - rewrite (HB book i Hs Hv Hu). apply place_shelved.
    unfold Shelf.valid in Hv. by apply andb_true_iff in Hv as [-> _].
  - rewrite Hslot, Hs. cbn. by rewrite Hv.
Qed.

Lemma renderBooks_places_witness :
  Shelf.slot Sample.fullShelf.1 3 = Some (Some 4)
  /\ Shelf.valid Sample.fullShelf.1 Sample.fullShelf.2 4 = true
  /\ Shelf.slot (Shelf.renderBooks Sample.fullShelf.1 Sample.fullShelf.2).1 3
     = Some (Some 4).
Proof.
  split; [reflexivity|]. split; [reflexivity|].
  refine (proj2 (proj1 (renderBooks_places Sample.fullShelf.1
                          Sample.fullShelf.2) 4 3 eq_refl eq_refl _)).
  intros j Hj Hs. unfold Shelf.slot in Hs.
  replace (Shelf.books Sample.fullShelf.1) with Sample.sixBooks in Hs
    by (by vm_compute).
  destruct j as [|[|[|[|[|[|j]]]]]]; cbn in Hs; try discriminate Hs; lia.
Defined.

Local Open Scope Qc_scope.

Section ShelfGeometry.

Lemma ofNat_le (n m : nat) : (n <= m)%nat -> Num.ofNat n <= Num.ofNat m.
Proof.
  intros H. unfold Num.ofNat, Num.ofZ, Qcle, Q2Qc. cbn [Qcanon.this].
  rewrite !Qred_correct. unfold Qle. cbn. lia.
Qed.

(** A column of a 64 wide shelf holds a 16 wide book. *)
Lemma column_fits (sx : Qc) (c : nat) :
  (c < 3)%nat ->
  let X := sx + Num.ofNat c * (Num.ofZ 64 / Num.ofZ 3)
           + (Num.ofZ 64 / Num.ofZ 3 - Num.ofZ 16) / Num.ofZ 2 in
  sx <= X /\ X + Num.ofZ 16 <= sx + Num.ofZ 64.
Proof.
  intros Hc. cbn zeta.
  destruct c as [|[|[|c]]]; [| | |lia].
  all: change (Num.ofNat 0) with (Num.ofZ 0);
       change (Num.ofNat 1) with (Num.ofZ 1);
       change (Num.ofNat 2) with (Num.ofZ 2).
  all: replace (Num.ofZ 64 / Num.ofZ 3) with (Num.frac 64 3)
         by (apply Qc_is_canon; reflexivity).
  all: replace ((Num.frac 64 3 - Num.ofZ 16) / Num.ofZ 2) with (Num.frac 8 3)
         by (apply Qc_is_canon; reflexivity).
  all: split; qc_lra.
Qed.

(** The first three rows of a 96 high shelf hold a 20 high book; the
    fourth does not. *)
Lemma row_fits (sy : Qc) (r : nat) :
  let Y := sy + Num.ofZ 24 + Num.ofNat r * Num.ofZ 24 in
  ((r < 3)%nat -> sy <= Y /\ Y + Num.ofZ 20 <= sy + Num.ofZ 96)
  /\ ((3 <= r)%nat -> sy + Num.ofZ 96 < Y + Num.ofZ 20).
Proof.
  cbn zeta. split.
  - intros Hr. destruct r as [|[|[|r]]]; [| | |lia].
    all: change (Num.ofNat 0) with (Num.ofZ 0);
         change (Num.ofNat 1) with (Num.ofZ 1);
         change (Num.ofNat 2) with (Num.ofZ 2).
    all: split; qc_lra.
  - intros Hr. pose proof (ofNat_le 3 r Hr) as H. revert H.
    change (Num.ofNat 3) with (Num.ofZ 3).
    generalize (Num.ofNat r). intros m H. qc_lra.
Qed.

End ShelfGeometry.

(** X15: where the books are drawn.  On a shelf of the constructor's size
    (64 by 96) a valid book of the constructor's size (16 by 20), held in
    a single slot, is placed by the render pass wholly inside the shelf's
    box when its slot index is below 9, and so overlaps the shelf in the
    sense of the collision test of [Book.update]; from index 9 on it is
    placed so that it sticks out below the shelf. *)
Theorem rendered_book_inside_shelf (this : Shelf.t) (h : Heap)
    (book : BookRef) (i : nat) :
  Shelf.slot this i = Some (Some book) ->
  Shelf.valid this h book = true ->
  (forall j, j <> i -> Shelf.slot this j <> Some (Some book)) ->
  Entity.width (Shelf.base this) = Num.ofZ 64 ->
  Entity.height (Shelf.base this) = Num.ofZ 96 ->
  Book.width (h book) = Num.ofZ 16 ->
  Book.height (h book) = Num.ofZ 20 ->
  let b' := (Shelf.renderBooks this h).2 book in
  let sx := Entity.x (Shelf.base this) in
  let sy := Entity.y (Shelf.base this) in
  ((i < 9)%nat ->
   sx <= Book.x b' /\ Book.x b' + Book.width b' <= sx + Num.ofZ 64
   /\ sy <= Book.y b' /\ Book.y b' + Book.height b' <= sy + Num.ofZ 96
   /\ Book.overlaps b' (Shelf.base this) = true)
  /\ ((9 <= i)%nat -> sy + Num.ofZ 96 < Book.y b' + Book.height b').
Proof.
  intros Hs Hv Hu Hw Hh Hbw Hbh. cbn zeta.
  destruct (renderBooks_heap this h) as [_ HB].
  rewrite (HB book i Hs Hv Hu), place_shelved
    by (unfold Shelf.valid in Hv; by apply andb_true_iff in Hv as [-> _]).
  unfold Book.x, Book.y, Book.width, Book.height, Book.overlaps.
  cbn -[Nat.div Nat.modulo].
  fold (Book.width (h book)) (Book.height (h book)).
  rewrite Hw, Hh, Hbw, Hbh.
  destruct (row_fits (Entity.y (Shelf.base this)) (i / 3)) as [Hrow Hlow].
  split.
  - intros Hi.
    destruct (column_fits (Entity.x (Shelf.base this)) (i mod 3))
      as [Hx1 Hx2]; [apply Nat.mod_upper_bound; lia|].
    destruct Hrow as [Hy1 Hy2];
      [apply Nat.Div0.div_lt_upper_bound; lia|].
    do 4 (split; [assumption|]).
    apply negb_true_iff. unfold Num.gtb.
    repeat (apply orb_false_iff; split); apply ltb_ge.
    + revert Hx1. generalize (Entity.x (Shelf.base this)
        + Num.ofNat (i mod 3) * (Num.ofZ 64 / Num.ofZ 3)
        + (Num.ofZ 64 / Num.ofZ 3 - Num.ofZ 16) / Num.ofZ 2).
      intros X Hx1. qc_lra.
    + revert Hx2. generalize (Entity.x (Shelf.base this)
        + Num.ofNat (i mod 3) * (Num.ofZ 64 / Num.ofZ 3)
        + (Num.ofZ 64 / Num.ofZ 3 - Num.ofZ 16) / Num.ofZ 2).
      intros X Hx2. qc_lra.
    + revert Hy1. generalize (Entity.y (Shelf.base this) + Num.ofZ 24
        + Num.ofNat (i / 3) * Num.ofZ 24).
      intros Y Hy1. qc_lra.
    + revert Hy2. generalize (Entity.y (Shelf.base this) + Num.ofZ 24
        + Num.ofNat (i / 3) * Num.ofZ 24).
      intros Y Hy2. qc_lra.
  - intros Hi. apply Hlow. apply Nat.div_le_lower_bound; lia.
Qed.

Lemma rendered_book_inside_shelf_witness :
  Shelf.slot Sample.fullShelf.1 3 = Some (Some 4)
  /\ Shelf.valid Sample.fullShelf.1 Sample.fullShelf.2 4 = true
  /\ Book.overlaps
       ((Shelf.renderBooks Sample.fullShelf.1 Sample.fullShelf.2).2 4)
       (Shelf.base Sample.fullShelf.1) = true.
Proof.
  split; [reflexivity|]. split; [reflexivity|].
  assert (Hu : forall j, j <> 3%nat ->
                 Shelf.slot Sample.fullShelf.1 j <> Some (Some 4%nat)).
  { intros j Hj Hs. unfold Shelf.slot in Hs.
    replace (Shelf.books Sample.fullShelf.1) with Sample.sixBooks in Hs
      by (by vm_compute).
    destruct j as [|[|[|[|[|[|j]]]]]]; cbn in Hs; try discriminate Hs; lia. }
  pose proof (rendered_book_inside_shelf Sample.fullShelf.1 Sample.fullShelf.2
                4%nat 3%nat eq_refl eq_refl Hu eq_refl eq_refl eq_refl eq_refl)
    as H.
  exact (proj2 (proj2 (proj2 (proj2 (proj1 H ltac:(lia)))))).
Defined.

Local Close Scope Qc_scope.

(** ** Shelf: the back-reference protocol *)

Section ShelfProtocol.

Import Shelf.

Lemma addBook_ok_inv book this h :
  (addBook book this h).1.1 = true ->
  hasEmptySlots this = true /\ Book.color (h book) = color this.
Proof.
  intros Hok. unfold addBook in Hok.
  destruct (hasEmptySlots this); [|done]. split; [done|].
  destruct (decide (Book.color (h book) = color this)) as [|Hc]; [done|].
  by rewrite (bool_decide_eq_false_2 _ Hc) in Hok.
Qed.

Lemma removeBook_ok_inv index this h book :
  (removeBook index this h).1.1 = Some book ->
  (0 <= index < Z.of_nat (length (books this)))%Z
  /\ slot this (Z.to_nat index) = Some (Some book)
  /\ removeBook index this h
     = (Some book, set_books (<[Z.to_nat index := None]> (books this)) this,
        <[book := Book.unshelve (h book)]> h).
Proof.
  unfold removeBook. intros H.
  destruct (bool_decide (0 <= index)%Z) eqn:Hlo; [|done].
  destruct (bool_decide (index < _)%Z) eqn:Hhi; [|done].
  apply bool_decide_eq_true in Hlo, Hhi. cbn [andb] in *.
  destruct (slot this (Z.to_nat index)) as [[b|]|] eqn:Hs; [|done..].
  cbn in H. injection H as ->.
  split; [lia|]. split; [done|]. by rewrite store_inside by lia.
Qed.

(** A pass never adds a book, and a second pass finds nothing to heal. *)
Lemma healed_count (l1 l : list (option BookRef)) :
  length l1 = length l ->
  (forall i b, l1 !! i = Some (Some b) -> l !! i = Some (Some b)) ->
  length (filter (fun v : option BookRef => v <> None) l1)
  <= length (filter (fun v : option BookRef => v <> None) l).
Proof.
  revert l. induction l1 as [|a l1 IH]; intros l Hlen H.
  - cbn. lia.
  - destruct l as [|c l]; [done|]. cbn in Hlen.
    assert (IH' := IH l ltac:(lia) (fun i b => H (S i) b)).
    destruct a as [b|].
    + pose proof (H 0 b eq_refl) as E. cbn in E. injection E as ->.
      rewrite !filter_cons_True by done. cbn. lia.
    + rewrite (filter_cons_False _ None) by naive_solver.
      rewrite filter_cons. destruct (decide (c <> None)); cbn; lia.
Qed.

End ShelfProtocol.

(** X16: the back-reference protocol between shelf and book.  A successful
    [addBook] leaves the book valid for the shelf (shelved, referring back
    to it), so a render pass keeps every slot that holds it.  A
    [removeBook] that returns a book leaves that book not valid for the
    shelf, so a render pass nulls every slot that still holds it. *)
Theorem add_remove_and_render (book : BookRef) (this : Shelf.t) (h : Heap) :
  ((Shelf.addBook book this h).1.1 = true ->
   let s1 := (Shelf.addBook book this h).1.2 in
   let h1 := (Shelf.addBook book this h).2 in
   Shelf.valid s1 h1 book = true
   /\ (exists i, Shelf.slot s1 i = Some (Some book))
   /\ (forall j, Shelf.slot s1 j = Some (Some book) ->
                 Shelf.slot (Shelf.renderBooks s1 h1).1 j = Some (Some book)))
  /\ (forall index,
        (Shelf.removeBook index this h).1.1 = Some book ->
        let s1 := (Shelf.removeBook index this h).1.2 in
        let h1 := (Shelf.removeBook index this h).2 in
        Shelf.valid s1 h1 book = false
        /\ Shelf.slot s1 (Z.to_nat index) = Some None
        /\ (forall j, Shelf.slot s1 j = Some (Some book) ->
                      Shelf.slot (Shelf.renderBooks s1 h1).1 j = Some None)).
Proof.
  split.
  - intros Hok. destruct (addBook_ok_inv _ _ _ Hok) as [He Hc].
    destruct (addBook_success book this h He Hc) as (_ & Hle & _ & _ & ->).
    cbn [fst snd].
    assert (Hv : Shelf.valid
                   (Shelf.set_books
                      (Shelf.store (Shelf.scan (Shelf.capacity this) this 0)
                         (Some book) (Shelf.books this)) this)
                   (<[book := Book.shelve (Some (Shelf.self this)) (h book)]> h)
                   book = true).
    { unfold Shelf.valid. rewrite fn_lookup_insert. cbn.
      by rewrite bool_decide_eq_true_2. }
    split; [exact Hv|]. split.
    + eexists. unfold Shelf.slot. cbn. by apply store_lookup.
    + intros j Hj.
      destruct (renderBooks_slots
                  (Shelf.set_books
                     (Shelf.store (Shelf.scan (Shelf.capacity this) this 0)
                        (Some book) (Shelf.books this)) this)
                  (<[book := Book.shelve (Some (Shelf.self this)) (h book)]> h))
        as (_ & _ & Hslot & _).
      rewrite Hslot, Hj. cbn. by rewrite Hv.
  - intros index Hr.
    destruct (removeBook_ok_inv _ _ _ _ Hr) as (Hrange & Hs & ->).
    cbn [fst snd].
    assert (Hv : Shelf.valid
                   (Shelf.set_books
                      (<[Z.to_nat index := None]> (Shelf.books this)) this)
                   (<[book := Book.unshelve (h book)]> h) book = false).
    { unfold Shelf.valid. rewrite fn_lookup_insert. reflexivity. }
    split; [exact Hv|]. split.
    + unfold Shelf.slot. cbn. apply list_lookup_insert_eq. lia.
    + intros j Hj.
      destruct (renderBooks_slots
                  (Shelf.set_books
                     (<[Z.to_nat index := None]> (Shelf.books this)) this)
                  (<[book := Book.unshelve (h book)]> h))
        as (_ & _ & Hslot & _).
      rewrite Hslot, Hj. cbn. by rewrite Hv.
Qed.

Lemma add_remove_and_render_witness :
  (Shelf.addBook 1 Sample.redShelf Sample.library).1.1 = true
  /\ Shelf.valid (Shelf.addBook 1 Sample.redShelf Sample.library).1.2
       (Shelf.addBook 1 Sample.redShelf Sample.library).2 1 = true.
Proof.
  split; [reflexivity|].
  exact (proj1 (proj1 (add_remove_and_render 1 Sample.redShelf Sample.library)
                  eq_refl)).
Defined.

(** X17: [addBook] does not look for the book on the shelf.  If the book
    already sits in a slot and the call succeeds, the book then sits in two
    different slots and is counted twice. *)
Theorem addBook_allows_duplicates (book : BookRef) (this : Shelf.t)
    (h : Heap) (j : nat) :
  Shelf.wf this ->
  Shelf.slot this j = Some (Some book) ->
  (Shelf.addBook book this h).1.1 = true ->
  let s1 := (Shelf.addBook book this h).1.2 in
  Shelf.slot s1 j = Some (Some book)
  /\ (exists i, i <> j /\ Shelf.slot s1 i = Some (Some book))
  /\ Shelf.bookCount s1 = S (Shelf.bookCount this).
Proof.
  intros Hwf Hj Hok. destruct (addBook_ok_inv _ _ _ Hok) as [He Hc].
  pose proof (found_slot_null this Hwf He) as Hn.
  destruct (addBook_success book this h He Hc) as (Hlt & Hle & _ & _ & ->).
  cbn [fst snd].
  set (i := Shelf.scan (Shelf.capacity this) this 0) in *.
  assert (Hij : i <> j) by (intros ->; congruence).
  assert (Hin : i < length (Shelf.books this))
    by (unfold Shelf.wf in Hwf; lia).
  split; [|split].
  - unfold Shelf.slot. cbn. rewrite store_lookup_ne by done. exact Hj.
  - exists i. split; [exact Hij|]. unfold Shelf.slot. cbn.
    by apply store_lookup.
  - unfold Shelf.bookCount. cbn. rewrite store_inside by exact Hin.
    by apply count_fill.
Qed.

Lemma addBook_allows_duplicates_witness :
  let s := (Shelf.addBook 1 Sample.redShelf Sample.library).1.2 in
  let h := (Shelf.addBook 1 Sample.redShelf Sample.library).2 in
  Shelf.wf s /\ Shelf.slot s 0 = Some (Some 1)
  /\ (Shelf.addBook 1 s h).1.1 = true
  /\ exists i, i <> 0 /\ Shelf.slot (Shelf.addBook 1 s h).1.2 i = Some (Some 1).
Proof.
  cbn zeta.
  assert (Hwf : Shelf.wf (Shelf.addBook 1 Sample.redShelf Sample.library).1.2)
    by reflexivity.
  split; [exact Hwf|]. split; [reflexivity|]. split; [reflexivity|].
  exact (proj1 (proj2 (addBook_allows_duplicates 1
           (Shelf.addBook 1 Sample.redShelf Sample.library).1.2
           (Shelf.addBook 1 Sample.redShelf Sample.library).2 0
           Hwf eq_refl eq_refl))).
Defined.

(** X18: a render pass never adds a book and is idempotent on the slots.
    After [renderBooks] the number of books is at most what it was, and a
    second pass, run right after the first, leaves the slot array as the
    first pass left it. *)
Theorem renderBooks_settles (this : Shelf.t) (h : Heap) :
  let s1 := (Shelf.renderBooks this h).1 in
  let h1 := (Shelf.renderBooks this h).2 in
  Shelf.bookCount s1 <= Shelf.bookCount this
  /\ Shelf.books (Shelf.renderBooks s1 h1).1 = Shelf.books s1.
Proof.
  cbn zeta.
  destruct (renderBooks_slots this h) as (Hset & Hlen & Hslot & Hflags).
  split.
  - apply healed_count; [exact Hlen|].
    intros i b Hb. specialize (Hslot i). unfold Shelf.slot in Hslot.
    rewrite Hb in Hslot. unfold Shelf.healed in Hslot.
    destruct (Shelf.books this !! i) as [[b'|]|]; try done.
    destruct (Shelf.valid this h b'); congruence.
  - destruct (renderBooks_slots (Shelf.renderBooks this h).1
                (Shelf.renderBooks this h).2) as (_ & _ & Hslot2 & _).
    apply list_eq. intros i. specialize (Hslot2 i). unfold Shelf.slot in *.
    rewrite Hslot2. specialize (Hslot i).
    destruct (Shelf.books (Shelf.renderBooks this h).1 !! i)
      as [[b|]|] eqn:Hb; [|done..].
    cbn.
    assert (Hv : Shelf.valid this h b = true).
    { unfold Shelf.healed in Hslot.
      destruct (Shelf.books this !! i) as [[b'|]|]; try done.
      destruct (Shelf.valid this h b') eqn:Hv'; congruence. }
    assert (Hv1 : Shelf.valid (Shelf.renderBooks this h).1
                    (Shelf.renderBooks this h).2 b = true).
    { unfold Shelf.valid in *. destruct (Hflags b) as [-> ->].
      by rewrite Hset. }
    by rewrite Hv1.
Qed.

Local Open Scope Qc_scope.

(** ** Book: stuck inside a shelf *)

Section BookStuck.

Import Book.

Lemma scaled_move (a dt m : Qc) :
  - m <= a -> a <= m -> 0 <= dt -> dt <= 1 -> - m <= a * dt /\ a * dt <= m.
Proof. intros H1 H2 H3 H4. to_Q. split; nra. Qed.

Lemma friction_reach (v : Qc) :
  Num.abs v <= topSpeed ->
  - reach <= v * Num.frac 9 10 /\ v * Num.frac 9 10 <= reach.
Proof.
  intros H. apply Qcabs_Qcle_condition in H as [H1 H2].
  unfold topSpeed, reach in *. split; qc_lra.
Qed.

Lemma bounce_speed (v r : Qc) :
  Num.abs v <= topSpeed -> 0 <= r -> r < 1 ->
  Num.abs (- (v * Num.frac 9 10) * Num.frac 1 2
           + (r - Num.frac 1 2) * Num.ofZ 20) <= topSpeed.
Proof.
  intros H H0 H1. apply Qcabs_Qcle_condition in H as [Ha Hb].
  apply Qcabs_Qcle_condition. unfold topSpeed in *. split; qc_lra.
Qed.

(** A box that is deep inside [s] still overlaps it after a move within
    [reach]. *)
Lemma overlaps_within_reach (this moved : t) (s : Entity.t) (dx dy : Qc) :
  deepInside this s ->
  - reach <= dx -> dx <= reach -> - reach <= dy -> dy <= reach ->
  x moved = x this + dx -> y moved = y this + dy ->
  width moved = width this -> height moved = height this ->
  overlaps moved s = true.
Proof.
  intros (D1 & D2 & D3 & D4) Hx1 Hx2 Hy1 Hy2 Ex Ey Ew Eh.
  unfold overlaps. rewrite Ex, Ey, Ew, Eh.
  apply negb_true_iff. unfold Num.gtb.
  repeat (apply orb_false_iff; split); apply ltb_ge.
  - revert D1 Hx1. generalize (x this) (width this) (Entity.x s) reach.
    intros. qc_lra.
  - revert D2 Hx2.
    generalize (x this) (Entity.width s) (Entity.x s) reach.
    intros. qc_lra.
  - revert D3 Hy1. generalize (y this) (height this) (Entity.y s) reach.
    intros. qc_lra.
  - revert D4 Hy2.
    generalize (y this) (Entity.height s) (Entity.y s) reach.
    intros. qc_lra.
Qed.

Lemma hits_member st shs s this :
  shelves st = Some shs -> s ∈ shs -> overlaps this s = true ->
  hits (Some st) this = true.
Proof.
  intros Hsh Hin Ho. unfold hits. rewrite Hsh.
  apply existsb_exists. exists s. split; [by apply list_elem_of_In|done].
Qed.

(** One frame of a free book deep inside a shelf of the state. *)
Lemma stuck_step st shs s dt this g :
  shelves st = Some shs -> s ∈ shs ->
  isHeld this = false -> isShelved this = false ->
  friction this = Num.frac 9 10 ->
  Num.abs (vx this) <= topSpeed -> Num.abs (vy this) <= topSpeed ->
  deepInside this s -> Random.ok g ->
  0 <= dt -> dt <= 1 ->
  let r := update dt (Some st) this g in
  x r.1 = x this /\ y r.1 = y this
  /\ Num.abs (vx r.1) <= topSpeed /\ Num.abs (vy r.1) <= topSpeed
  /\ Random.ok r.2.
Proof.
  intros Hsh Hin Hh Hs Hf Hvx Hvy Hdeep Hok Hdt0 Hdt1. cbn zeta.
  destruct (friction_reach _ Hvx) as [Ax1 Ax2].
  destruct (friction_reach _ Hvy) as [Ay1 Ay2].
  destruct (scaled_move _ dt _ Ax1 Ax2 Hdt0 Hdt1) as [Mx1 Mx2].
  destruct (scaled_move _ dt _ Ay1 Ay2 Hdt0 Hdt1) as [My1 My2].
  assert (Hhit : hits (Some st) (tentative dt this) = true).
  { apply (hits_member st shs s); [done..|].
    apply (overlaps_within_reach this _ s
             (vx this * Num.frac 9 10 * dt) (vy this * Num.frac 9 10 * dt));
      try done.
    - unfold tentative, move, applyFriction, x, vx. cbn. by rewrite Hf.
    - unfold tentative, move, applyFriction, y, vy. cbn. by rewrite Hf. }
  rewrite (update_hit _ _ _ _ Hh Hs Hhit). cbn zeta. cbn [fst snd].
  set (b := (bounce (x this) (y this) (tentative dt this) g).1).
  set (tl := pulse dt _).
  assert (Hb : base tl = base b) by apply tail_base.
  destruct (rest_base_box tl) as (Hx & Hy & _ & _).
  split; [unfold x; rewrite Hx, Hb; reflexivity|].
  split; [unfold y; rewrite Hy, Hb; reflexivity|].
  pose proof (rest_velocity tl) as Hv.
  destruct (Hok (Random.cursor g)) as [R1 R1'].
  destruct (Hok (S (Random.cursor g))) as [R2 R2'].
  pose proof (bounce_speed _ _ Hvx R1 R1') as Bx.
  pose proof (bounce_speed _ _ Hvy R2 R2') as By.
  assert (Ex : vx tl = - (vx this * Num.frac 9 10) * Num.frac 1 2
                       + (Random.draws g (Random.cursor g) - Num.frac 1 2)
                         * Num.ofZ 20)
    by (unfold vx at 1; rewrite Hb, <- Hf; reflexivity).
  assert (Ey : vy tl = - (vy this * Num.frac 9 10) * Num.frac 1 2
                       + (Random.draws g (S (Random.cursor g)) - Num.frac 1 2)
                         * Num.ofZ 20)
    by (unfold vy at 1; rewrite Hb, <- Hf; reflexivity).
  rewrite <- Ex in Bx. rewrite <- Ey in By.
  assert (Z0 : Num.abs 0 <= topSpeed) by (by vm_compute).
  destruct (_ && _) in Hv; injection Hv as -> ->; done.
Qed.

Lemma stuck_forever st shs s dts : forall this g,
  shelves st = Some shs -> s ∈ shs ->
  isHeld this = false -> isShelved this = false ->
  friction this = Num.frac 9 10 ->
  Num.abs (vx this) <= topSpeed -> Num.abs (vy this) <= topSpeed ->
  deepInside this s -> Random.ok g ->
  Forall (fun dt => 0 <= dt /\ dt <= 1) dts ->
  x (updates dts (Some st) this g).1 = x this
  /\ y (updates dts (Some st) this g).1 = y this.
Proof.
  induction dts as [|dt dts IH];
    intros this g Hsh Hin Hh Hs Hf Hvx Hvy Hdeep Hok Hdts; [done|].
  apply Forall_cons in Hdts as [[Hdt0 Hdt1] Hdts]. cbn [updates].
  destruct (stuck_step st shs s dt this g Hsh Hin Hh Hs Hf Hvx Hvy Hdeep Hok
              Hdt0 Hdt1) as (Hx & Hy & Hvx' & Hvy' & Hok').
  pose proof (update_identity dt (Some st) this g) as Hi.
  destruct (identity_flags _ _ Hi) as (Hh' & Hs' & _).
  pose proof (identity_friction _ _ Hi) as Hf'.
  assert (Hsize : width (update dt (Some st) this g).1 = width this
                  /\ height (update dt (Some st) this g).1 = height this)
    by (unfold identity in Hi; by inversion Hi).
  destruct (update dt (Some st) this g) as [this1 g1]. cbn [fst snd] in *.
  destruct (IH this1 g1) as [A B]; try done; try congruence.
  - unfold deepInside in *. destruct Hsize as [-> ->]. by rewrite Hx, Hy.
  - split; congruence.
Qed.

End BookStuck.

(** X19: a free book deep inside a shelf never gets out.  Let a book be
    neither held nor shelved, with the constructor's friction, at most
    [topSpeed] = 200/11 fast on each axis, and overlapping the box of one
    of the state's shelves with a margin of [reach] = 180/11 on every
    side.  Then through any sequence of frames of at most one second each,
    with random draws in [0, 1), its position never changes. *)
Theorem book_deep_inside_is_stuck (st : PlayState) (shs : list Entity.t)
    (s : Entity.t) (this : Book.t) (g : Random.t) (deltaTimes : list Qc) :
  shelves st = Some shs -> s ∈ shs ->
  Book.isHeld this = false -> Book.isShelved this = false ->
  Book.friction this = Num.frac 9 10 ->
  Num.abs (Book.vx this) <= Book.topSpeed ->
  Num.abs (Book.vy this) <= Book.topSpeed ->
  Book.deepInside this s -> Random.ok g ->
  Forall (fun dt => 0 <= dt /\ dt <= 1) deltaTimes ->
  Book.x (Book.updates deltaTimes (Some st) this g).1 = Book.x this
  /\ Book.y (Book.updates deltaTimes (Some st) this g).1 = Book.y this.
Proof. apply stuck_forever. Qed.

Local Close Scope Qc_scope.

Lemma book_deep_inside_is_stuck_witness :
  Book.deepInside Sample.droppedOnShelf
    (Entity.new 0%Qc 0%Qc (Num.ofZ 64) (Num.ofZ 96))
  /\ Book.x (Book.updates (Num.frac 1 60 :: Num.frac 1 30 :: nil)
               Sample.cornerRoom Sample.droppedOnShelf
               (Random.const (Num.frac 9 10))).1
     = Book.x Sample.droppedOnShelf.
Proof.
  assert (Hd : Book.deepInside Sample.droppedOnShelf
                 (Entity.new 0%Qc 0%Qc (Num.ofZ 64) (Num.ofZ 96)))
    by (repeat split; by vm_compute).
  split; [exact Hd|].
  refine (proj1 (book_deep_inside_is_stuck
                   {| player := None;
                      shelves := Some (Entity.new 0%Qc 0%Qc (Num.ofZ 64)
                                         (Num.ofZ 96) :: nil) |}
                   _ _ Sample.droppedOnShelf (Random.const (Num.frac 9 10))
                   (Num.frac 1 60 :: Num.frac 1 30 :: nil)
                   eq_refl _ eq_refl eq_refl eq_refl _ _ Hd _ _)).
  - left.
  - by vm_compute.
  - by vm_compute.
  - intros n. split; by vm_compute.
  - repeat constructor; by vm_compute.
Defined.

Local Open Scope Qc_scope.

Section ShelfTrap.

(** The grid cells of the first three rows lie deep inside a 64 by 96
    shelf, for a 16 by 20 book. *)
Lemma column_deep (sx : Qc) (c : nat) :
  (c < 3)%nat ->
  let X := sx + Num.ofNat c * (Num.ofZ 64 / Num.ofZ 3)
           + (Num.ofZ 64 / Num.ofZ 3 - Num.ofZ 16) / Num.ofZ 2 in
  sx + Book.reach <= X + Num.ofZ 16 /\ X + Book.reach <= sx + Num.ofZ 64.
Proof.
  intros Hc. cbn zeta. unfold Book.reach.
  destruct c as [|[|[|c]]]; [| | |lia].
  all: change (Num.ofNat 0) with (Num.ofZ 0);
       change (Num.ofNat 1) with (Num.ofZ 1);
       change (Num.ofNat 2) with (Num.ofZ 2).
  all: replace (Num.ofZ 64 / Num.ofZ 3) with (Num.frac 64 3)
         by (apply Qc_is_canon; reflexivity).
  all: replace ((Num.frac 64 3 - Num.ofZ 16) / Num.ofZ 2) with (Num.frac 8 3)
         by (apply Qc_is_canon; reflexivity).
  all: split; qc_lra.
Qed.

Lemma row_deep (sy : Qc) (r : nat) :
  (r < 3)%nat ->
  let Y := sy + Num.ofZ 24 + Num.ofNat r * Num.ofZ 24 in
  sy + Book.reach <= Y + Num.ofZ 20 /\ Y + Book.reach <= sy + Num.ofZ 96.
Proof.
  intros Hr. cbn zeta. unfold Book.reach.
  destruct r as [|[|[|r]]]; [| | |lia].
  all: change (Num.ofNat 0) with (Num.ofZ 0);
       change (Num.ofNat 1) with (Num.ofZ 1);
       change (Num.ofNat 2) with (Num.ofZ 2).
  all: split; qc_lra.
Qed.

(** A book standing in a cell of the first three rows, once unshelved, is
    a free book at rest deep inside the shelf. *)
Lemma cell_is_deep (e : Entity.t) (i : nat) (b : Book.t) :
  (i < 9)%nat ->
  Entity.width e = Num.ofZ 64 -> Entity.height e = Num.ofZ 96 ->
  Book.width b = Num.ofZ 16 -> Book.height b = Num.ofZ 20 ->
  Book.deepInside
    (Book.unshelve
       (Book.set_y (Entity.y e + Num.ofZ 24 + Num.ofNat (i / 3) * Num.ofZ 24)
          (Book.set_x (Entity.x e
                       + Num.ofNat (i mod 3) * (Entity.width e / Num.ofZ 3)
                       + (Entity.width e / Num.ofZ 3 - Book.width b)
                         / Num.ofZ 2) b)))
    e.
Proof.
  intros Hi Hw Hh Hbw Hbh. unfold Book.deepInside.
  unfold Book.x, Book.y, Book.width, Book.height.
  cbn -[Nat.div Nat.modulo].
  fold (Book.width b) (Book.height b). rewrite Hw, Hh, Hbw, Hbh.
  destruct (column_deep (Entity.x e) (i mod 3)) as [C1 C2];
    [apply Nat.mod_upper_bound; lia|].
  destruct (row_deep (Entity.y e) (i / 3)) as [R1 R2];
    [apply Nat.Div0.div_lt_upper_bound; lia|].
  done.
Qed.

End ShelfTrap.

(** X20: a book taken off its shelf by [removeBook] is trapped in it.  Take
    a shelf of the constructor's size with at most 9 slots, whose box is
    among the state's shelves, and a book of the constructor's size and
    friction that is not on it.  After a successful [addBook], a render
    pass and [removeBook] at the book's slot, the book is free (neither
    held nor shelved) and lies where the pass drew it; from then on, through
    any sequence of frames of at most one second with draws in [0, 1), its
    position never changes: every frame bounces it back. *)
Theorem removed_book_is_trapped (book : BookRef) (this : Shelf.t) (h : Heap)
    (st : PlayState) (shs : list Entity.t) (g : Random.t)
    (deltaTimes : list Qc) :
  Shelf.wf this -> (Shelf.capacity this <= 9)%nat ->
  Entity.width (Shelf.base this) = Num.ofZ 64 ->
  Entity.height (Shelf.base this) = Num.ofZ 96 ->
  shelves st = Some shs -> Shelf.base this ∈ shs ->
  Book.width (h book) = Num.ofZ 16 -> Book.height (h book) = Num.ofZ 20 ->
  Book.friction (h book) = Num.frac 9 10 ->
  (forall j, Shelf.slot this j <> Some (Some book)) ->
  (Shelf.addBook book this h).1.1 = true ->
  Random.ok g ->
  Forall (fun dt => 0 <= dt /\ dt <= 1) deltaTimes ->
  let s1 := (Shelf.addBook book this h).1.2 in
  let h1 := (Shelf.addBook book this h).2 in
  let s2 := (Shelf.renderBooks s1 h1).1 in
  let h2 := (Shelf.renderBooks s1 h1).2 in
  exists i : nat,
    Shelf.slot s2 i = Some (Some book)
    /\ (Shelf.removeBook (Z.of_nat i) s2 h2).1.1 = Some book
    /\ let free := (Shelf.removeBook (Z.of_nat i) s2 h2).2 book in
       Book.isHeld free = false /\ Book.isShelved free = false
       /\ Book.overlaps free (Shelf.base this) = true
       /\ Book.x (Book.updates deltaTimes (Some st) free g).1 = Book.x free
       /\ Book.y (Book.updates deltaTimes (Some st) free g).1 = Book.y free.
Proof.
  intros Hwf Hcap Hw Hh Hsh Hin Hbw Hbh Hf Hfresh Hok Hg Hdts. cbn zeta.
  destruct (addBook_ok_inv _ _ _ Hok) as [He Hc].
  destruct (addBook_success book this h He Hc) as (Hlt & Hle & _ & _ & ->).
  cbn [fst snd].
  set (i := Shelf.scan (Shelf.capacity this) this 0) in *.
  set (s1 := Shelf.set_books _ this).
  set (h1 := <[book := _]> h).
  assert (Hi : (i < length (Shelf.books this))%nat)
    by (unfold Shelf.wf in Hwf; lia).
  assert (Hs1 : Shelf.slot s1 i = Some (Some book))
    by (unfold Shelf.slot; cbn; by apply store_lookup).
  assert (Hu1 : forall j, j <> i -> Shelf.slot s1 j <> Some (Some book)).
  { intros j Hj. unfold Shelf.slot. cbn. rewrite store_lookup_ne by done.
    apply Hfresh. }
  assert (Hb1 : h1 book = Book.shelve (Some (Shelf.self this)) (h book))
    by (subst h1; by rewrite fn_lookup_insert).
  assert (Hv1 : Shelf.valid s1 h1 book = true).
  { unfold Shelf.valid. rewrite Hb1. cbn. by rewrite bool_decide_eq_true_2. }
  destruct (renderBooks_heap s1 h1) as [_ HB].
  destruct (renderBooks_slots s1 h1) as (Hset & Hlen & Hslot & _).
  pose proof (HB book i Hs1 Hv1 Hu1) as Hb2.
  rewrite place_shelved in Hb2 by (by rewrite Hb1).
  assert (Hs2 : Shelf.slot (Shelf.renderBooks s1 h1).1 i = Some (Some book))
    by (rewrite Hslot, Hs1; cbn; by rewrite Hv1).
  exists i. split; [exact Hs2|].
  assert (Hrem : Shelf.removeBook (Z.of_nat i) (Shelf.renderBooks s1 h1).1
                   (Shelf.renderBooks s1 h1).2
                 = (Some book,
                    Shelf.set_books
                      (Shelf.store i None
                         (Shelf.books (Shelf.renderBooks s1 h1).1))
                      (Shelf.renderBooks s1 h1).1,
                    <[book := Book.unshelve ((Shelf.renderBooks s1 h1).2 book)]>
                      ((Shelf.renderBooks s1 h1).2))).
  { unfold Shelf.removeBook. rewrite Nat2Z.id, Hs2, Hlen.
    assert (Hl1 : length (Shelf.books s1) = length (Shelf.books this))
      by (subst s1; cbn; by rewrite store_inside, length_insert).
    rewrite Hl1.
    rewrite (bool_decide_eq_true_2 (0 <= Z.of_nat i)%Z) by lia.
    rewrite (bool_decide_eq_true_2 (Z.of_nat i < _)%Z) by lia.
    reflexivity. }
  rewrite Hrem. cbn [fst snd]. split; [reflexivity|].
  rewrite fn_lookup_insert, Hb2.
  change (Shelf.base s1) with (Shelf.base this).
  change (Book.width (h1 book)) with (Book.width (h1 book)).
  assert (Hbw1 : Book.width (h1 book) = Num.ofZ 16)
    by (rewrite Hb1; exact Hbw).
  assert (Hbh1 : Book.height (h1 book) = Num.ofZ 20)
    by (rewrite Hb1; exact Hbh).
  pose proof (cell_is_deep (Shelf.base this) i (h1 book) ltac:(lia)
                Hw Hh Hbw1 Hbh1) as Hdeep.
  clear Hrem. set (free := Book.unshelve (Book.set_y _ _)) in *.
  assert (Hfh : Book.isHeld free = false) by (subst free; by rewrite Hb1).
  assert (Hfs : Book.isShelved free = false) by reflexivity.
  assert (Hff : Book.friction free = Num.frac 9 10)
    by (subst free; rewrite Hb1; exact Hf).
  assert (Hvx : Num.abs (Book.vx free) <= Book.topSpeed)
    by (subst free; rewrite Hb1; by vm_compute).
  assert (Hvy : Num.abs (Book.vy free) <= Book.topSpeed)
    by (subst free; rewrite Hb1; by vm_compute).
  split; [exact Hfh|]. split; [exact Hfs|]. split.
  - generalize dependent free. intros free Hdeep _ _ _ _ _.
    apply (overlaps_within_reach free free (Shelf.base this) 0 0 Hdeep);
      [by vm_compute|by vm_compute|by vm_compute|by vm_compute
      |ring|ring|reflexivity|reflexivity].
  - by apply (stuck_forever st shs (Shelf.base this)).
Qed.

Lemma removed_book_is_trapped_witness :
  (Shelf.addBook 1%nat Sample.redShelf Sample.library).1.1 = true
  /\ exists i : nat,
       Shelf.slot
         (Shelf.renderBooks
            (Shelf.addBook 1%nat Sample.redShelf Sample.library).1.2
            (Shelf.addBook 1%nat Sample.redShelf Sample.library).2).1 i
       = Some (Some 1%nat).
Proof.
  split; [reflexivity|].
  destruct (removed_book_is_trapped 1%nat Sample.redShelf Sample.library
              {| player := None;
                 shelves := Some (Shelf.base Sample.redShelf :: nil) |}
              (Shelf.base Sample.redShelf :: nil)
              (Random.const (Num.frac 1 2)) (Num.frac 1 60 :: nil))
    as (i & Hi & _); try reflexivity.
  - cbn. lia.
  - left.
  - intros j Hs. unfold Shelf.slot in Hs. cbn in Hs.
    destruct j as [|[|[|[|[|[|j]]]]]]; discriminate Hs.
  - intros n. split; by vm_compute.
  - repeat constructor; by vm_compute.
  - by exists i.
Defined.

Local Close Scope Qc_scope.

(** ** Book: what a render writes *)

Section BookGlowImage.

Import Book.

Lemma renderCounted_render this : (renderCounted this).1 = render this.
Proof.
  unfold renderCounted, render, renderOptimizedGlowCounted,
    renderOptimizedGlow, createGlowCanvas.
  destruct (negb (visible this)); [reflexivity|].
  destruct (negb (isHeld this) && negb (isShelved this)); [|reflexivity].
  by destruct (negb (glowCanvas this) || glowNeedsUpdate this).
Qed.

Lemma renderCounted_count this :
  (renderCounted this).2
  = if visible this && negb (isHeld this) && negb (isShelved this)
       && (negb (glowCanvas this) || glowNeedsUpdate this)
    then 1%nat else 0%nat.
Proof.
  unfold renderCounted, renderOptimizedGlowCounted, createGlowCanvas.
  destruct (visible this), (isHeld this), (isShelved this); cbn;
    try reflexivity.
  by destruct (negb (glowCanvas this) || glowNeedsUpdate this).
Qed.

Lemma step_glow b g c :
  glowCanvas (BookLife.step (b, g) c).1 = glowCanvas b
  /\ glowNeedsUpdate (BookLife.step (b, g) c).1 = glowNeedsUpdate b.
Proof.
  destruct c as [o|px py tv|s| |dt state]; cbn [BookLife.step fst snd];
    try done.
  - unfold drop. by destruct tv as [[tx ty]|].
  - pose proof (update_identity dt state b g) as H.
    unfold identity in H. by inversion H.
Qed.

Lemma observe_cached w e :
  BookLife.cached w -> BookLife.cached (BookLife.observe w e).
Proof.
  destruct w as [[b g] n]. unfold BookLife.cached. cbn [fst snd].
  intros H. destruct e as [c|]; cbn [BookLife.observe fst snd].
  - destruct (step_glow b g c) as [-> ->]. exact H.
  - pose proof (renderCounted_count b) as Hn.
    pose proof (renderCounted_render b) as Hr.
    destruct (renderCounted b) as [b1 created]. cbn [fst snd] in *.
    subst b1 created. unfold render, renderOptimizedGlow.
    destruct H as [(-> & Hc & Hu)|(-> & Hc & Hu)]; rewrite Hc, Hu;
      destruct (visible b), (isHeld b), (isShelved b); cbn;
      rewrite ?Hc, ?Hu; tauto.
Qed.

Lemma watch_cached events : forall w,
  BookLife.cached w -> BookLife.cached (BookLife.watch events w).
Proof.
  induction events as [|e events IH]; intros w H; [exact H|].
  apply (IH (BookLife.observe w e)). by apply observe_cached.
Qed.

End BookGlowImage.

(** X21: [Book.render] writes nothing but the glow cache, and a book
    creates its glow image at most once in its life.  [renderCounted] is
    [render] with the images it creates counted.  For an invisible, held or
    shelved book a render changes nothing.  For a visible book on the floor
    it leaves the cache created and up to date.  A render creates one image
    when the book is visible and on the floor and has no image or an
    outdated one, and none otherwise; a second render, run right after the
    first, changes nothing more and creates nothing.  Through any sequence
    of [pickup], [drop], [shelve], [unshelve] and [update] calls and render
    passes on a new book, at most one image is created in total: one has
    been created exactly when [glowCanvas] is set, and from then on the
    cache counts as up to date. *)
Theorem render_creates_glow_once (this : Book.t) (px py : Qc) (c : string)
    (g : Random.t) (events : list BookLife.event) :
  let this' := Book.render this in
  (this' = (Book.renderCounted this).1
   /\ this' = Book.set_glowNeedsUpdate (Book.glowNeedsUpdate this')
               (Book.set_glowCanvas (Book.glowCanvas this') this)
   /\ (Book.visible this = false \/ Book.isHeld this = true
       \/ Book.isShelved this = true -> this' = this)
   /\ (Book.visible this = true -> Book.isHeld this = false ->
       Book.isShelved this = false ->
       Book.glowCanvas this' = true /\ Book.glowNeedsUpdate this' = false)
   /\ Book.render this' = this')
  /\ (Book.renderCounted this).2
     = (if Book.visible this && negb (Book.isHeld this)
           && negb (Book.isShelved this)
           && (negb (Book.glowCanvas this) || Book.glowNeedsUpdate this)
        then 1%nat else 0%nat)
  /\ (Book.renderCounted this').2 = 0%nat
  /\ (let w := BookLife.watch events (Book.new px py c, g, 0%nat) in
      (w.2 <= 1)%nat
      /\ (w.2 = 1%nat <-> Book.glowCanvas w.1.1 = true)
      /\ Book.glowNeedsUpdate w.1.1 = negb (Book.glowCanvas w.1.1)).
Proof.
  cbn zeta. split; [|split; [apply renderCounted_count|split]].
  - split; [symmetry; apply renderCounted_render|].
    unfold Book.render, Book.renderOptimizedGlow, Book.visible.
    destruct this as [[bx bY w hh vx0 vy0 vis] col held shelved ho sh fr bd
                      gr rot rs sp gi gd gc gn].
    cbn. destruct vis, held, shelved, gc, gn; cbn;
      (split; [reflexivity|]); (split; [intros [?|[?|?]]; done|]);
      (split; [done|reflexivity]).
  - rewrite renderCounted_count.
    unfold Book.render, Book.renderOptimizedGlow, Book.visible.
    destruct this as [[bx bY w hh vx0 vy0 vis] col held shelved ho sh fr bd
                      gr rot rs sp gi gd gc gn].
    cbn. by destruct vis, held, shelved, gc, gn.
  - assert (H : BookLife.cached
                  (BookLife.watch events (Book.new px py c, g, 0%nat))).
    { apply watch_cached. left. by cbn. }
    destruct (BookLife.watch events (Book.new px py c, g, 0%nat))
      as [[b g1] n].
    unfold BookLife.cached in H. cbn [fst snd] in *.
    destruct H as [(-> & -> & ->)|(-> & -> & ->)].
    + split; [lia|]. split; [|reflexivity]. split; discriminate.
    + split; [lia|]. split; [|reflexivity]. by split.
Qed.

Lemma render_creates_glow_once_witness :
  let events :=
    BookLife.Render :: BookLife.Call (BookLife.Update (Num.frac 1 60) None)
    :: BookLife.Render :: BookLife.Call (BookLife.Pickup (Some 1%nat))
    :: BookLife.Render :: BookLife.Call (BookLife.Drop 0 0 None)
    :: BookLife.Render :: BookLife.Render :: nil in
  let w := BookLife.watch events (Book.new 0 0 "red", Random.const 0, 0%nat) in
  (Book.renderCounted Sample.freshBook).2 = 1%nat
  /\ (Book.renderCounted (Book.render Sample.freshBook)).2 = 0%nat
  /\ w.2 = 1%nat /\ Book.glowCanvas w.1.1 = true.
Proof.
  cbn zeta.
  pose proof (render_creates_glow_once Sample.freshBook 0 0 "red"
                (Random.const 0)
                (BookLife.Render
                 :: BookLife.Call (BookLife.Update (Num.frac 1 60) None)
                 :: BookLife.Render
                 :: BookLife.Call (BookLife.Pickup (Some 1%nat))
                 :: BookLife.Render
                 :: BookLife.Call (BookLife.Drop 0 0 None)
                 :: BookLife.Render :: BookLife.Render :: nil)) as H.
  cbn zeta in H. destruct H as (_ & Hfirst & Hsecond & _ & Hiff & _).
  split; [exact Hfirst|]. split; [exact Hsecond|].
  split; [reflexivity|]. exact (proj1 Hiff eq_refl).
Defined.
